(** * map_converter.py: conversion of simulation node/link files to GPSMap.json

    A shallow embedding of [src/map_converter.py] and the verification of
    its specification.  The script is dynamically typed Python working on
    decoded JSON, so the embedding keeps the dynamic values ([json]), the
    exceptions the field accesses can raise ([exn]) and the [try]/[except]
    structure of the source.  The seven accumulator lists of
    [convert_simulation_data] are the fields of [state]; the file system,
    the encoding of standard output and the one builtin whose result is
    not determined by the script ([float] on a string) are the fields of
    [world].

    A [print] raises [UnicodeEncodeError] when standard output cannot
    encode a character of its text, as happens with UTF-8 for a string
    that holds a lone surrogate, which [json.load] accepts.  The prints
    that show a value read from the manifest or from a data file are part
    of the embedding ([py_print]): a string is shown as it is, any other
    value through [repr], which escapes the surrogates; standard output
    is taken to encode every other character, as UTF-8 does.  The other
    prints cannot fail and are left out: they show constant text, numbers,
    texts of exceptions, the two paths passed as arguments, which are
    taken to be printable, or strings that an earlier print of the same
    run has already shown. *)

From Stdlib Require Import Bool List ZArith Lia Ascii String Floats.
Import ListNotations.

Local Open Scope string_scope.
Local Open Scope list_scope.

Set Implicit Arguments.

(** ** Python values and exceptions *)

(** The values [json.load] produces.  Strings are byte strings (the UTF-8
    text of the file); a decoded object is the list of its items in
    insertion order, where [dict_lookup] finds the value of a key. *)
#[warnings="-register-all"]
Inductive json : Type :=
| JNull
| JBool (b : bool)
| JInt (z : Z)
| JFloat (f : float)
| JStr (s : string)
| JArr (l : list json)
| JObj (items : list (string * json)).

(** The exception classes that reach an [except] clause of the script.
    [UnicodeEncodeError] is a subclass of [ValueError]. *)
Inductive exn : Type :=
| KeyError (key : string)
| TypeError
| AttributeError
| ValueError
| OverflowError
| NameError
| UnicodeEncodeError.

Inductive res (A : Type) : Type :=
| Ok (a : A)
| Err (e : exn).
Arguments Ok {A} a.
Arguments Err {A} e.

Definition bind {A B : Type} (r : res A) (k : A -> res B) : res B :=
  match r with
  | Ok a => k a
  | Err e => Err e
  end.

Notation "x <- r ;; k" := (bind r (fun x => k))
  (at level 61, r at next level, right associativity).

(** [bool(v)]: the truth value Python gives to a decoded value. *)
Definition truthy (v : json) : bool :=
  match v with
  | JNull => false
  | JBool b => b
  | JInt z => negb (Z.eqb z 0)
  | JFloat f => negb (PrimFloat.eqb f PrimFloat.zero)
  | JStr s => negb (String.eqb s "")
  | JArr l => match l with [] => false | _ :: _ => true end
  | JObj items => match items with [] => false | _ :: _ => true end
  end.

Fixpoint dict_lookup (k : string) (items : list (string * json)) : option json :=
  match items with
  | [] => None
  | (k', v) :: rest => if String.eqb k k' then Some v else dict_lookup k rest
  end.

(** [v.get(k, default)]: only a dict has the method. *)
Definition py_get (v : json) (k : string) (default : json) : res json :=
  match v with
  | JObj items =>
      Ok (match dict_lookup k items with Some x => x | None => default end)
  | _ => Err AttributeError
  end.

(** [v[k]] with a string key [k]. *)
Definition py_getitem (v : json) (k : string) : res json :=
  match v with
  | JObj items =>
      match dict_lookup k items with
      | Some x => Ok x
      | None => Err (KeyError k)
      end
  | _ => Err TypeError
  end.

(** [needle in hay] on strings: substring test. *)
Fixpoint str_contains (needle hay : string) : bool :=
  String.prefix needle hay ||
  match hay with
  | EmptyString => false
  | String _ hay' => str_contains needle hay'
  end.

Definition is_str (s : string) (v : json) : bool :=
  match v with
  | JStr s' => String.eqb s s'
  | _ => false
  end.

(** [k in v] for a string [k]: substring of a string, element of a list,
    key of a dict; the other values are not containers. *)
Definition py_in (k : string) (v : json) : res bool :=
  match v with
  | JStr s => Ok (str_contains k s)
  | JArr l => Ok (existsb (is_str k) l)
  | JObj items =>
      Ok (match dict_lookup k items with Some _ => true | None => false end)
  | _ => Err TypeError
  end.

Fixpoint str_chars (s : string) : list json :=
  match s with
  | EmptyString => []
  | String c s' => JStr (String c EmptyString) :: str_chars s'
  end.

(** The sequence a [for] loop walks: the elements of a list, the keys of a
    dict, the characters of a string. *)
Definition py_iter (v : json) : res (list json) :=
  match v with
  | JArr l => Ok l
  | JObj items => Ok (map (fun kv => JStr (fst kv)) items)
  | JStr s => Ok (str_chars s)
  | _ => Err TypeError
  end.

Fixpoint str_drop (n : nat) (s : string) : string :=
  match n, s with
  | O, _ => s
  | S n', String _ s' => str_drop n' s'
  | S _, EmptyString => EmptyString
  end.

(** [s.replace(old, new, 1)]: the leftmost occurrence of [old] only. *)
Fixpoint str_replace1 (old new s : string) : string :=
  if String.prefix old s then new ++ str_drop (String.length old) s
  else match s with
       | EmptyString => EmptyString
       | String c s' => String c (str_replace1 old new s')
       end.

(** [float(z)] on an int: the nearest double, [OverflowError] beyond the
    largest one. *)
Definition float_of_int (z : Z) : res float :=
  match SpecFloat.binary_normalize FloatOps.prec FloatOps.emax z 0 false with
  | S754_infinity _ => Err OverflowError
  | sf => Ok (SF2Prim sf)
  end.

(** ** The world outside the script *)

(** Result of [open(path, 'r')] followed by [json.load]. *)
Inductive read_result : Type :=
| ReadOk (v : json)
| ReadNotFound            (* FileNotFoundError *)
| ReadJSONDecodeError     (* json.JSONDecodeError *)
| ReadOtherError.         (* any other exception *)

Record world : Type := {
  (** can standard output encode every character of the string *)
  encodable : string -> bool;
  (** [float(s)] on a string; [None] is [ValueError] *)
  float_of_str : string -> option float;
  (** reading and decoding the file at a path *)
  read_file : string -> read_result;
  (** reading and decoding an already open file descriptor *)
  read_fd : Z -> read_result;
  (** [os.path.exists] *)
  path_exists : string -> bool;
  (** [os.path.dirname] *)
  dirname : string -> string;
  (** does [os.makedirs] succeed *)
  makedirs_ok : string -> bool;
  (** does [open(path, 'w')] succeed *)
  open_w_ok : string -> bool;
  (** does [json.dump] to the open file succeed *)
  dump_ok : string -> bool
}.

(** [float(v)] *)
Definition py_float (w : world) (v : json) : res float :=
  match v with
  | JStr s =>
      match float_of_str w s with
      | Some f => Ok f
      | None => Err ValueError
      end
  | JInt z => float_of_int z
  | JFloat f => Ok f
  | JBool b => Ok (if b then PrimFloat.one else PrimFloat.zero)
  | _ => Err TypeError
  end.

(** Can [v] be shown in an f-string that is printed: a string is shown as
    it is; any other value is shown through [repr], which escapes the
    surrogates. *)
Definition printable (w : world) (v : json) : bool :=
  match v with
  | JStr s => encodable w s
  | _ => true
  end.

(** [print] of an f-string that shows the values [shown]. *)
Definition py_print (w : world) (shown : list json) : res unit :=
  if forallb (printable w) shown then Ok tt else Err UnicodeEncodeError.

Arguments py_print : simpl never.

(** [open(p, 'r')] and [json.load] for whatever value [p] the manifest
    holds: a string is a path, an int (or bool) a file descriptor, anything
    else a [TypeError]. *)
Definition open_load (w : world) (p : json) : read_result :=
  match p with
  | JStr s => read_file w s
  | JInt z => read_fd w z
  | JBool b => read_fd w (if b then 1%Z else 0%Z)
  | _ => ReadOtherError
  end.

(** ** The data the script builds *)

(** The dict appended to [all_vertices] (lines 79-85). *)
Record vertex : Type := {
  v_id : json;
  v_classType : json;
  v_resourceId : json;
  v_latitude : json;
  v_longitude : json
}.

(** The nested ["label"] dict of an edge (lines 136-141). *)
Record edge_label : Type := {
  l_id : json;
  l_resourceId : json;
  l_classType : json;
  l_length : float
}.

(** The dict appended to [all_edges] (lines 132-142). *)
Record edge : Type := {
  e_source_id : json;
  e_target_id : json;
  e_weight : float;
  e_label : edge_label
}.

(** [gps_map_data] (lines 185-189). *)
Record gps_map : Type := {
  nodes : list vertex;
  edges : list edge;
  directed : bool
}.

(** The [err_msg] strings, by the f-string that builds each and the values
    it interpolates. *)
Inductive err_msg : Type :=
| NodeFileNotFound (file_path original_file_path : json)    (* line 95 *)
| NodeJsonError (file_path : json)                          (* line 99 *)
| NodeKeyError (key : string) (node_id file_path : json)    (* line 88 *)
| LinkFileNotFound (file_path original_file_path : json)    (* line 156 *)
| LinkJsonError (file_path : json)                          (* line 160 *)
| LinkKeyError (key : string) (link_id file_path : json)    (* line 145 *)
| LinkLengthNotFloat (link_id file_path length_str : json). (* line 149 *)

(** The calls that touch the file system, in the order they are made. *)
Inductive io_event : Type :=
| EvOpenRead (path : json)
| EvExists (path : string)
| EvMakedirs (dir : string)
| EvOpenWrite (path : string)
| EvDump (path : string) (doc : gps_map).

(** The local lists of [convert_simulation_data] (lines 17-23) and the log
    of file-system calls. *)
Record state : Type := {
  all_vertices : list vertex;
  all_edges : list edge;
  node_files_processed : list json;
  link_files_processed : list json;
  files_not_found : list err_msg;
  json_errors : list err_msg;
  key_errors : list err_msg;
  io : list io_event
}.

Definition init_state : state :=
  {| all_vertices := []; all_edges := [];
     node_files_processed := []; link_files_processed := [];
     files_not_found := []; json_errors := []; key_errors := [];
     io := [] |}.

Definition add_vertex (v : vertex) (st : state) : state :=
  {| all_vertices := all_vertices st ++ [v]; all_edges := all_edges st;
     node_files_processed := node_files_processed st;
     link_files_processed := link_files_processed st;
     files_not_found := files_not_found st; json_errors := json_errors st;
     key_errors := key_errors st; io := io st |}.

Definition add_edge (e : edge) (st : state) : state :=
  {| all_vertices := all_vertices st; all_edges := all_edges st ++ [e];
     node_files_processed := node_files_processed st;
     link_files_processed := link_files_processed st;
     files_not_found := files_not_found st; json_errors := json_errors st;
     key_errors := key_errors st; io := io st |}.

Definition add_node_file (p : json) (st : state) : state :=
  {| all_vertices := all_vertices st; all_edges := all_edges st;
     node_files_processed := node_files_processed st ++ [p];
     link_files_processed := link_files_processed st;
     files_not_found := files_not_found st; json_errors := json_errors st;
     key_errors := key_errors st; io := io st |}.

Definition add_link_file (p : json) (st : state) : state :=
  {| all_vertices := all_vertices st; all_edges := all_edges st;
     node_files_processed := node_files_processed st;
     link_files_processed := link_files_processed st ++ [p];
     files_not_found := files_not_found st; json_errors := json_errors st;
     key_errors := key_errors st; io := io st |}.

Definition add_file_not_found (m : err_msg) (st : state) : state :=
  {| all_vertices := all_vertices st; all_edges := all_edges st;
     node_files_processed := node_files_processed st;
     link_files_processed := link_files_processed st;
     files_not_found := files_not_found st ++ [m];
     json_errors := json_errors st;
     key_errors := key_errors st; io := io st |}.

Definition add_json_error (m : err_msg) (st : state) : state :=
  {| all_vertices := all_vertices st; all_edges := all_edges st;
     node_files_processed := node_files_processed st;
     link_files_processed := link_files_processed st;
     files_not_found := files_not_found st;
     json_errors := json_errors st ++ [m];
     key_errors := key_errors st; io := io st |}.

Definition add_key_error (m : err_msg) (st : state) : state :=
  {| all_vertices := all_vertices st; all_edges := all_edges st;
     node_files_processed := node_files_processed st;
     link_files_processed := link_files_processed st;
     files_not_found := files_not_found st; json_errors := json_errors st;
     key_errors := key_errors st ++ [m]; io := io st |}.

Definition log_io (ev : io_event) (st : state) : state :=
  {| all_vertices := all_vertices st; all_edges := all_edges st;
     node_files_processed := node_files_processed st;
     link_files_processed := link_files_processed st;
     files_not_found := files_not_found st; json_errors := json_errors st;
     key_errors := key_errors st; io := io st ++ [ev] |}.

(** ** Node files (lines 67-103) *)

(** The dict display of lines 79-85; its items are evaluated in order. *)
Definition build_vertex (resource_id node : json) : res vertex :=
  id <- py_getitem node "id" ;;
  type_actor <- py_getitem node "typeActor" ;;
  d1 <- py_getitem node "data" ;;
  c1 <- py_getitem d1 "content" ;;
  latitude <- py_getitem c1 "latitude" ;;
  d2 <- py_getitem node "data" ;;
  c2 <- py_getitem d2 "content" ;;
  longitude <- py_getitem c2 "longitude" ;;
  Ok {| v_id := id; v_classType := type_actor; v_resourceId := resource_id;
        v_latitude := latitude; v_longitude := longitude |}.

(** The [except] clauses of lines 87-92.  Each prints before anything
    else is done (line 89 before the append of line 90); an exception
    raised in a clause leaves the loop. *)
Definition node_except (w : world) (file_path node : json) (e : exn)
  (st : state) : res state :=
  match e with
  | KeyError k =>
      node_id <- py_get node "id" (JStr "unknown ID") ;;
      _ <- py_print w [node_id; file_path] ;;              (* line 89 *)
      Ok (add_key_error (NodeKeyError k node_id file_path) st)
  | _ =>
      _ <- py_print w [file_path; node] ;;                 (* line 92 *)
      Ok st
  end.

(** One iteration of the loop of line 77. *)
Definition process_node (w : world) (file_path resource_id : json)
  (st : state) (node : json) : res state :=
  match build_vertex resource_id node with
  | Ok vertex => Ok (add_vertex vertex st)
  | Err e => node_except w file_path node e st
  end.

(** The loop of line 77: the state it reaches and the exception that left
    it, if one did. *)
Fixpoint node_loop (w : world) (file_path resource_id : json)
  (nodes_data : list json) (st : state) : state * option exn :=
  match nodes_data with
  | [] => (st, None)
  | node :: rest =>
      match process_node w file_path resource_id st node with
      | Ok st' => node_loop w file_path resource_id rest st'
      | Err e => (st, Some e)
      end
  end.

(** Lines 68-103. *)
Definition process_node_file (w : world)
  (file_path original_file_path resource_id : json) (st : state) : state :=
  let st := add_node_file original_file_path st in
  let st := log_io (EvOpenRead file_path) st in
  match open_load w file_path with
  | ReadOk (JArr nodes_data) =>
      (* an exception leaving the loop is caught at line 102 *)
      fst (node_loop w file_path resource_id nodes_data st)
  | ReadOk _ => st                                         (* line 75 *)
  | ReadNotFound =>
      add_file_not_found (NodeFileNotFound file_path original_file_path) st
  | ReadJSONDecodeError => add_json_error (NodeJsonError file_path) st
  | ReadOtherError => st
  end.

(** ** Link files (lines 106-164) *)

(** [a or b] where [b] is only evaluated when [a] is falsy. *)
Definition py_or (a : json) (b : res json) : res json :=
  if truthy a then Ok a else b.

(** Lines 120-121 and 122-123, for [end_key] ["from_node"] and
    ["to_node"]. *)
Definition endpoint (link : json) (end_key : string) : res json :=
  d <- py_get link "data" (JObj []) ;;
  c <- py_get d "content" (JObj []) ;;
  primary <- py_get c end_key JNull ;;
  py_or primary
    (deps <- py_get link "dependencies" (JObj []) ;;
     n <- py_get deps end_key (JObj []) ;;
     py_get n "id" JNull).

(** Lines 120-125: [(source_node_id, target_node_id, link_id, length_str)] *)
Definition link_fields (link : json) : res (json * json * json * json) :=
  source_node_id <- endpoint link "from_node" ;;
  target_node_id <- endpoint link "to_node" ;;
  link_id <- py_getitem link "id" ;;
  d <- py_getitem link "data" ;;
  c <- py_getitem d "content" ;;
  length_str <- py_getitem c "length" ;;
  Ok (source_node_id, target_node_id, link_id, length_str).

(** The [except] clauses of lines 144-153.  [length_str] is the binding of
    that variable when the exception was raised in this iteration; the
    clause of line 148 is entered for [ValueError] and its subclass
    [UnicodeEncodeError], which come from [float(length_str)] and from the
    print of line 129, where [length_str] is bound.  Each clause prints
    before it appends; an exception raised in a clause leaves the loop. *)
Definition link_except (w : world) (file_path link : json)
  (length_str : option json) (e : exn) (st : state) : res state :=
  match e with
  | KeyError k =>
      link_id <- py_get link "id" (JStr "unknown ID") ;;
      _ <- py_print w [link_id; file_path] ;;              (* line 146 *)
      Ok (add_key_error (LinkKeyError k link_id file_path) st)
  | ValueError | UnicodeEncodeError =>
      link_id <- py_get link "id" (JStr "unknown ID") ;;
      match length_str with
      | Some v =>
          _ <- py_print w [link_id; file_path; v] ;;       (* line 150 *)
          Ok (add_key_error (LinkLengthNotFloat link_id file_path v) st)
      | None => Err NameError
      end
  | _ =>
      _ <- py_print w [file_path; link] ;;                 (* line 153 *)
      Ok st
  end.

Arguments link_except : simpl never.

(** One iteration of the loop of line 116. *)
Definition process_link (w : world) (file_path resource_id class_type : json)
  (st : state) (link : json) : res state :=
  match link_fields link with
  | Err e => link_except w file_path link None e st
  | Ok (source_node_id, target_node_id, link_id, length_str) =>
      match py_float w length_str with
      | Err e => link_except w file_path link (Some length_str) e st
      | Ok length_float =>
          if negb (truthy source_node_id) || negb (truthy target_node_id)
          then
            match py_print w [link_id; file_path] with     (* line 129 *)
            | Ok _ => Ok st                                (* line 130 *)
            | Err e => link_except w file_path link (Some length_str) e st
            end
          else
            Ok (add_edge
                  {| e_source_id := source_node_id;
                     e_target_id := target_node_id;
                     e_weight := length_float;
                     e_label := {| l_id := link_id;
                                   l_resourceId := resource_id;
                                   l_classType := class_type;
                                   l_length := length_float |} |} st)
      end
  end.

Fixpoint link_loop (w : world) (file_path resource_id class_type : json)
  (links_data : list json) (st : state) : state * option exn :=
  match links_data with
  | [] => (st, None)
  | link :: rest =>
      match process_link w file_path resource_id class_type st link with
      | Ok st' => link_loop w file_path resource_id class_type rest st'
      | Err e => (st, Some e)
      end
  end.

(** Lines 107-164. *)
Definition process_link_file (w : world)
  (file_path original_file_path resource_id class_type : json) (st : state)
  : state :=
  let st := add_link_file original_file_path st in
  let st := log_io (EvOpenRead file_path) st in
  match open_load w file_path with
  | ReadOk (JArr links_data) =>
      fst (link_loop w file_path resource_id class_type links_data st)
  | ReadOk _ => st                                         (* line 114 *)
  | ReadNotFound =>
      add_file_not_found (LinkFileNotFound file_path original_file_path) st
  | ReadJSONDecodeError => add_json_error (LinkJsonError file_path) st
  | ReadOtherError => st
  end.

(** ** The pass over the manifest (lines 44-167) *)

(** Lines 45-48: [(class_type, resource_id, original_file_path)] *)
Definition entry_fields (data_source_info : json)
  : res (json * json * json) :=
  class_type <- py_get data_source_info "classType" (JStr "") ;;
  resource_id <- py_get data_source_info "id" JNull ;;
  data_source <- py_get data_source_info "dataSource" (JObj []) ;;
  source_details <- py_get data_source "info" (JObj []) ;;
  original_file_path <- py_get source_details "path" JNull ;;
  Ok (class_type, resource_id, original_file_path).

(** A prefix argument counts in the tests of lines 56 and 252 when it is
    given and not the empty string. *)
Definition prefix_truthy (p : option string) : bool :=
  match p with
  | Some s => negb (String.eqb s "")
  | None => false
  end.

(** Lines 55-64: [file_path]. *)
Definition resolve_path (docker_path_prefix host_path_prefix : option string)
  (original_file_path : json) : res json :=
  if prefix_truthy docker_path_prefix && prefix_truthy host_path_prefix then
    match docker_path_prefix, host_path_prefix, original_file_path with
    | Some dp, Some hp, JStr s =>
        if String.prefix dp s then Ok (JStr (str_replace1 dp hp s))
        else Ok original_file_path
    | Some _, Some _, _ => Err AttributeError   (* no [startswith] method *)
    | _, _, _ => Ok original_file_path
    end
  else Ok original_file_path.

(** The body of the loop of line 44.  The prints of lines 51, 60, 63, 68,
    107 and 167 are outside every [try]: an exception raised by one of them
    leaves the function.  Line 63 shows [file_path], which there is
    [original_file_path]; line 60 shows both. *)
Definition process_entry (w : world)
  (docker_path_prefix host_path_prefix : option string)
  (st : state) (data_source_info : json) : state * option exn :=
  match entry_fields data_source_info with
  | Err e => (st, Some e)
  | Ok (class_type, resource_id, original_file_path) =>
      if negb (truthy resource_id) || negb (truthy original_file_path)
      then
        match py_print w [data_source_info] with           (* line 51 *)
        | Err e => (st, Some e)
        | Ok _ => (st, None)                               (* line 52 *)
        end
      else
        match resolve_path docker_path_prefix host_path_prefix
                original_file_path with
        | Err e => (st, Some e)
        | Ok file_path =>
            match py_print w [original_file_path; file_path] with
            | Err e => (st, Some e)                        (* lines 60, 63 *)
            | Ok _ =>
                match py_in "mobility.actor.Node" class_type with
                | Err e => (st, Some e)
                | Ok true =>
                    match py_print w [file_path; resource_id] with
                    | Err e => (st, Some e)                (* line 68 *)
                    | Ok _ =>
                        (process_node_file w file_path original_file_path
                           resource_id st, None)
                    end
                | Ok false =>
                    match py_in "mobility.actor.Link" class_type with
                    | Err e => (st, Some e)
                    | Ok true =>
                        match py_print w [file_path; resource_id] with
                        | Err e => (st, Some e)            (* line 107 *)
                        | Ok _ =>
                            (process_link_file w file_path
                               original_file_path resource_id class_type
                               st, None)
                        end
                    | Ok false =>
                        match py_print w [class_type; original_file_path]
                        with
                        | Err e => (st, Some e)            (* line 167 *)
                        | Ok _ => (st, None)
                        end
                    end
                end
            end
        end
  end.

Fixpoint entries_loop (w : world)
  (docker_path_prefix host_path_prefix : option string)
  (entries : list json) (st : state) : state * option exn :=
  match entries with
  | [] => (st, None)
  | data_source_info :: rest =>
      match process_entry w docker_path_prefix host_path_prefix st
              data_source_info with
      | (st', None) =>
          entries_loop w docker_path_prefix host_path_prefix rest st'
      | (st', Some e) => (st', Some e)
      end
  end.

(** ** Finalization (lines 185-216) *)

Definition gps_map_data (st : state) : gps_map :=
  {| nodes := all_vertices st; edges := all_edges st; directed := false |}.

Definition is_empty {A : Type} (l : list A) : bool :=
  match l with
  | [] => true
  | _ :: _ => false
  end.

(** The test of line 198. *)
Definition no_data_due_to_errors (st : state) : bool :=
  is_empty (all_vertices st) && is_empty (all_edges st) &&
  (negb (is_empty (files_not_found st)) || negb (is_empty (json_errors st))
   || negb (is_empty (key_errors st))).

(** How a call of [convert_simulation_data] ends. *)
Inductive outcome : Type :=
| Raised (e : exn) (st : state)   (* an exception leaves the function *)
| ConfigAbort (st : state)        (* [return] at line 31, 34, 37 or 41 *)
| NoDataAbort (st : state)        (* [return] at line 200 *)
| Written (st : state)            (* line 212 is reached *)
| WriteFailed (st : state).       (* an [except] clause of lines 213-216 *)

(** Lines 209-216. *)
Definition write_output (w : world) (output_path : string) (st : state)
  : outcome :=
  let st := log_io (EvOpenWrite output_path) st in
  if open_w_ok w output_path then
    let st := log_io (EvDump output_path (gps_map_data st)) st in
    if dump_ok w output_path then Written st else WriteFailed st
  else WriteFailed st.

(** Lines 202-216. *)
Definition save_output (w : world) (output_path : string) (st : state)
  : outcome :=
  let output_dir := dirname w output_path in
  if negb (String.eqb output_dir "") then
    let st := log_io (EvExists output_dir) st in
    if negb (path_exists w output_dir) then
      let st := log_io (EvMakedirs output_dir) st in
      if makedirs_ok w output_dir then write_output w output_path st
      else WriteFailed st
    else write_output w output_path st
  else write_output w output_path st.

(** Lines 170-216, after the loop. *)
Definition finalize (w : world) (output_path : string) (st : state)
  : outcome :=
  if no_data_due_to_errors st then NoDataAbort st
  else save_output w output_path st.

(** ** [convert_simulation_data] (lines 5-216) *)

(** How the part of the function up to the end of the loop (lines 17-167)
    ends. *)
Inductive pass_result : Type :=
| PassRaised (e : exn) (st : state)  (* an exception leaves the function *)
| PassAbort (st : state)             (* [return] at line 31, 34, 37 or 41 *)
| PassDone (st : state).             (* the loop of line 44 is over *)

(** Lines 17-167. *)
Definition manifest_pass (w : world) (simulation_config_path : string)
  (docker_path_prefix host_path_prefix : option string) : pass_result :=
  let st := log_io (EvOpenRead (JStr simulation_config_path)) init_state in
  match read_file w simulation_config_path with
  | ReadOk config =>
      match py_in "actorsDataSources" config with          (* line 39 *)
      | Err e => PassRaised e st
      | Ok false => PassAbort st
      | Ok true =>
          match
            (sources <- py_get config "actorsDataSources" (JArr []) ;;
             py_iter sources)                              (* line 44 *)
          with
          | Err e => PassRaised e st
          | Ok entries =>
              match entries_loop w docker_path_prefix host_path_prefix
                      entries st with
              | (st', Some e) => PassRaised e st'
              | (st', None) => PassDone st'
              end
          end
      end
  | ReadNotFound | ReadJSONDecodeError | ReadOtherError => PassAbort st
  end.

Definition convert_simulation_data (w : world)
  (simulation_config_path output_path : string)
  (docker_path_prefix host_path_prefix : option string) : outcome :=
  match manifest_pass w simulation_config_path docker_path_prefix
          host_path_prefix with
  | PassRaised e st => Raised e st
  | PassAbort st => ConfigAbort st
  | PassDone st => finalize w output_path st
  end.

(** ** The command line (lines 219-266) *)

(** The namespace [parser.parse_args()] returns. *)
Record args : Type := {
  config_file : string;
  output_file : string;
  docker_prefix : option string;
  host_prefix : option string
}.

Inductive main_outcome : Type :=
| UsageError                      (* [parser.error], exit status 2 *)
| ConfigMissing                   (* [exit(1)] at line 258 *)
| Converted (o : outcome).        (* line 261 *)

Definition outcome_state (o : outcome) : state :=
  match o with
  | Raised _ st | ConfigAbort st | NoDataAbort st | Written st
  | WriteFailed st => st
  end.

(** The exit status of the process; an exception that leaves
    [convert_simulation_data] ends the script with status 1. *)
Definition exit_status (m : main_outcome) : Z :=
  match m with
  | UsageError => 2
  | ConfigMissing => 1
  | Converted (Raised _ _) => 1
  | Converted _ => 0
  end.

(** Lines 252-266: how the script ends, and every file-system call it made
    in order. *)
Definition main (w : world) (a : args) : main_outcome * list io_event :=
  if (prefix_truthy (docker_prefix a) && negb (prefix_truthy (host_prefix a)))
     || (negb (prefix_truthy (docker_prefix a)) && prefix_truthy (host_prefix a))
  then (UsageError, [])
  else if negb (path_exists w (config_file a))
  then (ConfigMissing, [EvExists (config_file a)])
  else
    let o := convert_simulation_data w (config_file a) (output_file a)
               (docker_prefix a) (host_prefix a) in
    (Converted o, EvExists (config_file a) :: io (outcome_state o)).

(** ** A concrete world

    A world given by a table of files, with CPython's reading of ASCII
    float literals, POSIX path names and a standard output in UTF-8.  A
    [string] holds the UTF-8 bytes of a Python string, a lone surrogate
    as the three bytes of its code point.  The examples below run the
    script in such worlds. *)

Module Concrete.

Local Open Scope Z_scope.

Definition digit_value (c : ascii) : option Z :=
  let n := Z.of_nat (nat_of_ascii c) in
  if (48 <=? n) && (n <=? 57) then Some (n - 48) else None.

(** The bytes [float] strips from both ends: tab to carriage return, and
    the space. *)
Definition is_space (c : ascii) : bool :=
  let n := Z.of_nat (nat_of_ascii c) in
  ((9 <=? n) && (n <=? 13)) || (n =? 32).

Definition lower (c : ascii) : ascii :=
  let n := nat_of_ascii c in
  if (65 <=? Z.of_nat n) && (Z.of_nat n <=? 90)
  then ascii_of_nat (n + 32) else c.

Fixpoint drop_spaces (s : list ascii) : list ascii :=
  match s with
  | c :: s' => if is_space c then drop_spaces s' else s
  | [] => []
  end.

Definition strip (s : list ascii) : list ascii :=
  rev (drop_spaces (rev (drop_spaces s))).

(** A run of digits in which single underscores may separate digits:
    the number read so far, how many digits it has, and the rest. *)
Fixpoint scan_digits (s : list ascii) (acc count : Z) (after_digit : bool)
  : Z * Z * list ascii :=
  match s with
  | c :: s' =>
      match digit_value c with
      | Some d => scan_digits s' (10 * acc + d) (count + 1) true
      | None =>
          match s' with
          | c' :: _ =>
              match digit_value c' with
              | Some _ =>
                  if Ascii.eqb c "_" && after_digit
                  then scan_digits s' acc count false
                  else (acc, count, s)
              | None => (acc, count, s)
              end
          | [] => (acc, count, s)
          end
      end
  | [] => (acc, count, [])
  end.

Definition scan_sign (s : list ascii) : bool * list ascii :=
  match s with
  | c :: s' =>
      if Ascii.eqb c "-" then (true, s')
      else if Ascii.eqb c "+" then (false, s') else (false, s)
  | [] => (false, [])
  end.

(** The double nearest to [m * 10 ^ e] (ties to even), for [m > 0]. *)
Definition round_decimal (neg : bool) (m : positive) (e : Z) : float :=
  SF2Prim
    (if 0 <=? e then
       SpecFloat.binary_normalize FloatOps.prec FloatOps.emax
         ((if neg then Z.neg m else Z.pos m) * 10 ^ e) 0 false
     else
       let d := 10 ^ (- e) in
       let s := Z.max 0 (64 + Z.log2 d - Z.log2 (Z.pos m)) in
       let n := Z.pos m * 2 ^ s in
       let q := n / d in
       let r := n mod d in
       let loc := if r =? 0 then SpecFloat.loc_Exact
                  else SpecFloat.loc_Inexact (2 * r ?= d) in
       SpecFloat.binary_round_aux FloatOps.prec FloatOps.emax neg q (- s) loc).

Definition signed (neg : bool) (f : float) : float :=
  if neg then PrimFloat.opp f else f.

(** [float(s)] for an ASCII string [s]. *)
Definition float_literal (s : string) : option float :=
  let (neg, body) := scan_sign (strip (list_ascii_of_string s)) in
  let word := string_of_list_ascii (map lower body) in
  if String.eqb word "inf" || String.eqb word "infinity"
  then Some (signed neg PrimFloat.infinity)
  else if String.eqb word "nan" then Some PrimFloat.nan
  else
    let '(int_part, int_count, rest) := scan_digits body 0 0 false in
    let '(mant, frac_count, rest) :=
      match rest with
      | c :: rest' =>
          if Ascii.eqb c "."
          then scan_digits rest' int_part 0 false
          else (int_part, 0, rest)
      | [] => (int_part, 0, [])
      end in
    if int_count + frac_count =? 0 then None
    else
      let exponent :=
        match rest with
        | [] => Some 0
        | c :: rest' =>
            if Ascii.eqb (lower c) "e" then
              let (eneg, rest'') := scan_sign rest' in
              match scan_digits rest'' 0 0 false with
              | (ev, ecount, []) =>
                  if ecount =? 0 then None
                  else Some (if eneg then - ev else ev)
              | _ => None
              end
            else None
        end in
      match exponent with
      | None => None
      | Some ev =>
          Some (match mant with
                | Z.pos m => round_decimal neg m (ev - frac_count)
                | _ => signed neg PrimFloat.zero
                end)
      end.

Fixpoint all_slashes (s : string) : bool :=
  match s with
  | EmptyString => true
  | String c s' => Ascii.eqb c "/" && all_slashes s'
  end.

(** [head.rstrip('/')] *)
Fixpoint rstrip_slashes (s : string) : string :=
  match s with
  | EmptyString => EmptyString
  | String c s' =>
      if all_slashes s then EmptyString else String c (rstrip_slashes s')
  end.

(** [p[:p.rfind('/') + 1]] *)
Fixpoint head_of (p : string) : string :=
  match p with
  | EmptyString => EmptyString
  | String c p' =>
      if str_contains "/" p then String c (head_of p') else EmptyString
  end.

(** [posixpath.dirname] *)
Definition posix_dirname (p : string) : string :=
  let head := head_of p in
  if negb (String.eqb head "") && negb (all_slashes head)
  then rstrip_slashes head else head.

(** Does the string hold a surrogate: the byte 237 followed by a byte
    from 160 on.  [escapable] says whether the surrogates counted are
    those from U+DC80 to U+DCFF (second byte 178 or 179), which the file
    system encoding turns into single bytes. *)
Fixpoint has_surrogate (escapable : bool) (s : string) : bool :=
  match s with
  | String c ((String c' _) as s') =>
      let n := Z.of_nat (nat_of_ascii c') in
      ((Z.of_nat (nat_of_ascii c) =? 237) && (160 <=? n)
       && Bool.eqb ((n =? 178) || (n =? 179)) escapable)
      || has_surrogate escapable s'
  | _ => false
  end.

(** Standard output is UTF-8 with the strict error handler: it encodes
    every string that holds no surrogate. *)
Definition utf8_encodable (s : string) : bool :=
  negb (has_surrogate true s) && negb (has_surrogate false s).

(** A path name the system calls accept: no NUL character and no
    surrogate that the file system encoding cannot escape. *)
Definition path_name_ok (p : string) : bool :=
  negb (str_contains (String Ascii.zero EmptyString) p)
  && negb (has_surrogate false p).

(** The names between the slashes of a path. *)
Fixpoint split_path (p : string) : list string :=
  match p with
  | EmptyString => [EmptyString]
  | String c p' =>
      if Ascii.eqb c "/" then EmptyString :: split_path p'
      else
        match split_path p' with
        | name :: rest => String c name :: rest
        | [] => [String c EmptyString]
        end
  end.

Definition same_dir_name (name : string) : bool :=
  String.eqb name "" || String.eqb name ".".

(** The names from the root to the file of a table path.  The working
    directory is the root, so a relative path starts there too. *)
Definition names_of (p : string) : list string :=
  filter (fun name => negb (same_dir_name name)) (split_path p).

Fixpoint names_prefix (a b : list string) : bool :=
  match a, b with
  | [], _ => true
  | x :: a', y :: b' => String.eqb x y && names_prefix a' b'
  | _ :: _, [] => false
  end.

Definition names_eqb (a b : list string) : bool :=
  names_prefix a b && names_prefix b a.

(** What a path names. *)
Inductive inode : Type :=
| RegularFile (r : read_result)
| Directory
| NoEntry                 (* ENOENT *)
| NotADirectory.          (* ENOTDIR *)

Fixpoint find_file (names : list string) (files : list (string * read_result))
  : option read_result :=
  match files with
  | [] => None
  | (p, r) :: rest =>
      if names_eqb names (names_of p) then Some r else find_file names rest
  end.

(** What is at [names], counted from the root: a file of the table, a
    directory of [dirs] or one on the way to a file or to such a
    directory, or nothing. *)
Definition lookup (files : list (string * read_result)) (dirs : list string)
  (names : list string) : inode :=
  match find_file names files with
  | Some r => RegularFile r
  | None =>
      if existsb (fun p => names_prefix names (names_of p))
           (map fst files ++ dirs)
      then Directory else NoEntry
  end.

(** Path resolution from the directory [cwd], name by name. *)
Fixpoint resolve (files : list (string * read_result)) (dirs : list string)
  (cwd : list string) (names : list string) : inode :=
  match names with
  | [] => Directory
  | name :: rest =>
      if same_dir_name name then resolve files dirs cwd rest
      else if String.eqb name ".."
      then resolve files dirs (removelast cwd) rest
      else
        match lookup files dirs (cwd ++ [name]) with
        | Directory => resolve files dirs (cwd ++ [name]) rest
        | RegularFile r =>
            match rest with
            | [] => RegularFile r
            | _ :: _ => NotADirectory
            end
        | other => other
        end
  end.

Definition stat (files : list (string * read_result)) (dirs : list string)
  (p : string) : inode :=
  if String.eqb p "" then NoEntry else resolve files dirs [] (split_path p).

(** The world with exactly the files of the table [files], the
    directories [dirs] and those on the way to them, the root as working
    directory, no open file descriptor to read from, and a writable disk.
    Opening a directory, a path that runs through a regular file or a
    path name that the system calls refuse is an error other than
    [FileNotFoundError].  A directory can be made where nothing is and the
    way there runs through no regular file; a file can be opened for
    writing where a regular file or nothing is.  The documents dumped are
    taken to hold no string that UTF-8 cannot encode. *)
Definition of_files (files : list (string * read_result))
  (dirs : list string) : world :=
  {| encodable := utf8_encodable;
     float_of_str := float_literal;
     read_file := fun p =>
       if path_name_ok p then
         match stat files dirs p with
         | RegularFile r => r
         | NoEntry => ReadNotFound
         | Directory | NotADirectory => ReadOtherError
         end
       else ReadOtherError;
     read_fd := fun _ => ReadOtherError;
     path_exists := fun p =>
       path_name_ok p &&
       match stat files dirs p with
       | RegularFile _ | Directory => true
       | NoEntry | NotADirectory => false
       end;
     dirname := posix_dirname;
     makedirs_ok := fun p =>
       path_name_ok p &&
       match stat files dirs p with
       | NoEntry => true
       | RegularFile _ | Directory | NotADirectory => false
       end;
     open_w_ok := fun p =>
       negb (String.eqb p "") && path_name_ok p &&
       match stat files dirs p with
       | RegularFile _ | NoEntry => true
       | Directory | NotADirectory => false
       end;
     dump_ok := fun _ => true |}.

End Concrete.

(** ** Records as the specification reads them

    The specification speaks of fields at nested locations of a record
    ([data.content.latitude], [dependencies.from_node.id]).  [field_at]
    walks such a location; the definitions below say, in those terms, which
    records are well formed and what each contributes.  The theorems relate
    them to the loops of the script. *)

Inductive walk : Type :=
| Found (v : json)          (* the location holds [v] *)
| Missing (key : string)    (* an object on the way has no item [key] *)
| NotObject.                (* a value on the way is not an object *)

Fixpoint field_at (path : list string) (v : json) : walk :=
  match path with
  | [] => Found v
  | k :: rest =>
      match v with
      | JObj items =>
          match dict_lookup k items with
          | Some x => field_at rest x
          | None => Missing k
          end
      | _ => NotObject
      end
  end.

Definition is_missing (r : walk) : bool :=
  match r with
  | Missing _ => true
  | _ => false
  end.

(** The locations of the four fields a vertex takes from its record. *)
Definition node_fields : list (list string) :=
  [ ["id"]; ["typeActor"];
    ["data"; "content"; "latitude"]; ["data"; "content"; "longitude"] ].

(** A node record is well formed when its four fields are there. *)
Definition vertex_of (resource_id node : json) : option vertex :=
  match field_at ["id"] node, field_at ["typeActor"] node,
        field_at ["data"; "content"; "latitude"] node,
        field_at ["data"; "content"; "longitude"] node with
  | Found i, Found t, Found la, Found lo =>
      Some {| v_id := i; v_classType := t; v_resourceId := resource_id;
              v_latitude := la; v_longitude := lo |}
  | _, _, _, _ => None
  end.

Definition valid_node (node : json) : bool :=
  match vertex_of JNull node with
  | Some _ => true
  | None => false
  end.

(** A node record misses a field when one of the four is absent from the
    object that should hold it. *)
Definition node_missing_field (node : json) : bool :=
  existsb (fun path => is_missing (field_at path node)) node_fields.

Definition vertices_of (resource_id : json) (records : list json)
  : list vertex :=
  flat_map (fun node => match vertex_of resource_id node with
                        | Some v => [v]
                        | None => []
                        end) records.

(** The value at a location, [None] when there is none. *)
Definition value_at (path : list string) (v : json) : option json :=
  match field_at path v with
  | Found x => Some x
  | _ => None
  end.

(** The primary and the fallback location of an endpoint. *)
Definition primary_location (end_key : string) : list string :=
  ["data"; "content"; end_key].

Definition fallback_location (end_key : string) : list string :=
  ["dependencies"; end_key; "id"].

Definition truthy_value (o : option json) : option json :=
  match o with
  | Some v => if truthy v then Some v else None
  | None => None
  end.

(** The endpoint a location pair yields: the first of the two values that
    is there and truthy. *)
Definition endpoint_value (link : json) (end_key : string) : option json :=
  match truthy_value (value_at (primary_location end_key) link) with
  | Some v => Some v
  | None => truthy_value (value_at (fallback_location end_key) link)
  end.

(** Looking the two locations up does not fail: the primary location
    meets no non-object, and neither does the fallback location when it is
    consulted. *)
Definition endpoint_lookup_ok (link : json) (end_key : string) : bool :=
  match field_at (primary_location end_key) link with
  | NotObject => false
  | Found v =>
      truthy v ||
      match field_at (fallback_location end_key) link with
      | NotObject => false
      | _ => true
      end
  | Missing _ =>
      match field_at (fallback_location end_key) link with
      | NotObject => false
      | _ => true
      end
  end.

(** A link record is well formed when both endpoints resolve, it has an
    [id], and its length converts to a float. *)
Definition edge_of (w : world) (resource_id class_type link : json)
  : option edge :=
  match endpoint_value link "from_node", endpoint_value link "to_node",
        value_at ["id"] link, value_at ["data"; "content"; "length"] link with
  | Some s, Some t, Some i, Some l =>
      match py_float w l with
      | Ok f =>
          Some {| e_source_id := s; e_target_id := t; e_weight := f;
                  e_label := {| l_id := i; l_resourceId := resource_id;
                                l_classType := class_type; l_length := f |} |}
      | Err _ => None
      end
  | _, _, _, _ => None
  end.

Definition valid_link (w : world) (link : json) : bool :=
  match edge_of w JNull JNull link with
  | Some _ => true
  | None => false
  end.

Definition edges_of (w : world) (resource_id class_type : json)
  (records : list json) : list edge :=
  flat_map (fun link => match edge_of w resource_id class_type link with
                        | Some e => [e]
                        | None => []
                        end) records.

(** ** Field accesses in terms of walks *)

(** [v[k1][k2]...] in terms of the walk to that location. *)
Definition getitem_walk (path : list string) (v : json) : res json :=
  match field_at path v with
  | Found x => Ok x
  | Missing k => Err (KeyError k)
  | NotObject => Err TypeError
  end.

(** [v.get(k1, {}).get(k2, {})...get(kn, default)] in terms of the walk. *)
Definition get_walk (path : list string) (default : json) (v : json)
  : res json :=
  match field_at path v with
  | Found x => Ok x
  | Missing _ => Ok default
  | NotObject => Err AttributeError
  end.

(** The three error lists together. *)
Definition buckets (st : state) : list err_msg * list err_msg * list err_msg :=
  (files_not_found st, json_errors st, key_errors st).

(** ** Manifests as the specification reads them *)

Inductive entry_kind : Type := NodeEntry | LinkEntry | OtherEntry.

(** The dispatch on [classType]: the node test comes first. *)
Definition kind_of (class_type : string) : entry_kind :=
  if str_contains "mobility.actor.Node" class_type then NodeEntry
  else if str_contains "mobility.actor.Link" class_type then LinkEntry
  else OtherEntry.

(** The resolved path of a raw path: the leading docker prefix replaced by
    the host prefix when both are given and non-empty. *)
Definition remap (docker_prefix host_prefix : option string) (raw : string)
  : string :=
  match docker_prefix, host_prefix with
  | Some d, Some h =>
      if negb (String.eqb d "") && negb (String.eqb h "") && String.prefix d raw
      then (h ++ str_drop (String.length d) raw)%string
      else raw
  | _, _ => raw
  end.

(** A manifest entry of the data model: a string [classType], an [id] and
    a string [dataSource.info.path], the last two not falsy. *)
Definition entry_view (entry : json) : option (string * json * string) :=
  match value_at ["classType"] entry, value_at ["id"] entry,
        value_at ["dataSource"; "info"; "path"] entry with
  | Some (JStr ct), Some id, Some (JStr p) =>
      if truthy id && negb (String.eqb p "") then Some (ct, id, p) else None
  | _, _, _ => None
  end.

(** The records of a data file: the elements of its top-level list. *)
Definition file_records (w : world) (path : string) : option (list json) :=
  match read_file w path with
  | ReadOk (JArr records) => Some records
  | _ => None
  end.





(** An entry whose fields have the types the script assumes: an object in
    which [classType] is a string, [dataSource] and [dataSource.info] are
    objects and [path] is a string or null, where they are present. *)
Definition well_typed_entry (entry : json) : bool :=
  match field_at ["classType"] entry with
  | Found (JStr _) | Missing _ => true
  | _ => false
  end &&
  match field_at ["dataSource"; "info"; "path"] entry with
  | Found (JStr _) | Found JNull | Missing _ => true
  | _ => false
  end.



Definition is_read (ev : io_event) : bool :=
  match ev with
  | EvOpenRead _ => true
  | _ => false
  end.


(** ** What each manifest entry contributes

    The contribution of one entry to each accumulator, read off the entry
    and the file it names.  An entry that [entry_view] does not accept (no
    string [classType], falsy [id] or [path]) contributes nothing. *)

Definition entry_vertices (w : world) (docker_prefix host_prefix : option string)
  (entry : json) : list vertex :=
  match entry_view entry with
  | Some (ct, id, p) =>
      match kind_of ct, file_records w (remap docker_prefix host_prefix p) with
      | NodeEntry, Some records => vertices_of id records
      | _, _ => []
      end
  | None => []
  end.

Definition entry_edges (w : world) (docker_prefix host_prefix : option string)
  (entry : json) : list edge :=
  match entry_view entry with
  | Some (ct, id, p) =>
      match kind_of ct, file_records w (remap docker_prefix host_prefix p) with
      | LinkEntry, Some records => edges_of w id (JStr ct) records
      | _, _ => []
      end
  | None => []
  end.

Definition entry_not_found (w : world)
  (docker_prefix host_prefix : option string) (entry : json) : list err_msg :=
  match entry_view entry with
  | Some (ct, _, p) =>
      let file_path := remap docker_prefix host_prefix p in
      match kind_of ct, read_file w file_path with
      | NodeEntry, ReadNotFound =>
          [NodeFileNotFound (JStr file_path) (JStr p)]
      | LinkEntry, ReadNotFound =>
          [LinkFileNotFound (JStr file_path) (JStr p)]
      | _, _ => []
      end
  | None => []
  end.

Definition entry_json_errors (w : world)
  (docker_prefix host_prefix : option string) (entry : json) : list err_msg :=
  match entry_view entry with
  | Some (ct, _, p) =>
      let file_path := remap docker_prefix host_prefix p in
      match kind_of ct, read_file w file_path with
      | NodeEntry, ReadJSONDecodeError => [NodeJsonError (JStr file_path)]
      | LinkEntry, ReadJSONDecodeError => [LinkJsonError (JStr file_path)]
      | _, _ => []
      end
  | None => []
  end.

(** The original path of the node (link) file an entry names. *)
Definition entry_node_files (entry : json) : list json :=
  match entry_view entry with
  | Some (ct, _, p) =>
      match kind_of ct with
      | NodeEntry => [JStr p]
      | _ => []
      end
  | None => []
  end.

Definition entry_link_files (entry : json) : list json :=
  match entry_view entry with
  | Some (ct, _, p) =>
      match kind_of ct with
      | LinkEntry => [JStr p]
      | _ => []
      end
  | None => []
  end.

(** The file an entry makes the script open. *)
Definition entry_reads (docker_prefix host_prefix : option string)
  (entry : json) : list io_event :=
  match entry_view entry with
  | Some (ct, _, p) =>
      match kind_of ct with
      | OtherEntry => []
      | _ => [EvOpenRead (JStr (remap docker_prefix host_prefix p))]
      end
  | None => []
  end.

(** A node or link entry whose file does not exist. *)
Definition missing_file_entry (w : world)
  (docker_prefix host_prefix : option string) (entry : json) : bool :=
  match entry_not_found w docker_prefix host_prefix entry with
  | [] => false
  | _ :: _ => true
  end.

(** What holds of every vertex and edge of an output. *)
Definition vertex_ok (v : vertex) : Prop :=
  truthy (v_resourceId v) = true.

Definition edge_ok (e : edge) : Prop :=
  truthy (e_source_id e) = true /\ truthy (e_target_id e) = true /\
  e_weight e = l_length (e_label e) /\
  truthy (l_resourceId (e_label e)) = true.

(** The file-system calls that concern the output path. *)
Definition is_output_event (w : world) (output_path : string)
  (ev : io_event) : Prop :=
  ev = EvExists (dirname w output_path) \/
  ev = EvMakedirs (dirname w output_path) \/
  ev = EvOpenWrite output_path \/
  exists doc, ev = EvDump output_path doc.

Definition pass_state (r : pass_result) : state :=
  match r with
  | PassRaised _ st | PassAbort st | PassDone st => st
  end.

(** The key whose absence stops the walk to a location, if one does. *)
Definition missing_key (path : list string) (v : json) : option string :=
  match field_at path v with
  | Missing k => Some k
  | _ => None
  end.

(** The first key a node record lacks, in the order the script reads its
    fields. *)
Definition first_missing_node_key (node : json) : option string :=
  match field_at ["id"] node with
  | Missing k => Some k
  | NotObject => None
  | Found _ =>
      match field_at ["typeActor"] node with
      | Missing k => Some k
      | NotObject => None
      | Found _ =>
          match field_at ["data"; "content"; "latitude"] node with
          | Missing k => Some k
          | NotObject => None
          | Found _ => missing_key ["data"; "content"; "longitude"] node
          end
      end
  end.

(** The id an error message shows for a record. *)
Definition shown_id (record : json) : json :=
  match value_at ["id"] record with
  | Some i => i
  | None => JStr "unknown ID"
  end.

(** The accumulators of [st'] are those of [st] followed by the given
    contributions. *)
Definition grows (st st' : state) (vs : list vertex) (es : list edge)
  (nf je : list err_msg) (np lp : list json) (evs : list io_event) : Prop :=
  all_vertices st' = all_vertices st ++ vs /\
  all_edges st' = all_edges st ++ es /\
  files_not_found st' = files_not_found st ++ nf /\
  json_errors st' = json_errors st ++ je /\
  node_files_processed st' = node_files_processed st ++ np /\
  link_files_processed st' = link_files_processed st ++ lp /\
  io st' = io st ++ evs /\
  exists msgs, key_errors st' = key_errors st ++ msgs.

(** Every vertex and every edge accumulated so far is as the script makes
    them. *)
Definition state_ok (st : state) : Prop :=
  Forall vertex_ok (all_vertices st) /\ Forall edge_ok (all_edges st).

(** The first key a link record lacks among those read with a subscript,
    in the order the script reads them: [id], then the way to
    [data.content.length]. *)
Definition first_missing_link_key (link : json) : option string :=
  match field_at ["id"] link with
  | Missing k => Some k
  | NotObject => None
  | Found _ => missing_key ["data"; "content"; "length"] link
  end.

(** ** What a run shows on standard output

    The prints that can fail, in terms of the record or the entry they
    show. *)

(** The value at a location, or the default a [.get] gives. *)
Definition field_or (path : list string) (default v : json) : json :=
  match field_at path v with
  | Found x => x
  | _ => default
  end.

(** The values of a link record that the link loop shows. *)
Definition may_show (file_path link : json) (x : json) : Prop :=
  x = file_path \/ x = link \/ x = shown_id link \/
  x = field_or ["data"; "content"; "length"] JNull link.

(** The handlers of the node loop can print what they show of the record:
    its id (line 89) or the record itself (line 92).  A well-formed record
    is not shown. *)
Definition node_printable (w : world) (node : json) : bool :=
  valid_node node || (printable w (shown_id node) && printable w node).

(** The link loop can print what it shows of the record: its id (lines
    129, 146, 150), its length (line 150) or the record itself (line 153).
    A well-formed record is not shown. *)
Definition link_printable (w : world) (link : json) : bool :=
  valid_link w link ||
  (printable w (shown_id link) && printable w link &&
   printable w (field_or ["data"; "content"; "length"] JNull link)).

(** The pass can print what it shows of an entry that is not skipped: the
    path and the resolved path (lines 60, 63), then the id of a node or
    link entry (lines 68, 107) or the class type of any other entry
    (line 167). *)
Definition entry_printable (w : world)
  (docker_prefix host_prefix : option string) (entry : json) : bool :=
  let class_type := field_or ["classType"] (JStr "") entry in
  let resource_id := field_or ["id"] JNull entry in
  let path := field_or ["dataSource"; "info"; "path"] JNull entry in
  negb (truthy resource_id) || negb (truthy path) ||
  (printable w path &&
   match path with
   | JStr p => encodable w (remap docker_prefix host_prefix p)
   | _ => true
   end &&
   match class_type with
   | JStr ct =>
       match kind_of ct with
       | OtherEntry => encodable w ct
       | _ => printable w resource_id
       end
   | _ => true
   end).


(** The records of the file a node or link entry names can be printed. *)
Definition entry_records_printable (w : world)
  (docker_prefix host_prefix : option string) (entry : json) : bool :=
  match entry_view entry with
  | Some (ct, _, p) =>
      match kind_of ct,
            file_records w (remap docker_prefix host_prefix p) with
      | NodeEntry, Some records => forallb (node_printable w) records
      | LinkEntry, Some records => forallb (link_printable w) records
      | _, _ => true
      end
  | None => true
  end.

(** The records of a file that the loop over it processes: a prefix of
    the list the file holds, the whole list when the loop can print what
    it shows. *)
Definition processed (w : world) (file_path : json)
  (printable_record valid_record : json -> bool) (done : list json) : Prop :=
  match open_load w file_path with
  | ReadOk (JArr records) =>
      (exists rest, records = done ++ rest) /\
      (printable w file_path = true \/ forallb valid_record records = true ->
       forallb printable_record records = true -> done = records)
  | _ => done = []
  end.

(** ** Sample records, files and manifests *)

Module Sample.

Definition node_record (id : string) (latitude longitude : json) : json :=
  JObj [ ("id", JStr id); ("typeActor", JStr "mobility.actor.Node");
         ("data", JObj [ ("content", JObj [ ("latitude", latitude);
                                            ("longitude", longitude) ]) ]) ].

Definition node_without_latitude (id : string) (longitude : json) : json :=
  JObj [ ("id", JStr id); ("typeActor", JStr "mobility.actor.Node");
         ("data", JObj [ ("content", JObj [ ("longitude", longitude) ]) ]) ].

(** A link record with its endpoints at the primary location. *)
Definition link_record (id : string) (length from_node to_node : json)
  : json :=
  JObj [ ("id", JStr id);
         ("data", JObj [ ("content", JObj [ ("length", length);
                                            ("from_node", from_node);
                                            ("to_node", to_node) ]) ]) ].

(** A link record with endpoints at both locations. *)
Definition link_record_with_dependencies (id : string)
  (length from_node to_node dep_from dep_to : json) : json :=
  JObj [ ("id", JStr id);
         ("data", JObj [ ("content", JObj [ ("length", length);
                                            ("from_node", from_node);
                                            ("to_node", to_node) ]) ]);
         ("dependencies", JObj [ ("from_node", JObj [ ("id", dep_from) ]);
                                 ("to_node", JObj [ ("id", dep_to) ]) ]) ].

(** A link record with no endpoint at either location. *)
Definition link_without_endpoints (id : string) (length : json) : json :=
  JObj [ ("id", JStr id);
         ("data", JObj [ ("content", JObj [ ("length", length) ]) ]) ].

(** The string that [json.load] makes of the escape for the lone
    surrogate U+D800. *)
Definition lone_surrogate : string :=
  String (ascii_of_nat 237)
    (String (ascii_of_nat 160) (String (ascii_of_nat 128) EmptyString)).

Definition n1 : json := node_record "n1" (JFloat 1.5) (JFloat 2.5).
Definition n2_no_latitude : json := node_without_latitude "n2" (JFloat 3.5).
Definition n3 : json := node_record "n3" (JFloat 4.5) (JFloat 5.5).

(** A node record whose coordinates are not numbers. *)
Definition n4_odd_coordinates : json :=
  node_record "n4" JNull (JStr "north").

(** A node record without latitude whose id cannot be printed. *)
Definition n5_unprintable_id : json :=
  node_without_latitude lone_surrogate (JFloat 3.5).

(** A node record that lacks no key, with a [data] that is null. *)
Definition n6_null_data : json :=
  JObj [ ("id", JStr "n6"); ("typeActor", JStr "mobility.actor.Node");
         ("data", JNull) ].

Definition l0 : json := link_record "l0" (JStr "7.25") (JStr "n1") (JStr "n3").

(** Falsy primary endpoints, with the endpoints under [dependencies]. *)
Definition l1_falsy_primary : json :=
  link_record_with_dependencies "l1" (JStr "12.5") (JStr "") (JInt 0)
    (JStr "a") (JStr "b").

Definition l2_abc_length : json :=
  link_record "l2" (JStr "abc") (JStr "n1") (JStr "n3").

Definition l3_null_length : json :=
  link_record "l3" JNull (JStr "n1") (JStr "n3").

Definition l4_no_endpoints : json := link_without_endpoints "l4" (JStr "3.5").

(** A falsy primary source whose fallback cannot be looked up. *)
Definition l5_null_dependencies : json :=
  JObj [ ("id", JStr "l5");
         ("data", JObj [ ("content", JObj [ ("length", JStr "2.5");
                                            ("from_node", JStr EmptyString);
                                            ("to_node", JStr "n3") ]) ]);
         ("dependencies", JNull) ].

(** A length that is no number in a record whose id cannot be printed. *)
Definition l6_unprintable_id : json :=
  link_record lone_surrogate (JStr "abc") (JStr "n1") (JStr "n3").

Definition manifest_entry (class_type id path : json) : json :=
  JObj [ ("classType", class_type); ("id", id);
         ("dataSource", JObj [ ("info", JObj [ ("path", path) ]) ]) ].

Definition manifest (entries : list json) : json :=
  JObj [ ("actorsDataSources", JArr entries) ].

(** A manifest with one link entry, whose file holds [links]. *)
Definition link_world (links : list json) : world :=
  Concrete.of_files
    [ ("config.json",
       ReadOk (manifest [ manifest_entry (JStr "mobility.actor.Link")
                            (JStr "shard") (JStr "/data/links.json") ]));
      ("/data/links.json", ReadOk (JArr links)) ]
    [].

(** A manifest with one node entry, whose file holds [nodes]. *)
Definition node_world (nodes : list json) : world :=
  Concrete.of_files
    [ ("config.json",
       ReadOk (manifest [ manifest_entry (JStr "mobility.actor.Node")
                            (JStr "shard") (JStr "/data/nodes.json") ]));
      ("/data/nodes.json", ReadOk (JArr nodes)) ]
    [].



(** A manifest with a node entry, a link entry and an entry of another
    kind, recorded under [/app/data/], with the files under [/host/sim/]. *)
Definition mixed_entries : list json :=
  [ manifest_entry (JStr "mobility.actor.Node") (JStr "shard-a")
      (JStr "/app/data/nodes.json");
    manifest_entry (JStr "mobility.actor.Link") (JStr "shard-b")
      (JStr "/app/data/links.json");
    manifest_entry (JStr "mobility.actor.Car") (JStr "shard-c")
      (JStr "/app/data/cars.json") ].

Definition mixed_manifest : json := manifest mixed_entries.

Definition mixed_world : world :=
  Concrete.of_files
    [ ("config.json", ReadOk mixed_manifest);
      ("/host/sim/nodes.json", ReadOk (JArr [n1; n3; n4_odd_coordinates]));
      ("/host/sim/links.json", ReadOk (JArr [l0; l1_falsy_primary])) ]
    [].





(** Only [--docker-prefix], with an empty value. *)
Definition empty_docker_prefix_args : args :=
  {| config_file := "config.json"; output_file := "GPSMap.json";
     docker_prefix := Some ""; host_prefix := None |}.

(** Only [--docker-prefix]. *)
Definition docker_prefix_only_args : args :=
  {| config_file := "config.json"; output_file := "GPSMap.json";
     docker_prefix := Some "/app/data/"; host_prefix := None |}.

(** The state at the end of the loop in [mixed_world]. *)
Definition mixed_state : state :=
  Eval vm_compute in
    match manifest_pass mixed_world "config.json" (Some "/app/data/")
            (Some "/host/sim/") with
    | PassDone st => st
    | _ => init_state
    end.

Definition v1 : vertex :=
  {| v_id := JStr "n1"; v_classType := JStr "mobility.actor.Node";
     v_resourceId := JStr "shard";
     v_latitude := JFloat 1.5; v_longitude := JFloat 2.5 |}.

Definition e0 : edge :=
  {| e_source_id := JStr "n1"; e_target_id := JStr "n3";
     e_weight := 7.25%float;
     e_label := {| l_id := JStr "l0"; l_resourceId := JStr "shard";
                   l_classType := JStr "mobility.actor.Link";
                   l_length := 7.25%float |} |}.

(** A manifest whose files fail in every way the script distinguishes. *)
Definition rough_entries : list json :=
  [ manifest_entry (JStr "mobility.actor.Node") (JStr "shard-a")
      (JStr "/app/data/nodes.json");
    manifest_entry (JStr "mobility.actor.Link") (JStr "shard-b")
      (JStr "/app/data/gone.json");
    manifest_entry (JStr "mobility.actor.Node") (JStr "")
      (JStr "/app/data/nodes.json");
    manifest_entry (JStr "mobility.actor.Node") (JStr "shard-c")
      (JStr "/app/data/broken.json");
    manifest_entry (JStr "mobility.actor.Link") (JStr "shard-d")
      (JStr "/app/data/links.json");
    manifest_entry (JStr "mobility.actor.Node") (JStr "shard-e")
      (JStr "/app/data/object.json") ].

Definition rough_world : world :=
  Concrete.of_files
    [ ("config.json", ReadOk (manifest rough_entries));
      ("/host/sim/nodes.json",
       ReadOk (JArr [n1; n2_no_latitude; JInt 5; n3]));
      ("/host/sim/broken.json", ReadJSONDecodeError);
      ("/host/sim/links.json",
       ReadOk (JArr [l3_null_length; l0; l4_no_endpoints]));
      ("/host/sim/object.json", ReadOk (JObj [])) ]
    [].

(** A manifest with a node and a link entry, neither file existing. *)
Definition two_entries : list json :=
  [ manifest_entry (JStr "mobility.actor.Node") (JStr "shard-a")
      (JStr "/app/data/nodes.json");
    manifest_entry (JStr "mobility.actor.Link") (JStr "shard-b")
      (JStr "/app/data/links.json") ].

Definition two_missing_world : world :=
  Concrete.of_files [ ("config.json", ReadOk (manifest two_entries)) ] [].

(** An entry with an empty [id] and a [classType] that is not a string. *)
Definition odd_entry : json :=
  manifest_entry (JInt 5) (JStr "") (JStr "/data/nodes.json").

(** An entry whose class type names both kinds. *)
Definition both_kinds_entry : json :=
  manifest_entry (JStr "mobility.actor.Node,mobility.actor.Link")
    (JStr "shard") (JStr "/data/nodes.json").

(** A node record without [id] and without [typeActor]. *)
Definition anonymous_node : json :=
  JObj [ ("data", JObj [ ("content", JObj [ ("latitude", JFloat 1.5);
                                            ("longitude", JFloat 2.5) ]) ]) ].

(** A link record without [id], with a length that is no number and no
    endpoints. *)
Definition anonymous_link : json :=
  JObj [ ("data", JObj [ ("content", JObj [ ("length", JStr "abc") ]) ]) ].



End Sample.

#[warnings="-inexact-float"]
Example float_literal_samples :
  Concrete.float_literal "1.5" = Some 1.5%float /\
  Concrete.float_literal " 0.1 " = Some 0.1%float /\
  Concrete.float_literal "-12_000e-3" = Some (-12)%float /\
  Concrete.float_literal "1e23" = Some 1e23%float /\
  Concrete.float_literal "2.2250738585072014e-308" = Some 2.2250738585072014e-308%float /\
  Concrete.float_literal "4.9e-324" = Some 4.9e-324%float /\
  Concrete.float_literal "123456789012345678901234567890" = Some 123456789012345678901234567890%float /\
  Concrete.float_literal "Infinity" = Some PrimFloat.infinity /\
  Concrete.float_literal "abc" = None /\
  Concrete.float_literal "" = None /\
  Concrete.float_literal "1_" = None /\
  Concrete.float_literal "_1" = None /\
  Concrete.float_literal "1e" = None /\
  Concrete.float_literal "." = None /\
  Concrete.float_literal "1. 5" = None.
Proof. repeat split; vm_compute; reflexivity. Qed.

(** Only the bytes 9 to 13 and 32 are stripped. *)
Example float_literal_spaces :
  Concrete.float_literal (String (ascii_of_nat 9) "1.5") = Some 1.5%float /\
  Concrete.float_literal (String (ascii_of_nat 28) "1.5") = None /\
  Concrete.float_literal (String (ascii_of_nat 31) "1.5") = None /\
  Concrete.float_literal ("1.5" ++ String (ascii_of_nat 13) " ")
  = Some 1.5%float.
Proof. repeat split; vm_compute; reflexivity. Qed.

(** Reading a path of [mixed_world]: a file of the table through any of
    its names, a missing file, a directory, and a path that runs through
    a regular file. *)
Example of_files_samples :
  read_file Sample.mixed_world "/host/sim/nodes.json"
  = ReadOk (JArr [Sample.n1; Sample.n3; Sample.n4_odd_coordinates]) /\
  read_file Sample.mixed_world "/host//sim/./nodes.json"
  = ReadOk (JArr [Sample.n1; Sample.n3; Sample.n4_odd_coordinates]) /\
  read_file Sample.mixed_world "/host/sim/cars.json" = ReadNotFound /\
  read_file Sample.mixed_world "" = ReadNotFound /\
  read_file Sample.mixed_world "/host/sim" = ReadOtherError /\
  read_file Sample.mixed_world "/host/sim/" = ReadOtherError /\
  read_file Sample.mixed_world "/" = ReadOtherError /\
  read_file Sample.mixed_world "/host/sim/nodes.json/" = ReadOtherError /\
  read_file Sample.mixed_world "/host/sim/nodes.json/x" = ReadOtherError /\
  read_file Sample.mixed_world "/host/gone/../sim/nodes.json" = ReadNotFound /\
  path_exists Sample.mixed_world "/host/sim" = true /\
  path_exists Sample.mixed_world "out" = false /\
  path_exists Sample.mixed_world "/host/sim/nodes.json/x" = false /\
  makedirs_ok Sample.mixed_world "out" = true /\
  makedirs_ok Sample.mixed_world "config.json/out" = false /\
  open_w_ok Sample.mixed_world "out/GPSMap.json" = true /\
  open_w_ok Sample.mixed_world "/host/sim" = false /\
  open_w_ok Sample.mixed_world "config.json/GPSMap.json" = false.
Proof. repeat split; vm_compute; reflexivity. Qed.

Example utf8_encodable_samples :
  Concrete.utf8_encodable "shard-a" = true /\
  Concrete.utf8_encodable Sample.lone_surrogate = false /\
  Concrete.utf8_encodable ("n" ++ Sample.lone_surrogate) = false.
Proof. repeat split; vm_compute; reflexivity. Qed.

Example posix_dirname_samples :
  Concrete.posix_dirname "out/maps/GPSMap.json" = "out/maps" /\
  Concrete.posix_dirname "GPSMap.json" = "" /\
  Concrete.posix_dirname "/GPSMap.json" = "/" /\
  Concrete.posix_dirname "a//b" = "a" /\
  Concrete.posix_dirname "//a" = "//".
Proof. repeat split; vm_compute; reflexivity. Qed.

(** ** Strings *)

Lemma prefix_app (d rest : string) :
  String.prefix d (d ++ rest)%string = true.
Proof.
  induction d as [|c d IH]; simpl.
  - destruct rest; reflexivity.
  - rewrite IH. destruct (ascii_dec c c); [reflexivity | congruence].
Qed.

Lemma str_drop_app (d rest : string) :
  str_drop (String.length d) (d ++ rest)%string = rest.
Proof. induction d as [|c d IH]; simpl; auto. Qed.

Lemma str_replace1_unfold (old new s : string) :
  str_replace1 old new s =
  if String.prefix old s then (new ++ str_drop (String.length old) s)%string
  else match s with
       | EmptyString => EmptyString
       | String c s' => String c (str_replace1 old new s')
       end.
Proof. destruct s; reflexivity. Qed.

Lemma str_replace1_prefix (d h rest : string) :
  str_replace1 d h (d ++ rest)%string = (h ++ rest)%string.
Proof.
  rewrite str_replace1_unfold, prefix_app, str_drop_app. reflexivity.
Qed.

Lemma prefix_truthy_Some (s : string) :
  prefix_truthy (Some s) = true <-> s <> "".
Proof.
  unfold prefix_truthy. destruct (String.eqb_spec s ""); simpl; split;
    congruence.
Qed.

(** ** Path remapping *)

(** The remapping needs both prefixes non-empty: an empty host prefix
    leaves a path under the docker prefix untouched. *)
Lemma resolve_path_empty_host_prefix :
  String.prefix "/app/data/" "/app/data/nodes.json" = true /\
  "/app/data/nodes.json" = ("/app/data/" ++ "nodes.json")%string /\
  resolve_path (Some "/app/data/") (Some "") (JStr "/app/data/nodes.json")
    = Ok (JStr "/app/data/nodes.json") /\
  resolve_path (Some "/app/data/") (Some "") (JStr "/app/data/nodes.json")
    <> Ok (JStr ("" ++ "nodes.json")%string).
Proof.
  split; [reflexivity|]. split; [reflexivity|]. split; [reflexivity|].
  vm_compute. discriminate.
Qed.

(** C4 (amended): when both prefixes are given and non-empty and the raw
    path is the docker prefix followed by [rest], the resolved path is the
    host prefix followed by [rest], whatever [rest] contains; when a prefix
    is missing or empty, or the raw path does not start with the docker
    prefix, the resolved path is the raw path. *)
Theorem resolve_path_spec (dp hp : option string) (raw : string) :
  (forall d h rest,
      dp = Some d -> hp = Some h -> d <> "" -> h <> "" ->
      raw = (d ++ rest)%string ->
      resolve_path dp hp (JStr raw) = Ok (JStr (h ++ rest)%string)) /\
  (~ (exists d h, dp = Some d /\ hp = Some h /\ d <> "" /\ h <> "" /\
                  String.prefix d raw = true) ->
   resolve_path dp hp (JStr raw) = Ok (JStr raw)).
Proof.
  split.
  - intros d h rest -> -> Hd Hh ->.
    unfold resolve_path.
    apply prefix_truthy_Some in Hd, Hh. rewrite Hd, Hh. simpl.
    rewrite prefix_app, str_replace1_prefix. reflexivity.
  - intros Hno. unfold resolve_path.
    destruct dp as [d|], hp as [h|]; simpl; try reflexivity;
      try (destruct (negb _); reflexivity).
    destruct (String.eqb_spec d ""); simpl; [reflexivity|].
    destruct (String.eqb_spec h ""); simpl; [reflexivity|].
    destruct (String.prefix d raw) eqn:Hp; [|reflexivity].
    exfalso. apply Hno. exists d, h. auto.
Qed.

Lemma resolve_path_spec_witness :
  resolve_path (Some "/app/data/") (Some "/host/sim/")
    (JStr "/app/data/nodes.json") = Ok (JStr "/host/sim/nodes.json") /\
  resolve_path (Some "/app/data/") (Some "/host/sim/")
    (JStr "/app/data//app/data/n.json") = Ok (JStr "/host/sim//app/data/n.json") /\
  resolve_path (Some "/app/data/") (Some "/host/sim/")
    (JStr "/srv/nodes.json") = Ok (JStr "/srv/nodes.json") /\
  resolve_path None None (JStr "/app/data/nodes.json")
    = Ok (JStr "/app/data/nodes.json").
Proof.
  split; [|split; [|split]].
  - apply (proj1 (resolve_path_spec (Some "/app/data/") (Some "/host/sim/")
                    "/app/data/nodes.json") "/app/data/" "/host/sim/"
                  "nodes.json"); try reflexivity; discriminate.
  - apply (proj1 (resolve_path_spec (Some "/app/data/") (Some "/host/sim/")
                    "/app/data//app/data/n.json") "/app/data/" "/host/sim/"
                  "/app/data/n.json"); try reflexivity; discriminate.
  - apply (proj2 (resolve_path_spec (Some "/app/data/") (Some "/host/sim/")
                    "/srv/nodes.json")).
    intros (d & h & Hd & Hh & _ & _ & Hp).
    injection Hd as <-. vm_compute in Hp. discriminate.
  - apply (proj2 (resolve_path_spec None None "/app/data/nodes.json")).
    intros (d & h & Hd & _). discriminate.
Defined.

(** ** Printing *)

Lemma py_print_err (w : world) (shown : list json) (e : exn) :
  py_print w shown = Err e ->
  e = UnicodeEncodeError /\ forallb (printable w) shown = false.
Proof.
  unfold py_print. destruct (forallb _ _); [discriminate|].
  intros [= <-]. auto.
Qed.

(** A statement that follows a print: it runs when the print succeeds,
    and the exception of the print is its result otherwise. *)
Lemma after_print (A : Type) (w : world) (shown : list json) (r : res A) :
  (_ <- py_print w shown ;; r)
  = if forallb (printable w) shown then r else Err UnicodeEncodeError.
Proof. unfold py_print. destruct (forallb _ _); reflexivity. Qed.

(** ** Node records *)

(** Case analysis along the walks of a record: every dictionary lookup
    and every value whose shape decides the next step. *)
Ltac walk_cases :=
  repeat (simpl;
          match goal with
          | |- context [dict_lookup ?k ?i] => destruct (dict_lookup k i) eqn:?
          | |- context [match ?v with JNull => _ | _ => _ end] =>
              is_var v; destruct v
          end).

(** What one iteration of the node loop does, by the shape of the record. *)
Lemma process_node_cases (w : world) (file_path resource_id : json)
  (st : state) (node : json) :
  (exists v, vertex_of resource_id node = Some v /\
             node_missing_field node = false /\
             process_node w file_path resource_id st node
             = Ok (add_vertex v st)) \/
  (vertex_of resource_id node = None /\ node_missing_field node = true /\
   exists k,
     first_missing_node_key node = Some k /\
     process_node w file_path resource_id st node
     = (_ <- py_print w [shown_id node; file_path] ;;
        Ok (add_key_error (NodeKeyError k (shown_id node) file_path) st))) \/
  (vertex_of resource_id node = None /\ node_missing_field node = false /\
   first_missing_node_key node = None /\
   process_node w file_path resource_id st node
   = (_ <- py_print w [file_path; node] ;; Ok st)).
Proof.
  unfold process_node, build_vertex, node_except, vertex_of,
    node_missing_field, first_missing_node_key, missing_key, shown_id,
    value_at.
  walk_cases;
    solve [ left; eauto
          | right; left; eauto 6
          | right; right; auto ].
Qed.

Lemma vertex_of_valid (resource_id node : json) :
  valid_node node = true <-> exists v, vertex_of resource_id node = Some v.
Proof.
  unfold valid_node, vertex_of.
  destruct (field_at ["id"] node), (field_at ["typeActor"] node),
    (field_at ["data"; "content"; "latitude"] node),
    (field_at ["data"; "content"; "longitude"] node);
    split; intros H; try discriminate; try (destruct H; discriminate);
    eauto.
Qed.

Lemma vertex_of_not_valid (resource_id node : json) :
  vertex_of resource_id node = None -> valid_node node = false.
Proof.
  intros H. destruct (valid_node node) eqn:Hv; [|reflexivity].
  apply (vertex_of_valid resource_id) in Hv. destruct Hv as (v & Hv).
  congruence.
Qed.

Lemma node_missing_not_valid (resource_id node : json) :
  node_missing_field node = true -> vertex_of resource_id node = None.
Proof.
  destruct (process_node_cases (Concrete.of_files [] []) JNull resource_id
              init_state node)
    as [(v & _ & Hm & _) | [(H & _) | (H & _)]]; auto.
  congruence.
Qed.

(** One iteration of the node loop ends normally or with the exception of
    a print; it ends normally when what it shows can be printed. *)
Lemma process_node_result (w : world) (file_path resource_id : json)
  (st : state) (node : json) :
  (exists st1, process_node w file_path resource_id st node = Ok st1) \/
  (process_node w file_path resource_id st node = Err UnicodeEncodeError /\
   valid_node node = false /\
   (printable w file_path = false \/ node_printable w node = false)).
Proof.
  destruct (process_node_cases w file_path resource_id st node)
    as [(v & Hv & _ & ->) | [(Hv & _ & k & _ & ->) | (Hv & _ & _ & ->)]];
    [left; eauto | |];
    rewrite after_print; simpl; unfold node_printable;
    rewrite (vertex_of_not_valid _ _ Hv); simpl;
    destruct (printable w file_path), (printable w (shown_id node)),
      (printable w node); simpl; eauto.
Qed.

(** The node loop processes the records of [done], a prefix of the file:
    all of them unless a print raises.  It appends the vertices of the
    well-formed records of [done] in order, one key error per record of
    [done] with a missing field, and touches nothing else. *)
Lemma node_loop_spec (w : world) (file_path resource_id : json)
  (nodes_data : list json) :
  forall st, exists st' r done rest,
    node_loop w file_path resource_id nodes_data st = (st', r) /\
    nodes_data = done ++ rest /\
    (r = None /\ rest = [] \/
     r = Some UnicodeEncodeError /\
     exists node rest', rest = node :: rest' /\ valid_node node = false /\
       (printable w file_path = false \/ node_printable w node = false)) /\
    all_vertices st' = all_vertices st ++ vertices_of resource_id done /\
    all_edges st' = all_edges st /\
    List.length (key_errors st')
    = List.length (key_errors st)
      + List.length (filter node_missing_field done) /\
    files_not_found st' = files_not_found st /\
    json_errors st' = json_errors st /\
    node_files_processed st' = node_files_processed st /\
    link_files_processed st' = link_files_processed st /\
    io st' = io st /\
    exists msgs, key_errors st' = key_errors st ++ msgs.
Proof.
  induction nodes_data as [|node rest IH]; intros st.
  - exists st, None, [], []. simpl. rewrite app_nil_r, Nat.add_0_r.
    repeat split; auto.
    exists []. rewrite app_nil_r. reflexivity.
  - simpl.
    destruct (process_node_result w file_path resource_id st node)
      as [(st1 & Hrun) | (Hrun & Hinv & Hprint)]; rewrite Hrun.
    2:{ exists st, (Some UnicodeEncodeError), [], (node :: rest). simpl.
        rewrite app_nil_r, Nat.add_0_r. repeat split; eauto 10.
        exists []. rewrite app_nil_r. reflexivity. }
    destruct (IH st1)
      as (st' & r & done & rest' & -> & -> & Hr & Hverts & Hedges & Hkeys
          & Hnf & Hje & Hnp & Hlp & Hio & msgs & Hmsgs).
    exists st', r, (node :: done), rest'. simpl.
    rewrite Hverts, Hedges, Hkeys, Hnf, Hje, Hnp, Hlp, Hio, Hmsgs.
    destruct (process_node_cases w file_path resource_id st node)
      as [(v & Hv & Hm & Hp) | [(Hv & Hm & k & _ & Hp) | (Hv & Hm & _ & Hp)]];
      rewrite Hp in Hrun; rewrite ?after_print in Hrun;
      try (destruct (forallb _ _); [|discriminate]);
      injection Hrun as <-; rewrite Hv, Hm; simpl;
      rewrite <- ?app_assoc, ?length_app; simpl;
      repeat split; auto; try lia; eauto.
Qed.

(** When the file path and the records can be printed, the loop processes
    every record. *)
Lemma node_loop_printable (w : world) (file_path resource_id : json)
  (nodes_data : list json) (st st' : state) (r : option exn)
  (done rest : list json) :
  node_loop w file_path resource_id nodes_data st = (st', r) ->
  nodes_data = done ++ rest ->
  (r = None /\ rest = [] \/
   r = Some UnicodeEncodeError /\
   exists node rest', rest = node :: rest' /\ valid_node node = false /\
     (printable w file_path = false \/ node_printable w node = false)) ->
  (printable w file_path = true \/ forallb valid_node nodes_data = true) ->
  forallb (node_printable w) nodes_data = true ->
  r = None /\ done = nodes_data.
Proof.
  intros _ -> [(-> & ->) | (_ & node & rest' & -> & Hinv & Hprint)] Hfp Hall.
  - rewrite app_nil_r. auto.
  - exfalso. rewrite forallb_app in Hall. simpl in Hall.
    apply andb_true_iff in Hall. destruct Hall as (_ & Hall).
    apply andb_true_iff in Hall. destruct Hall as (Hnode & _).
    destruct Hfp as [Hfp | Hvalid].
    + destruct Hprint; congruence.
    + rewrite forallb_app in Hvalid. simpl in Hvalid.
      apply andb_true_iff in Hvalid. destruct Hvalid as (_ & Hvalid).
      apply andb_true_iff in Hvalid. destruct Hvalid. congruence.
Qed.

Lemma vertices_of_app (resource_id : json) (l1 l2 : list json) :
  vertices_of resource_id (l1 ++ l2)
  = vertices_of resource_id l1 ++ vertices_of resource_id l2.
Proof. apply flat_map_app. Qed.

Lemma vertices_of_In (resource_id : json) (records : list json) (n : json)
  (v : vertex) :
  In n records -> vertex_of resource_id n = Some v ->
  In v (vertices_of resource_id records).
Proof.
  intros Hin Hv. apply in_flat_map. exists n. split; [exact Hin|].
  rewrite Hv. left. reflexivity.
Qed.

(** The node loop on a file whose path and records can be printed (or
    whose records are all well formed): it ends normally, appends the
    vertices of the well-formed records in order, one key error per
    record with a missing field, and touches nothing else. *)
Lemma node_loop_exact (w : world) (file_path resource_id : json)
  (nodes_data : list json) (st : state) :
  (printable w file_path = true \/ forallb valid_node nodes_data = true) ->
  forallb (node_printable w) nodes_data = true ->
  exists st',
    node_loop w file_path resource_id nodes_data st = (st', None) /\
    all_vertices st' = all_vertices st ++ vertices_of resource_id nodes_data /\
    all_edges st' = all_edges st /\
    List.length (key_errors st')
    = List.length (key_errors st)
      + List.length (filter node_missing_field nodes_data) /\
    files_not_found st' = files_not_found st /\
    json_errors st' = json_errors st /\
    node_files_processed st' = node_files_processed st /\
    link_files_processed st' = link_files_processed st /\
    io st' = io st /\
    exists msgs, key_errors st' = key_errors st ++ msgs.
Proof.
  intros Hfp Hall.
  destruct (node_loop_spec w file_path resource_id nodes_data st)
    as (st' & r & done & rest & Hrun & Hsplit & Hr & Hspec).
  destruct (node_loop_printable _ _ _ _ _ Hrun Hsplit Hr Hfp Hall)
    as (-> & ->).
  exists st'. split; [exact Hrun | exact Hspec].
Qed.


(** The print of line 89 comes before the append of line 90.  A record
    without latitude whose id holds a lone surrogate makes it raise: the
    record is in no error list, and the exception leaves the loop, so the
    well-formed record after it yields no vertex.  The run ends with the
    output written, one vertex in it and an empty error report. *)
Lemma unprintable_id_not_recorded :
  node_missing_field Sample.n5_unprintable_id = true /\
  valid_node Sample.n3 = true /\
  node_loop (Concrete.of_files [] []) (JStr "nodes.json") (JStr "shard")
    [Sample.n1; Sample.n5_unprintable_id; Sample.n3] init_state
  = ({| all_vertices := [Sample.v1]; all_edges := [];
        node_files_processed := []; link_files_processed := [];
        files_not_found := []; json_errors := []; key_errors := [];
        io := [] |}, Some UnicodeEncodeError) /\
  convert_simulation_data
    (Sample.node_world [Sample.n1; Sample.n5_unprintable_id; Sample.n3])
    "config.json" "GPSMap.json" None None
  = Written
      {| all_vertices := [Sample.v1]; all_edges := [];
         node_files_processed := [JStr "/data/nodes.json"];
         link_files_processed := [];
         files_not_found := []; json_errors := []; key_errors := [];
         io := [ EvOpenRead (JStr "config.json");
                 EvOpenRead (JStr "/data/nodes.json");
                 EvOpenWrite "GPSMap.json";
                 EvDump "GPSMap.json"
                   {| nodes := [Sample.v1]; edges := [];
                      directed := false |} ] |}.
Proof. repeat split; vm_compute; reflexivity. Qed.

(** C6 (amended): in a node file whose path can be printed and in which
    the handlers can print what they show of every malformed record, a
    record that misses one of its fields adds no vertex and exactly one
    entry to [key_errors]; the records before and after it are processed
    as if it were not there, so every well-formed one among them has its
    vertex in the result. *)
Theorem node_missing_field_isolated (w : world) (file_path resource_id : json)
  (before after : list json) (bad : json) (st : state) :
  node_missing_field bad = true ->
  printable w file_path = true ->
  forallb (node_printable w) (before ++ bad :: after) = true ->
  exists st' st0,
    node_loop w file_path resource_id (before ++ bad :: after) st
    = (st', None) /\
    node_loop w file_path resource_id (before ++ after) st = (st0, None) /\
    all_vertices st' = all_vertices st0 /\
    all_vertices st'
    = all_vertices st ++ vertices_of resource_id before
                      ++ vertices_of resource_id after /\
    List.length (key_errors st') = S (List.length (key_errors st0)) /\
    (forall n, In n (before ++ after) -> valid_node n = true ->
               exists v, vertex_of resource_id n = Some v /\
                         In v (all_vertices st')).
Proof.
  intros Hbad Hfp Hall.
  assert (Hall0 : forallb (node_printable w) (before ++ after) = true).
  { rewrite forallb_app in *. simpl in Hall.
    apply andb_true_iff in Hall. destruct Hall as (-> & Hall).
    apply andb_true_iff in Hall. destruct Hall as (_ & ->). reflexivity. }
  destruct (node_loop_exact w file_path resource_id (before ++ bad :: after)
              st (or_introl Hfp) Hall)
    as (st' & Hrun & Hv & _ & Hk & _).
  destruct (node_loop_exact w file_path resource_id (before ++ after) st
              (or_introl Hfp) Hall0)
    as (st0 & Hrun0 & Hv0 & _ & Hk0 & _).
  exists st', st0.
  assert (Hverts : vertices_of resource_id (before ++ bad :: after)
                   = vertices_of resource_id (before ++ after)).
  { rewrite !vertices_of_app. f_equal. simpl.
    rewrite (node_missing_not_valid resource_id bad Hbad). reflexivity. }
  repeat split; auto.
  - congruence.
  - rewrite Hv, Hverts, vertices_of_app. reflexivity.
  - rewrite Hk, Hk0, !filter_app, !length_app. simpl. rewrite Hbad.
    simpl. lia.
  - intros n Hin Hvalid.
    apply (vertex_of_valid resource_id) in Hvalid. destruct Hvalid as (v & Hn).
    exists v. split; [exact Hn|].
    rewrite Hv, Hverts. apply in_or_app. right.
    eapply vertices_of_In; eauto.
Qed.

Lemma node_missing_field_isolated_witness :
  node_missing_field Sample.n2_no_latitude = true /\
  exists st' st0,
    node_loop (Concrete.of_files [] []) (JStr "nodes.json") (JStr "shard")
      ([Sample.n1] ++ Sample.n2_no_latitude :: [Sample.n3]) init_state
    = (st', None) /\
    node_loop (Concrete.of_files [] []) (JStr "nodes.json") (JStr "shard")
      ([Sample.n1] ++ [Sample.n3]) init_state = (st0, None) /\
    all_vertices st' = all_vertices st0 /\
    all_vertices st'
    = all_vertices init_state ++ vertices_of (JStr "shard") [Sample.n1]
                              ++ vertices_of (JStr "shard") [Sample.n3] /\
    List.length (key_errors st') = S (List.length (key_errors st0)) /\
    (forall n, In n ([Sample.n1] ++ [Sample.n3]) -> valid_node n = true ->
               exists v, vertex_of (JStr "shard") n = Some v /\
                         In v (all_vertices st')).
Proof.
  split; [reflexivity|].
  apply (node_missing_field_isolated (Concrete.of_files [] [])
           (JStr "nodes.json") (JStr "shard")
           [Sample.n1] [Sample.n3] Sample.n2_no_latitude init_state);
    reflexivity.
Defined.

Example node_missing_latitude_run :
  node_loop (Concrete.of_files [] []) (JStr "nodes.json") (JStr "shard")
    [Sample.n1; Sample.n2_no_latitude; Sample.n3] init_state
  = ({| all_vertices :=
          [ {| v_id := JStr "n1"; v_classType := JStr "mobility.actor.Node";
               v_resourceId := JStr "shard";
               v_latitude := JFloat 1.5; v_longitude := JFloat 2.5 |};
            {| v_id := JStr "n3"; v_classType := JStr "mobility.actor.Node";
               v_resourceId := JStr "shard";
               v_latitude := JFloat 4.5; v_longitude := JFloat 5.5 |} ];
        all_edges := []; node_files_processed := [];
        link_files_processed := []; files_not_found := []; json_errors := [];
        key_errors := [ NodeKeyError "latitude" (JStr "n2") (JStr "nodes.json") ];
        io := [] |}, None).
Proof. reflexivity. Qed.






(** ** Link records *)

Ltac link_cases :=
  repeat (simpl;
          match goal with
          | |- context [dict_lookup ?k ?i] => destruct (dict_lookup k i) eqn:?
          | |- context [match ?v with JNull => _ | _ => _ end] =>
              is_var v; destruct v
          | |- context [truthy ?v] => is_var v; destruct (truthy v) eqn:?
          end).

(** Lines 120-123 in terms of the two locations: the primary value when it
    is truthy, else whatever the fallback location holds ([None] when it
    holds nothing); [AttributeError] when a value on the way that is
    consulted is not an object. *)
Lemma endpoint_eq (link : json) (end_key : string) :
  endpoint link end_key =
  let fallback :=
    match field_at (fallback_location end_key) link with
    | Found f => Ok f
    | Missing _ => Ok JNull
    | NotObject => Err AttributeError
    end in
  match field_at (primary_location end_key) link with
  | Found p => if truthy p then Ok p else fallback
  | Missing _ => fallback
  | NotObject => Err AttributeError
  end.
Proof.
  unfold endpoint, py_or, primary_location, fallback_location.
  link_cases; reflexivity.
Qed.

Lemma link_fields_eq (link : json) :
  link_fields link =
  (source_node_id <- endpoint link "from_node" ;;
   target_node_id <- endpoint link "to_node" ;;
   link_id <- getitem_walk ["id"] link ;;
   length_str <- getitem_walk ["data"; "content"; "length"] link ;;
   Ok (source_node_id, target_node_id, link_id, length_str)).
Proof.
  unfold link_fields, getitem_walk.
  destruct (endpoint link "from_node"), (endpoint link "to_node");
    walk_cases; reflexivity.
Qed.

Lemma walk_in_object (path : list string) (v : json) :
  path <> [] -> field_at path v <> NotObject -> exists items, v = JObj items.
Proof.
  destruct path; [congruence|]. intros _.
  destruct v; simpl; try congruence. eauto.
Qed.

(** A primary location that meets a non-object leaves no length either:
    both lie under [data.content]. *)
Lemma primary_not_object (link : json) (end_key : string) :
  field_at (primary_location end_key) link = NotObject ->
  value_at ["data"; "content"; "length"] link = None.
Proof.
  unfold primary_location, value_at. walk_cases; congruence.
Qed.

Lemma endpoint_truthy (link : json) (end_key : string) (v : json) :
  endpoint link end_key = Ok v -> truthy v = true ->
  endpoint_value link end_key = Some v.
Proof.
  rewrite endpoint_eq. unfold endpoint_value, truthy_value, value_at.
  cbv zeta.
  destruct (field_at (primary_location end_key) link) as [p| |];
    [destruct (truthy p) eqn:Hp|..];
    destruct (field_at (fallback_location end_key) link) as [f| |];
    intros [= <-] Hv; simpl in *; rewrite ?Hp, ?Hv; congruence.
Qed.

Lemma endpoint_falsy (link : json) (end_key : string) (v : json) :
  endpoint link end_key = Ok v -> truthy v = false ->
  endpoint_value link end_key = None.
Proof.
  rewrite endpoint_eq. unfold endpoint_value, truthy_value, value_at.
  cbv zeta.
  destruct (field_at (primary_location end_key) link) as [p| |];
    [destruct (truthy p) eqn:Hp|..];
    destruct (field_at (fallback_location end_key) link) as [f| |];
    intros [= <-] Hv; simpl in *; rewrite ?Hp, ?Hv; congruence.
Qed.

Lemma endpoint_err (link : json) (end_key : string) (e : exn) :
  endpoint link end_key = Err e ->
  e = AttributeError /\
  (value_at ["data"; "content"; "length"] link = None \/
   endpoint_value link end_key = None).
Proof.
  rewrite endpoint_eq. unfold endpoint_value, truthy_value. cbv zeta.
  destruct (field_at (primary_location end_key) link) as [p| |] eqn:Hprim.
  - unfold value_at. rewrite Hprim.
    destruct (truthy p); [discriminate|].
    destruct (field_at (fallback_location end_key) link);
      intros [= <-]; auto.
  - unfold value_at. rewrite Hprim.
    destruct (field_at (fallback_location end_key) link);
      intros [= <-]; auto.
  - intros [= <-]. split; [reflexivity|]. left.
    eapply primary_not_object; eauto.
Qed.

Lemma edge_of_unfold (w : world) (resource_id class_type link : json) :
  edge_of w resource_id class_type link =
  match endpoint_value link "from_node", endpoint_value link "to_node",
        value_at ["id"] link, value_at ["data"; "content"; "length"] link with
  | Some s, Some t, Some i, Some l =>
      match py_float w l with
      | Ok f =>
          Some {| e_source_id := s; e_target_id := t; e_weight := f;
                  e_label := {| l_id := i; l_resourceId := resource_id;
                                l_classType := class_type; l_length := f |} |}
      | Err _ => None
      end
  | _, _, _, _ => None
  end.
Proof. reflexivity. Qed.

Lemma edge_of_none_length (w : world) (resource_id class_type link : json) :
  value_at ["data"; "content"; "length"] link = None ->
  edge_of w resource_id class_type link = None.
Proof.
  intros H. rewrite edge_of_unfold, H.
  destruct (endpoint_value link "from_node"), (endpoint_value link "to_node"),
    (value_at ["id"] link); reflexivity.
Qed.

Lemma edge_of_none_id (w : world) (resource_id class_type link : json) :
  value_at ["id"] link = None ->
  edge_of w resource_id class_type link = None.
Proof.
  intros H. rewrite edge_of_unfold, H.
  destruct (endpoint_value link "from_node"), (endpoint_value link "to_node");
    reflexivity.
Qed.

Lemma edge_of_none_endpoint (w : world) (resource_id class_type link : json) :
  endpoint_value link "from_node" = None \/
  endpoint_value link "to_node" = None ->
  edge_of w resource_id class_type link = None.
Proof.
  intros [H|H]; rewrite edge_of_unfold, H;
    [|destruct (endpoint_value link "from_node")]; reflexivity.
Qed.

Lemma py_get_shown_id (items : list (string * json)) :
  py_get (JObj items) "id" (JStr "unknown ID") = Ok (shown_id (JObj items)).
Proof.
  unfold shown_id, value_at. simpl.
  destruct (dict_lookup "id" items); reflexivity.
Qed.

(** The clauses of lines 144-153 for a record that is an object. *)
Lemma link_except_object (w : world) (file_path link : json)
  (items : list (string * json)) (length_str : option json) (e : exn)
  (st : state) :
  link = JObj items ->
  link_except w file_path link length_str e st =
  let link_id := shown_id link in
  match e with
  | KeyError k =>
      _ <- py_print w [link_id; file_path] ;;
      Ok (add_key_error (LinkKeyError k link_id file_path) st)
  | ValueError | UnicodeEncodeError =>
      match length_str with
      | Some v =>
          _ <- py_print w [link_id; file_path; v] ;;
          Ok (add_key_error (LinkLengthNotFloat link_id file_path v) st)
      | None => Err NameError
      end
  | _ => _ <- py_print w [file_path; link] ;; Ok st
  end.
Proof.
  intros ->. unfold link_except. rewrite py_get_shown_id.
  destruct e; reflexivity.
Qed.

(** When the print of line 129 raises, the clause of line 148 shows the
    same id and path again and raises as well. *)
Lemma missing_endpoint_print (w : world) (file_path : json)
  (items : list (string * json)) (l : json) (st : state) :
  match py_print w [shown_id (JObj items); file_path] with
  | Ok _ => Ok st
  | Err e => link_except w file_path (JObj items) (Some l) e st
  end
  = (_ <- py_print w [shown_id (JObj items); file_path] ;; Ok st).
Proof.
  destruct (py_print w [shown_id (JObj items); file_path]) as [[]|e] eqn:Hp;
    [reflexivity|].
  apply py_print_err in Hp. destruct Hp as (-> & Hp).
  rewrite (link_except_object _ _ _ _ _ eq_refl). cbv zeta.
  rewrite after_print. simpl in *.
  destruct (printable w (shown_id (JObj items))), (printable w file_path);
    simpl in *; try discriminate; reflexivity.
Qed.

Lemma shown_id_found (link i : json) :
  value_at ["id"] link = Some i -> shown_id link = i.
Proof. unfold shown_id. intros ->. reflexivity. Qed.

Lemma field_or_found (path : list string) (default v x : json) :
  field_at path v = Found x -> field_or path default v = x.
Proof. unfold field_or. intros ->. reflexivity. Qed.

Ltac shown_values :=
  repeat (apply Forall_cons; [unfold may_show; auto 6|]); apply Forall_nil.

(** What one iteration of the link loop does, by the shape of the record:
    a well-formed record adds its edge; any other is shown in a print and
    then adds nothing, or an entry to [key_errors]. *)
Lemma process_link_cases (w : world) (file_path resource_id class_type : json)
  (st : state) (link : json) :
  (exists e, edge_of w resource_id class_type link = Some e /\
             process_link w file_path resource_id class_type st link
             = Ok (add_edge e st)) \/
  (edge_of w resource_id class_type link = None /\
   exists shown st1,
     process_link w file_path resource_id class_type st link
     = (_ <- py_print w shown ;; Ok st1) /\
     (st1 = st \/ exists msg, st1 = add_key_error msg st) /\
     Forall (may_show file_path link) shown).
Proof.
  unfold process_link. rewrite link_fields_eq. unfold getitem_walk.
  remember (field_at ["id"] link) as walk_id eqn:Hid.
  remember (field_at ["data"; "content"; "length"] link) as walk_len eqn:Hlen.
  symmetry in Hid, Hlen.
  destruct (endpoint link "from_node") as [s|e1] eqn:E1; simpl.
  2:{ destruct (endpoint_err _ _ E1) as (-> & Hnone). simpl.
      right; split;
        [destruct Hnone; auto using edge_of_none_length, edge_of_none_endpoint|].
      exists [file_path; link], st. repeat split; auto. shown_values. }
  destruct (endpoint link "to_node") as [t|e2] eqn:E2; simpl.
  2:{ destruct (endpoint_err _ _ E2) as (-> & Hnone). simpl.
      right; split;
        [destruct Hnone; auto using edge_of_none_length, edge_of_none_endpoint|].
      exists [file_path; link], st. repeat split; auto. shown_values. }
  destruct walk_id as [i|k|]; simpl.
  2:{ assert (Hn : edge_of w resource_id class_type link = None)
        by (apply edge_of_none_id; unfold value_at; rewrite Hid; reflexivity).
      destruct (@walk_in_object ["id"] link) as (items & Hlink);
        [congruence | congruence |].
      right; split; [exact Hn|].
      rewrite (link_except_object _ _ _ _ _ Hlink). cbv zeta.
      eexists _, _. split; [reflexivity|]. split; [eauto|]. shown_values. }
  2:{ right; split;
        [apply edge_of_none_id; unfold value_at; rewrite Hid; reflexivity|].
      exists [file_path; link], st. repeat split; auto. shown_values. }
  destruct (@walk_in_object ["id"] link) as (items & Hlink);
    [congruence | congruence |].
  assert (Hshown : shown_id link = i)
    by (apply shown_id_found; unfold value_at; rewrite Hid; reflexivity).
  destruct walk_len as [l|k|]; simpl.
  2:{ assert (Hn : edge_of w resource_id class_type link = None)
        by (apply edge_of_none_length; unfold value_at; rewrite Hlen;
            reflexivity).
      right; split; [exact Hn|].
      rewrite (link_except_object _ _ _ _ _ Hlink). cbv zeta.
      eexists _, _. split; [reflexivity|]. split; [eauto|]. shown_values. }
  2:{ right; split;
        [apply edge_of_none_length; unfold value_at; rewrite Hlen;
         reflexivity|].
      exists [file_path; link], st. repeat split; auto. shown_values. }
  pose proof (field_or_found _ JNull _ Hlen) as Hl.
  assert (Hedge : edge_of w resource_id class_type link =
                  match endpoint_value link "from_node",
                        endpoint_value link "to_node" with
                  | Some s', Some t' =>
                      match py_float w l with
                      | Ok f =>
                          Some {| e_source_id := s'; e_target_id := t';
                                  e_weight := f;
                                  e_label := {| l_id := i;
                                                l_resourceId := resource_id;
                                                l_classType := class_type;
                                                l_length := f |} |}
                      | Err _ => None
                      end
                  | _, _ => None
                  end).
  { rewrite edge_of_unfold. unfold value_at. rewrite Hid, Hlen. reflexivity. }
  assert (Hmissing : forall f,
             py_float w l = Ok f ->
             endpoint_value link "from_node" = None \/
             endpoint_value link "to_node" = None ->
             edge_of w resource_id class_type link = None /\
             exists shown st1,
               match py_print w [i; file_path] with
               | Ok _ => Ok st
               | Err e => link_except w file_path link (Some l) e st
               end = (_ <- py_print w shown ;; Ok st1) /\
               (st1 = st \/ exists msg, st1 = add_key_error msg st) /\
               Forall (may_show file_path link) shown).
  { intros f Hf Hnone. split.
    - rewrite Hedge. destruct Hnone as [-> | ->];
        [|destruct (endpoint_value link "from_node")]; reflexivity.
    - exists [i; file_path], st. split; [|split; [auto|]].
      + rewrite <- Hshown, Hlink. apply missing_endpoint_print.
      + rewrite <- Hshown. shown_values. }
  destruct (py_float w l) as [f|e] eqn:Hf.
  - destruct (truthy s) eqn:Hs; simpl.
    + destruct (truthy t) eqn:Ht; simpl.
      * rewrite (endpoint_truthy _ _ E1 Hs), (endpoint_truthy _ _ E2 Ht)
          in Hedge.
        left. eauto.
      * right. apply (Hmissing f eq_refl). right.
        exact (endpoint_falsy _ _ E2 Ht).
    + right. apply (Hmissing f eq_refl). left.
      exact (endpoint_falsy _ _ E1 Hs).
  - assert (Hn : edge_of w resource_id class_type link = None).
    { rewrite Hedge.
      destruct (endpoint_value link "from_node"),
        (endpoint_value link "to_node"); reflexivity. }
    right; split; [exact Hn|].
    rewrite (link_except_object _ _ _ _ _ Hlink). cbv zeta.
    rewrite Hshown.
    destruct e; eexists _, _;
      (split; [reflexivity|]); (split; [eauto|]);
      rewrite <- ?Hshown, <- ?Hl; shown_values.
Qed.

Lemma edge_of_valid (w : world) (resource_id class_type link : json) :
  valid_link w link = true <->
  exists e, edge_of w resource_id class_type link = Some e.
Proof.
  unfold valid_link. rewrite !edge_of_unfold.
  destruct (endpoint_value link "from_node"), (endpoint_value link "to_node"),
    (value_at ["id"] link), (value_at ["data"; "content"; "length"] link);
    try destruct (py_float w _);
    split; intros H; try discriminate; try (destruct H; discriminate); eauto.
Qed.

Lemma edge_of_not_valid (w : world) (resource_id class_type link : json) :
  edge_of w resource_id class_type link = None -> valid_link w link = false.
Proof.
  intros H. destruct (valid_link w link) eqn:Hv; [|reflexivity].
  apply (edge_of_valid w resource_id class_type) in Hv.
  destruct Hv as (e & Hv). congruence.
Qed.

Lemma shown_unprintable (w : world) (file_path link : json)
  (shown : list json) :
  Forall (may_show file_path link) shown ->
  forallb (printable w) shown = false ->
  valid_link w link = false ->
  printable w file_path = false \/ link_printable w link = false.
Proof.
  intros Hall Hprint Hvalid. unfold link_printable. rewrite Hvalid. simpl.
  induction Hall as [|x shown Hx _ IH]; simpl in Hprint; [discriminate|].
  destruct (printable w x) eqn:Hpx; simpl in Hprint; [auto|].
  destruct Hx as [<- | [<- | [<- | <-]]]; rewrite ?Hpx; auto;
    right; rewrite ?andb_false_r; reflexivity.
Qed.

(** One iteration of the link loop ends normally or with the exception of
    a print; it ends normally when what it shows can be printed. *)
Lemma process_link_result (w : world) (file_path resource_id class_type : json)
  (st : state) (link : json) :
  (exists st1,
      process_link w file_path resource_id class_type st link = Ok st1) \/
  (process_link w file_path resource_id class_type st link
   = Err UnicodeEncodeError /\
   valid_link w link = false /\
   (printable w file_path = false \/ link_printable w link = false)).
Proof.
  destruct (process_link_cases w file_path resource_id class_type st link)
    as [(e & _ & ->) | (He & shown & st1 & -> & _ & Hshown)];
    [left; eauto|].
  rewrite after_print.
  destruct (forallb (printable w) shown) eqn:Hp; [left; eauto|].
  right. split; [reflexivity|].
  pose proof (edge_of_not_valid _ _ _ _ He) as Hvalid.
  split; [exact Hvalid|].
  eapply shown_unprintable; eauto.
Qed.

Lemma getitem_walk_value (path : list string) (v x : json) :
  value_at path v = Some x -> getitem_walk path v = Ok x.
Proof.
  unfold value_at, getitem_walk. destruct (field_at path v); congruence.
Qed.

(** One iteration on a record whose four fields were read. *)
Lemma process_link_fields (w : world) (file_path resource_id class_type : json)
  (st : state) (link s t i l : json) :
  endpoint link "from_node" = Ok s ->
  endpoint link "to_node" = Ok t ->
  value_at ["id"] link = Some i ->
  value_at ["data"; "content"; "length"] link = Some l ->
  process_link w file_path resource_id class_type st link =
  match py_float w l with
  | Err e => link_except w file_path link (Some l) e st
  | Ok f =>
      if truthy s && truthy t
      then Ok (add_edge {| e_source_id := s; e_target_id := t; e_weight := f;
                           e_label := {| l_id := i;
                                         l_resourceId := resource_id;
                                         l_classType := class_type;
                                         l_length := f |} |} st)
      else _ <- py_print w [i; file_path] ;; Ok st
  end.
Proof.
  intros E1 E2 Hi Hl. unfold process_link.
  rewrite link_fields_eq, E1, E2, (getitem_walk_value _ _ Hi),
    (getitem_walk_value _ _ Hl). simpl.
  destruct (py_float w l); [|reflexivity].
  assert (Hprint : match py_print w [i; file_path] with
                   | Ok _ => Ok st
                   | Err e => link_except w file_path link (Some l) e st
                   end = (_ <- py_print w [i; file_path] ;; Ok st)).
  { destruct (@walk_in_object ["id"] link) as (items & ->);
      [congruence
      | unfold value_at in Hi; destruct (field_at ["id"] link); congruence |].
    rewrite <- (shown_id_found _ Hi). apply missing_endpoint_print. }
  destruct (truthy s), (truthy t); simpl; auto.
Qed.

Lemma endpoint_lookup_ok_endpoint (link : json) (end_key : string) :
  endpoint_lookup_ok link end_key = true ->
  exists v, endpoint link end_key = Ok v.
Proof.
  rewrite endpoint_eq. unfold endpoint_lookup_ok. cbv zeta.
  destruct (field_at (primary_location end_key) link) as [p| |];
    [destruct (truthy p)|..];
    destruct (field_at (fallback_location end_key) link);
    simpl; intros H; try discriminate; eauto.
Qed.



(** ** The link loop *)

(** The link loop processes the records of [done], a prefix of the file:
    all of them unless a print raises.  It appends the edges of the
    well-formed records of [done] in order, possibly entries to
    [key_errors] (none when every record of [done] is well formed), and
    touches nothing else. *)
Lemma link_loop_spec (w : world) (file_path resource_id class_type : json)
  (links_data : list json) :
  forall st, exists st' r done rest msgs,
    link_loop w file_path resource_id class_type links_data st = (st', r) /\
    links_data = done ++ rest /\
    (r = None /\ rest = [] \/
     r = Some UnicodeEncodeError /\
     exists link rest', rest = link :: rest' /\ valid_link w link = false /\
       (printable w file_path = false \/ link_printable w link = false)) /\
    all_edges st'
    = all_edges st ++ edges_of w resource_id class_type done /\
    all_vertices st' = all_vertices st /\
    key_errors st' = key_errors st ++ msgs /\
    (forallb (valid_link w) done = true -> msgs = []) /\
    files_not_found st' = files_not_found st /\
    json_errors st' = json_errors st /\
    node_files_processed st' = node_files_processed st /\
    link_files_processed st' = link_files_processed st /\
    io st' = io st.
Proof.
  induction links_data as [|link rest IH]; intros st.
  - exists st, None, [], [], []. simpl. rewrite !app_nil_r.
    repeat split; auto.
  - simpl.
    destruct (process_link_result w file_path resource_id class_type st link)
      as [(st1 & Hrun) | (Hrun & Hinv & Hprint)]; rewrite Hrun.
    2:{ exists st, (Some UnicodeEncodeError), [], (link :: rest), []. simpl.
        rewrite !app_nil_r. repeat split; eauto 10. }
    destruct (IH st1)
      as (st' & r & done & rest' & msgs & -> & -> & Hr & Hed & Hv & Hk & Hval
          & Hnf & Hje & Hnp & Hlp & Hio).
    destruct (process_link_cases w file_path resource_id class_type st link)
      as [(e & He & Hp) | (He & shown & st2 & Hp & Hst2 & _)];
      rewrite Hp in Hrun; rewrite ?after_print in Hrun;
      try (destruct (forallb _ _); [|discriminate]);
      injection Hrun as <-.
    + exists st', r, (link :: done), rest', msgs. simpl in *.
      rewrite Hed, Hv, Hk, Hnf, Hje, Hnp, Hlp, Hio, He, <- app_assoc.
      repeat split; auto.
      intros H. apply andb_true_iff in H. apply Hval, H.
    + assert (Hnot : forallb (valid_link w) (link :: done) <> true).
      { simpl. rewrite (edge_of_not_valid _ _ _ _ He). discriminate. }
      destruct Hst2 as [-> | (msg & ->)].
      * exists st', r, (link :: done), rest', msgs. simpl in *.
        rewrite Hed, Hv, Hk, Hnf, Hje, Hnp, Hlp, Hio, He.
        repeat split; auto; intros H; contradiction.
      * exists st', r, (link :: done), rest', (msg :: msgs). simpl in *.
        rewrite Hed, Hv, Hk, Hnf, Hje, Hnp, Hlp, Hio, He, <- app_assoc.
        repeat split; auto; intros H; contradiction.
Qed.

(** The link loop on a file whose path and records can be printed (or
    whose records are all well formed): it ends normally, appends the
    edges of the well-formed records in order, possibly entries to
    [key_errors] (none when every record is well formed), and touches
    nothing else. *)
Lemma link_loop_exact (w : world) (file_path resource_id class_type : json)
  (links_data : list json) (st : state) :
  (printable w file_path = true \/
   forallb (valid_link w) links_data = true) ->
  forallb (link_printable w) links_data = true ->
  exists st' msgs,
    link_loop w file_path resource_id class_type links_data st = (st', None) /\
    all_edges st'
    = all_edges st ++ edges_of w resource_id class_type links_data /\
    all_vertices st' = all_vertices st /\
    key_errors st' = key_errors st ++ msgs /\
    (forallb (valid_link w) links_data = true -> msgs = []) /\
    files_not_found st' = files_not_found st /\
    json_errors st' = json_errors st /\
    node_files_processed st' = node_files_processed st /\
    link_files_processed st' = link_files_processed st /\
    io st' = io st.
Proof.
  intros Hfp Hall.
  destruct (link_loop_spec w file_path resource_id class_type links_data st)
    as (st' & r & done & rest & msgs & Hrun & -> & Hr & Hspec).
  destruct Hr as [(-> & ->) | (_ & link & rest' & -> & Hinv & Hprint)].
  - rewrite app_nil_r in *. exists st', msgs.
    split; [exact Hrun | exact Hspec].
  - exfalso. rewrite forallb_app in Hall. simpl in Hall.
    apply andb_true_iff in Hall. destruct Hall as (_ & Hall).
    apply andb_true_iff in Hall. destruct Hall as (Hlink & _).
    destruct Hfp as [Hfp | Hvalid].
    + destruct Hprint; congruence.
    + rewrite forallb_app in Hvalid. simpl in Hvalid.
      apply andb_true_iff in Hvalid. destruct Hvalid as (_ & Hvalid).
      apply andb_true_iff in Hvalid. destruct Hvalid. congruence.
Qed.


Lemma link_loop_app (w : world) (file_path resource_id class_type : json)
  (l1 l2 : list json) :
  forall st st1,
    link_loop w file_path resource_id class_type l1 st = (st1, None) ->
    link_loop w file_path resource_id class_type (l1 ++ l2) st
    = link_loop w file_path resource_id class_type l2 st1.
Proof.
  induction l1 as [|link rest IH]; intros st st1; simpl.
  - intros [= ->]. reflexivity.
  - destruct (process_link w file_path resource_id class_type st link);
      [apply IH | discriminate].
Qed.


(** ** Endpoint resolution *)


(** A fallback that cannot be looked up yields no endpoint either: when
    the primary value is falsy and [dependencies] is null, the lookup
    raises [AttributeError] and the catch-all clause of line 152 drops
    the record, before the test of line 128.  Nothing is recorded, and
    the next record is processed. *)
Example null_dependencies_dropped :
  value_at (primary_location "from_node") Sample.l5_null_dependencies
  = Some (JStr EmptyString) /\
  field_at (fallback_location "from_node") Sample.l5_null_dependencies
  = NotObject /\
  endpoint Sample.l5_null_dependencies "from_node" = Err AttributeError /\
  link_loop (Concrete.of_files [] []) (JStr "links.json") (JStr "shard")
    (JStr "mobility.actor.Link") [Sample.l5_null_dependencies; Sample.l0]
    init_state
  = ({| all_vertices := []; all_edges := [Sample.e0];
        node_files_processed := []; link_files_processed := [];
        files_not_found := []; json_errors := []; key_errors := [];
        io := [] |}, None).
Proof. repeat split; vm_compute; reflexivity. Qed.



(** ** Unparseable lengths *)

(** A length that is not a string never reaches the float parser: [null]
    makes [float] raise [TypeError], which the catch-all clause of line 152
    only prints.  The record is dropped and nothing is recorded. *)
Lemma null_length_not_recorded :
  py_float (Concrete.of_files [] []) JNull = Err TypeError /\
  link_loop (Concrete.of_files [] []) (JStr "links.json") (JStr "shard")
    (JStr "mobility.actor.Link") [Sample.l3_null_length; Sample.l0] init_state
  = ({| all_vertices := []; all_edges := [Sample.e0];
        node_files_processed := []; link_files_processed := [];
        files_not_found := []; json_errors := []; key_errors := [];
        io := [] |}, None).
Proof. split; vm_compute; reflexivity. Qed.

(** The print of line 150 comes before the append of line 151: a record
    with a length that is no number and an id that cannot be printed is
    not recorded, and the record after it is not processed. *)
Example unprintable_length_record_run :
  link_loop (Concrete.of_files [] []) (JStr "links.json") (JStr "shard")
    (JStr "mobility.actor.Link") [Sample.l6_unprintable_id; Sample.l0]
    init_state
  = (init_state, Some UnicodeEncodeError).
Proof. vm_compute. reflexivity. Qed.

(** C7 (amended): in a link file whose path can be printed, a record that
    has an [id], whose endpoint locations can be looked up, and whose
    [data.content.length] is a string that [float] rejects, adds no edge
    and one [LinkLengthNotFloat] entry to [key_errors], when its id and
    its length can be printed; the records before and after it are
    processed as if it were not there, when the loop can print what it
    shows of them. *)
Theorem unparseable_length_isolated (w : world)
  (file_path resource_id class_type : json) (before after : list json)
  (bad : json) (st : state) (i : json) (s : string) :
  value_at ["id"] bad = Some i ->
  endpoint_lookup_ok bad "from_node" = true ->
  endpoint_lookup_ok bad "to_node" = true ->
  value_at ["data"; "content"; "length"] bad = Some (JStr s) ->
  float_of_str w s = None ->
  printable w file_path = true ->
  printable w i = true ->
  encodable w s = true ->
  forallb (link_printable w) (before ++ after) = true ->
  exists st1 st',
    link_loop w file_path resource_id class_type before st = (st1, None) /\
    link_loop w file_path resource_id class_type (before ++ bad :: after) st
    = (st', None) /\
    link_loop w file_path resource_id class_type (before ++ bad :: after) st
    = link_loop w file_path resource_id class_type after
        (add_key_error (LinkLengthNotFloat i file_path (JStr s)) st1) /\
    (exists msgs,
        key_errors st'
        = key_errors st1
          ++ LinkLengthNotFloat i file_path (JStr s) :: msgs) /\
    all_edges st'
    = all_edges st ++ edges_of w resource_id class_type before
                   ++ edges_of w resource_id class_type after.
Proof.
  intros Hi Hfrom Hto Hlen Hfloat Hfp Hpi Hps Hall.
  destruct (endpoint_lookup_ok_endpoint _ _ Hfrom) as (src & E1).
  destruct (endpoint_lookup_ok_endpoint _ _ Hto) as (tgt & E2).
  destruct (@walk_in_object ["id"] bad) as (items & Hobj);
    [congruence
    | unfold value_at in Hi; destruct (field_at ["id"] bad); congruence |].
  assert (Hbad : forall st0,
             process_link w file_path resource_id class_type st0 bad
             = Ok (add_key_error (LinkLengthNotFloat i file_path (JStr s)) st0)).
  { intros st0.
    rewrite (process_link_fields w file_path resource_id class_type st0
               bad E1 E2 Hi Hlen).
    simpl. rewrite Hfloat.
    rewrite (link_except_object _ _ _ _ _ Hobj). cbv zeta.
    rewrite (shown_id_found _ Hi), after_print. simpl.
    rewrite Hfp, Hpi, Hps. reflexivity. }
  assert (Hbefore : forallb (link_printable w) before = true /\
                    forallb (link_printable w) after = true).
  { rewrite forallb_app in Hall. apply andb_true_iff in Hall. exact Hall. }
  destruct Hbefore as (Hbefore & Hafter).
  destruct (link_loop_exact w file_path resource_id class_type before st
              (or_introl Hfp) Hbefore)
    as (st1 & m1 & Hrun1 & Hed1 & _).
  destruct (link_loop_exact w file_path resource_id class_type after
              (add_key_error (LinkLengthNotFloat i file_path (JStr s)) st1)
              (or_introl Hfp) Hafter)
    as (st' & m' & Hrun' & Hed' & _ & Hk' & _).
  assert (Hwhole : link_loop w file_path resource_id class_type
                     (before ++ bad :: after) st
                   = link_loop w file_path resource_id class_type after
                       (add_key_error
                          (LinkLengthNotFloat i file_path (JStr s)) st1)).
  { rewrite (link_loop_app _ _ _ _ _ (bad :: after) _ Hrun1). simpl.
    rewrite Hbad. reflexivity. }
  exists st1, st'. repeat split; auto.
  - congruence.
  - exists m'. rewrite Hk'. simpl. rewrite <- app_assoc. reflexivity.
  - rewrite Hed'. simpl. rewrite Hed1, <- app_assoc. reflexivity.
Qed.

Lemma unparseable_length_isolated_witness :
  float_of_str (Concrete.of_files [] []) "abc" = None /\
  exists st1 st',
    link_loop (Concrete.of_files [] []) (JStr "links.json") (JStr "shard")
      (JStr "mobility.actor.Link") [Sample.l1_falsy_primary] init_state
    = (st1, None) /\
    link_loop (Concrete.of_files [] []) (JStr "links.json") (JStr "shard")
      (JStr "mobility.actor.Link")
      ([Sample.l1_falsy_primary] ++ Sample.l2_abc_length :: [Sample.l0])
      init_state
    = (st', None) /\
    link_loop (Concrete.of_files [] []) (JStr "links.json") (JStr "shard")
      (JStr "mobility.actor.Link")
      ([Sample.l1_falsy_primary] ++ Sample.l2_abc_length :: [Sample.l0])
      init_state
    = link_loop (Concrete.of_files [] []) (JStr "links.json") (JStr "shard")
        (JStr "mobility.actor.Link") [Sample.l0]
        (add_key_error
           (LinkLengthNotFloat (JStr "l2") (JStr "links.json") (JStr "abc"))
           st1) /\
    (exists msgs,
        key_errors st'
        = key_errors st1
          ++ LinkLengthNotFloat (JStr "l2") (JStr "links.json") (JStr "abc")
             :: msgs) /\
    all_edges st'
    = all_edges init_state
      ++ edges_of (Concrete.of_files [] []) (JStr "shard")
           (JStr "mobility.actor.Link") [Sample.l1_falsy_primary]
      ++ edges_of (Concrete.of_files [] []) (JStr "shard")
           (JStr "mobility.actor.Link") [Sample.l0].
Proof.
  split; [reflexivity|].
  apply (unparseable_length_isolated (Concrete.of_files [] [])
           (JStr "links.json") (JStr "shard") (JStr "mobility.actor.Link")
           [Sample.l1_falsy_primary] [Sample.l0] Sample.l2_abc_length
           init_state (i := JStr "l2") (s := "abc"));
    reflexivity.
Defined.

(** ** Missing endpoints *)

(** A record whose fields are read and whose length converts, but one of
    whose endpoints resolves to nothing, is shown by the print of line 129
    and leaves the state as it was: line 130 continues without appending
    to any list. *)
Lemma missing_endpoint_state_unchanged (w : world)
  (file_path resource_id class_type : json) (st : state) (link : json)
  (i l : json) (f : float) :
  endpoint_lookup_ok link "from_node" = true ->
  endpoint_lookup_ok link "to_node" = true ->
  endpoint_value link "from_node" = None \/
  endpoint_value link "to_node" = None ->
  value_at ["id"] link = Some i ->
  value_at ["data"; "content"; "length"] link = Some l ->
  py_float w l = Ok f ->
  process_link w file_path resource_id class_type st link
  = (_ <- py_print w [i; file_path] ;; Ok st).
Proof.
  intros Hfrom Hto Hnone Hi Hl Hf.
  destruct (endpoint_lookup_ok_endpoint _ _ Hfrom) as (src & E1).
  destruct (endpoint_lookup_ok_endpoint _ _ Hto) as (tgt & E2).
  rewrite (process_link_fields w file_path resource_id class_type st
             link E1 E2 Hi Hl), Hf.
  destruct (truthy src) eqn:Hs; [|reflexivity].
  destruct (truthy tgt) eqn:Ht; [|reflexivity].
  rewrite (endpoint_truthy _ _ E1 Hs), (endpoint_truthy _ _ E2 Ht) in Hnone.
  destruct Hnone; discriminate.
Qed.

(** C1: the run on a manifest whose only link file holds one record with
    no endpoint at either location.  The record is skipped and the pass
    goes on to write the output, but the failure is in none of
    [files_not_found], [json_errors] and [key_errors]: all three are
    empty at the end, and an empty graph is written. *)
Theorem missing_endpoint_not_accumulated :
  endpoint_value Sample.l4_no_endpoints "from_node" = None /\
  endpoint_value Sample.l4_no_endpoints "to_node" = None /\
  convert_simulation_data (Sample.link_world [Sample.l4_no_endpoints])
    "config.json" "GPSMap.json" None None
  = Written
      {| all_vertices := []; all_edges := [];
         node_files_processed := [];
         link_files_processed := [JStr "/data/links.json"];
         files_not_found := []; json_errors := []; key_errors := [];
         io := [ EvOpenRead (JStr "config.json");
                 EvOpenRead (JStr "/data/links.json");
                 EvOpenWrite "GPSMap.json";
                 EvDump "GPSMap.json"
                   {| nodes := []; edges := []; directed := false |} ] |}.
Proof. repeat split; vm_compute; reflexivity. Qed.

(** ** The pass over the manifest *)

Lemma entry_fields_eq (entry : json) :
  entry_fields entry =
  (class_type <- get_walk ["classType"] (JStr "") entry ;;
   resource_id <- get_walk ["id"] JNull entry ;;
   original_file_path <- get_walk ["dataSource"; "info"; "path"] JNull entry ;;
   Ok (class_type, resource_id, original_file_path)).
Proof. unfold entry_fields, get_walk. walk_cases; reflexivity. Qed.

Lemma resolve_path_remap (dp hp : option string) (raw : string) :
  resolve_path dp hp (JStr raw) = Ok (JStr (remap dp hp raw)).
Proof.
  unfold resolve_path, remap, prefix_truthy.
  destruct dp as [d|], hp as [h|]; simpl; try reflexivity;
    try (destruct (negb _); reflexivity).
  destruct (String.eqb d ""), (String.eqb h ""); simpl; try reflexivity.
  destruct (String.prefix d raw) eqn:Hp; [|reflexivity].
  rewrite str_replace1_unfold, Hp. reflexivity.
Qed.

Lemma filter_missing_valid (records : list json) :
  forallb valid_node records = true ->
  filter node_missing_field records = [].
Proof.
  induction records as [|n l IH]; simpl; [reflexivity|].
  intros Hvalid. apply andb_true_iff in Hvalid. destruct Hvalid as (Hn & Hl).
  destruct (node_missing_field n) eqn:Hm; [|auto].
  apply (node_missing_not_valid JNull) in Hm.
  unfold valid_node in Hn. rewrite Hm in Hn. discriminate.
Qed.

(** Everything processing a node file does to the state, whatever the
    file holds. *)
Lemma process_node_file_frame (w : world)
  (file_path original_file_path resource_id : json) (st : state) :
  let st' := process_node_file w file_path original_file_path resource_id st in
  exists done msgs,
    processed w file_path (node_printable w) valid_node done /\
    all_vertices st' = all_vertices st ++ vertices_of resource_id done /\
    all_edges st' = all_edges st /\
    files_not_found st'
    = files_not_found st
      ++ match open_load w file_path with
         | ReadNotFound => [NodeFileNotFound file_path original_file_path]
         | _ => []
         end /\
    json_errors st'
    = json_errors st
      ++ match open_load w file_path with
         | ReadJSONDecodeError => [NodeJsonError file_path]
         | _ => []
         end /\
    node_files_processed st'
    = node_files_processed st ++ [original_file_path] /\
    link_files_processed st' = link_files_processed st /\
    io st' = io st ++ [EvOpenRead file_path] /\
    key_errors st' = key_errors st ++ msgs /\
    (forallb valid_node done = true -> msgs = []).
Proof.
  unfold process_node_file, processed.
  destruct (open_load w file_path) as [v| | |]; simpl;
    try (exists [], []; simpl; rewrite ?app_nil_r; repeat split; fail).
  destruct v; simpl;
    try (exists [], []; simpl; rewrite ?app_nil_r; repeat split; fail).
  destruct (node_loop_spec w file_path resource_id l
              (log_io (EvOpenRead file_path)
                 (add_node_file original_file_path st)))
    as (st' & r & done & rest & Hrun & Hsplit & Hr & Hv & He & Hk & Hnf & Hje
        & Hnp & Hlp & Hio & msgs & Hmsgs).
  rewrite Hrun. simpl in *.
  exists done, msgs. rewrite Hv, He, Hnf, Hje, Hnp, Hlp, Hio, !app_nil_r.
  repeat split; eauto.
  - intros Hfp Hall.
    apply (node_loop_printable _ _ _ _ _ Hrun Hsplit Hr Hfp Hall).
  - intros Hvalid.
    rewrite (filter_missing_valid _ Hvalid), Hmsgs, length_app in Hk.
    simpl in Hk. destruct msgs; [reflexivity | simpl in Hk; lia].
Qed.

(** Everything processing a link file does to the state. *)
Lemma process_link_file_frame (w : world)
  (file_path original_file_path resource_id class_type : json) (st : state) :
  let st' := process_link_file w file_path original_file_path resource_id
               class_type st in
  exists done msgs,
    processed w file_path (link_printable w) (valid_link w) done /\
    all_vertices st' = all_vertices st /\
    all_edges st'
    = all_edges st ++ edges_of w resource_id class_type done /\
    files_not_found st'
    = files_not_found st
      ++ match open_load w file_path with
         | ReadNotFound => [LinkFileNotFound file_path original_file_path]
         | _ => []
         end /\
    json_errors st'
    = json_errors st
      ++ match open_load w file_path with
         | ReadJSONDecodeError => [LinkJsonError file_path]
         | _ => []
         end /\
    node_files_processed st' = node_files_processed st /\
    link_files_processed st'
    = link_files_processed st ++ [original_file_path] /\
    io st' = io st ++ [EvOpenRead file_path] /\
    key_errors st' = key_errors st ++ msgs /\
    (forallb (valid_link w) done = true -> msgs = []).
Proof.
  unfold process_link_file, processed.
  destruct (open_load w file_path) as [v| | |]; simpl;
    try (exists [], []; simpl; rewrite ?app_nil_r; repeat split; fail).
  destruct v; simpl;
    try (exists [], []; simpl; rewrite ?app_nil_r; repeat split; fail).
  destruct (link_loop_spec w file_path resource_id class_type l
              (log_io (EvOpenRead file_path)
                 (add_link_file original_file_path st)))
    as (st' & r & done & rest & msgs & Hrun & Hsplit & Hr & He & Hv & Hk
        & Hval & Hnf & Hje & Hnp & Hlp & Hio).
  rewrite Hrun. simpl in *.
  exists done, msgs. rewrite Hv, He, Hnf, Hje, Hnp, Hlp, Hio, Hk, !app_nil_r.
  repeat split; eauto.
  intros Hfp Hall. subst l.
  destruct Hr as [(_ & ->) | (_ & link & rest' & -> & Hinv & Hprint)];
    [symmetry; apply app_nil_r|].
  exfalso. rewrite forallb_app in Hall. simpl in Hall.
  apply andb_true_iff in Hall. destruct Hall as (_ & Hall).
  apply andb_true_iff in Hall. destruct Hall as (Hlink & _).
  destruct Hfp as [Hfp | Hvalid].
  - destruct Hprint; congruence.
  - rewrite forallb_app in Hvalid. simpl in Hvalid.
    apply andb_true_iff in Hvalid. destruct Hvalid as (_ & Hvalid).
    apply andb_true_iff in Hvalid. destruct Hvalid. congruence.
Qed.

(** How the loop body ends: with an exception and the state as it was,
    with the entry skipped or ignored, or with a node or link file
    processed for a truthy [id]. *)
Lemma process_entry_cases (w : world) (dp hp : option string) (st : state)
  (entry : json) :
  (exists e, process_entry w dp hp st entry = (st, Some e)) \/
  process_entry w dp hp st entry = (st, None) \/
  (exists file_path path resource_id,
      truthy resource_id = true /\
      process_entry w dp hp st entry
      = (process_node_file w file_path path resource_id st, None)) \/
  (exists file_path path resource_id class_type,
      truthy resource_id = true /\
      process_entry w dp hp st entry
      = (process_link_file w file_path path resource_id class_type st, None)).
Proof.
  unfold process_entry.
  destruct (entry_fields entry) as [[[class_type resource_id] path]|e];
    [|eauto].
  destruct (truthy resource_id) eqn:Hrid; simpl;
    [|destruct (py_print w [entry]) as [[]|e]; eauto].
  destruct (negb (truthy path));
    [destruct (py_print w [entry]) as [[]|e]; eauto|].
  destruct (resolve_path dp hp path) as [file_path|e]; [|eauto].
  destruct (py_print w [path; file_path]) as [[]|e]; [|eauto].
  destruct (py_in "mobility.actor.Node" class_type) as [[|]|e]; [ | |eauto].
  - destruct (py_print w [file_path; resource_id]) as [[]|e]; [|eauto].
    right; right; left. eauto 10.
  - destruct (py_in "mobility.actor.Link" class_type) as [[|]|e]; [ | |eauto].
    + destruct (py_print w [file_path; resource_id]) as [[]|e]; [|eauto].
      right; right; right. eauto 10.
    + destruct (py_print w [class_type; path]) as [[]|e]; eauto.
Qed.

(** Every file-system call made while an entry is processed is the
    opening of a file for reading. *)
Lemma process_entry_io (w : world) (dp hp : option string) (st : state)
  (entry : json) :
  exists events,
    io (fst (process_entry w dp hp st entry)) = io st ++ events /\
    forallb is_read events = true.
Proof.
  destruct (process_entry_cases w dp hp st entry)
    as [(e & ->) | [-> | [(fp & p & rid & _ & ->)
                         | (fp & p & rid & ct & _ & ->)]]];
    simpl; try (exists []; rewrite app_nil_r; auto; fail).
  - exists [EvOpenRead fp]. split; [|reflexivity].
    destruct (process_node_file_frame w fp p rid st)
      as (done & msgs & _ & _ & _ & _ & _ & _ & _ & Hio & _).
    exact Hio.
  - exists [EvOpenRead fp]. split; [|reflexivity].
    destruct (process_link_file_frame w fp p rid ct st)
      as (done & msgs & _ & _ & _ & _ & _ & _ & _ & Hio & _).
    exact Hio.
Qed.

Lemma entries_loop_io (w : world) (dp hp : option string)
  (entries : list json) :
  forall st, exists events,
    io (fst (entries_loop w dp hp entries st)) = io st ++ events /\
    forallb is_read events = true.
Proof.
  induction entries as [|entry rest IH]; intros st; simpl.
  - exists []. rewrite app_nil_r. auto.
  - destruct (process_entry_io w dp hp st entry) as (ev1 & H1 & Hr1).
    destruct (process_entry w dp hp st entry) as [st1 [e|]]; simpl in *.
    + eauto.
    + destruct (IH st1) as (ev2 & H2 & Hr2).
      exists (ev1 ++ ev2). rewrite H2, H1, app_assoc, forallb_app, Hr1, Hr2.
      auto.
Qed.

(** Up to the end of the loop the script only opens files for reading. *)
Lemma manifest_pass_io (w : world) (config_path : string)
  (dp hp : option string) (st : state) :
  manifest_pass w config_path dp hp = PassDone st ->
  forallb is_read (io st) = true.
Proof.
  unfold manifest_pass.
  destruct (read_file w config_path) as [config| | |]; try discriminate.
  destruct (py_in "actorsDataSources" config) as [[|]|]; try discriminate.
  destruct (sources <- py_get config "actorsDataSources" (JArr []) ;;
            py_iter sources) as [entries|]; try discriminate.
  destruct (entries_loop_io w dp hp entries
              (log_io (EvOpenRead (JStr config_path)) init_state))
    as (events & Hio & Hread).
  destruct (entries_loop w dp hp entries _) as [st' [e|]]; try discriminate.
  intros [= <-]. simpl in Hio. rewrite Hio. simpl. exact Hread.
Qed.

(** ** Finalization *)

Lemma no_data_due_to_errors_iff (st : state) :
  no_data_due_to_errors st = true <->
  (all_vertices st = [] /\ all_edges st = [] /\
   (files_not_found st <> [] \/ json_errors st <> [] \/ key_errors st <> [])).
Proof.
  unfold no_data_due_to_errors.
  destruct (all_vertices st), (all_edges st), (files_not_found st),
    (json_errors st), (key_errors st); simpl; split;
    try discriminate; try reflexivity;
    try (intros (H1 & H2 & H3); try discriminate;
         destruct H3 as [H3 | [H3 | H3]]; congruence);
    intros _; repeat split; auto; (left + (right; left) + (right; right));
    discriminate.
Qed.





(** ** The command line *)

(** An empty value does not count as a prefix: with only
    [--docker-prefix ''] the script goes on to the conversion. *)
Lemma empty_prefix_is_not_usage_error :
  docker_prefix Sample.empty_docker_prefix_args <> None /\
  host_prefix Sample.empty_docker_prefix_args = None /\
  fst (main (Sample.link_world [Sample.l0]) Sample.empty_docker_prefix_args)
  = Converted
      (convert_simulation_data (Sample.link_world [Sample.l0]) "config.json" "GPSMap.json"
         (Some "") None) /\
  In (EvOpenRead (JStr "config.json"))
     (snd (main (Sample.link_world [Sample.l0]) Sample.empty_docker_prefix_args)) /\
  In (EvOpenWrite "GPSMap.json")
     (snd (main (Sample.link_world [Sample.l0]) Sample.empty_docker_prefix_args)).
Proof.
  split; [discriminate|]. split; [reflexivity|]. split; [reflexivity|].
  split; vm_compute; auto 20.
Qed.

(** C8 (amended): when exactly one of the two prefixes is given with a
    non-empty value (the other is absent or empty), the script ends with
    the usage error, exit status 2, before any file-system call and without
    calling [convert_simulation_data]. *)
Theorem usage_error_one_prefix (w : world) (a : args) :
  (exists p, p <> "" /\
     ((docker_prefix a = Some p /\
       (host_prefix a = None \/ host_prefix a = Some "")) \/
      (host_prefix a = Some p /\
       (docker_prefix a = None \/ docker_prefix a = Some "")))) ->
  main w a = (UsageError, []) /\
  exit_status (fst (main w a)) = 2%Z /\
  (forall o, fst (main w a) <> Converted o).
Proof.
  intros (p & Hp & H). apply prefix_truthy_Some in Hp.
  assert (Hmain : main w a = (UsageError, [])).
  { unfold main.
    destruct H as [(-> & [-> | ->]) | (-> & [-> | ->])]; rewrite Hp;
      reflexivity. }
  rewrite Hmain. repeat split. discriminate.
Qed.

Lemma usage_error_one_prefix_witness :
  main Sample.mixed_world Sample.docker_prefix_only_args = (UsageError, []) /\
  exit_status (fst (main Sample.mixed_world Sample.docker_prefix_only_args))
  = 2%Z /\
  (forall o, fst (main Sample.mixed_world Sample.docker_prefix_only_args)
             <> Converted o).
Proof.
  apply (usage_error_one_prefix Sample.mixed_world
           Sample.docker_prefix_only_args).
  exists "/app/data/". split; [discriminate|]. left. split; [reflexivity|].
  left. reflexivity.
Defined.

(** ** Exceptions that leave the function *)


(** The loop body on a well-typed entry: an entry that can be printed
    is processed by its kind, skipped or ignored; the print of an entry
    that cannot raises, with the state as it was. *)
Lemma process_entry_typed (w : world) (dp hp : option string) (st : state)
  (entry : json) :
  well_typed_entry entry = true ->
  process_entry w dp hp st entry =
  if entry_printable w dp hp entry then
    (match entry_view entry with
     | Some (ct, id, p) =>
         match kind_of ct with
         | NodeEntry =>
             process_node_file w (JStr (remap dp hp p)) (JStr p) id st
         | LinkEntry =>
             process_link_file w (JStr (remap dp hp p)) (JStr p) id
               (JStr ct) st
         | OtherEntry => st
         end
     | None => st
     end, None)
  else (st, Some UnicodeEncodeError).
Proof.
  unfold well_typed_entry, entry_view, entry_printable, field_or, value_at,
    process_entry.
  rewrite entry_fields_eq. unfold get_walk.
  remember (field_at ["dataSource"; "info"; "path"] entry) as walk_path.
  remember (field_at ["classType"] entry) as walk_class eqn:Hclass.
  remember (field_at ["id"] entry) as walk_id eqn:Hid.
  intros H. apply andb_true_iff in H. destruct H as (Hct & Hp).
  destruct (@walk_in_object ["classType"] entry) as (items & ->);
    [congruence | rewrite <- Hclass; destruct walk_class; congruence |].
  assert (Hobj : walk_id <> NotObject).
  { subst walk_id. simpl. destruct (dict_lookup "id" items); discriminate. }
  assert (Hskip : py_print w [JObj items] = Ok tt) by reflexivity.
  clear Hclass Heqwalk_path Hid.
  assert (Hempty : kind_of "" = OtherEntry) by reflexivity.
  destruct walk_class as [[| | | |ct| |]|k|]; try discriminate;
    destruct walk_path as [[| | | |p| |]|k'|]; try discriminate;
    destruct walk_id as [i|k''|]; try congruence; simpl;
    rewrite ?Hskip, ?orb_true_r; try reflexivity;
    try (destruct (truthy i); simpl; rewrite ?Hskip; [|reflexivity]);
    try (destruct (String.eqb p ""); simpl; rewrite ?Hskip; [reflexivity|]);
    rewrite ?resolve_path_remap; unfold py_print, kind_of; simpl;
    try destruct (str_contains "mobility.actor.Node" ct);
    try destruct (str_contains "mobility.actor.Link" ct);
    simpl;
    destruct (encodable w p), (encodable w (remap dp hp p)); simpl;
    try reflexivity;
    try (destruct (printable w i); reflexivity);
    try (destruct (encodable w ct); reflexivity);
    try (destruct (encodable w ""); reflexivity).
Qed.

Lemma entry_view_typed (entry : json) (ct : string) (id : json) (p : string) :
  entry_view entry = Some (ct, id, p) -> well_typed_entry entry = true.
Proof.
  unfold entry_view, well_typed_entry, value_at.
  destruct (field_at ["classType"] entry) as [[]| |]; try discriminate.
  destruct (field_at ["id"] entry); try discriminate.
  destruct (field_at ["dataSource"; "info"; "path"] entry) as [[]| |];
    try discriminate.
  reflexivity.
Qed.





(** ** Counting the output *)






(** The whole run on the sample manifest: the three node records and the
    two link records, in file order, and no error recorded. *)
Example mixed_world_run :
  exists st,
    convert_simulation_data Sample.mixed_world "config.json"
      "out/GPSMap.json" (Some "/app/data/") (Some "/host/sim/")
    = Written st /\
    map v_id (all_vertices st) = [JStr "n1"; JStr "n3"; JStr "n4"] /\
    map v_resourceId (all_vertices st)
    = [JStr "shard-a"; JStr "shard-a"; JStr "shard-a"] /\
    map e_source_id (all_edges st) = [JStr "n1"; JStr "a"] /\
    map e_weight (all_edges st) = [7.25%float; 12.5%float] /\
    buckets st = ([], [], []).
Proof.
  eexists. split; [vm_compute; reflexivity|].
  repeat split.
Qed.

(** ** The pass, entry by entry *)

Lemma grows_refl (st : state) : grows st st [] [] [] [] [] [] [].
Proof.
  unfold grows. rewrite !app_nil_r. repeat split.
  exists []. rewrite app_nil_r. reflexivity.
Qed.

Lemma grows_trans (st1 st2 st3 : state) vs es nf je np lp evs
  vs' es' nf' je' np' lp' evs' :
  grows st1 st2 vs es nf je np lp evs ->
  grows st2 st3 vs' es' nf' je' np' lp' evs' ->
  grows st1 st3 (vs ++ vs') (es ++ es') (nf ++ nf') (je ++ je') (np ++ np')
    (lp ++ lp') (evs ++ evs').
Proof.
  unfold grows.
  intros (H1 & H2 & H3 & H4 & H5 & H6 & H7 & m & H8)
         (G1 & G2 & G3 & G4 & G5 & G6 & G7 & m' & G8).
  rewrite G1, G2, G3, G4, G5, G6, G7, G8, H1, H2, H3, H4, H5, H6, H7, H8.
  rewrite <- !app_assoc. repeat split. eauto.
Qed.

(** What processing the node file of an entry adds: the vertices of the
    records processed, which are all the records of the file when the
    loop can print what it shows. *)
Lemma grows_node_file (w : world) (dp hp : option string) (st : state)
  (ct : string) (id : json) (p : string) (entry : json) :
  entry_view entry = Some (ct, id, p) ->
  kind_of ct = NodeEntry ->
  encodable w (remap dp hp p) = true ->
  exists vs,
    grows st
      (process_node_file w (JStr (remap dp hp p)) (JStr p) id st)
      vs (entry_edges w dp hp entry)
      (entry_not_found w dp hp entry) (entry_json_errors w dp hp entry)
      (entry_node_files entry) (entry_link_files entry)
      (entry_reads dp hp entry) /\
    (entry_records_printable w dp hp entry = true ->
     vs = entry_vertices w dp hp entry).
Proof.
  intros Hview Hkind Hfp.
  unfold entry_vertices, entry_edges, entry_not_found, entry_json_errors,
    entry_node_files, entry_link_files, entry_reads, file_records,
    entry_records_printable.
  rewrite Hview, Hkind. cbv zeta.
  destruct (process_node_file_frame w (JStr (remap dp hp p)) (JStr p) id st)
    as (done & msgs & Hdone & H1 & H2 & H3 & H4 & H5 & H6 & H7 & H8 & _).
  exists (vertices_of id done).
  unfold grows, processed, file_records in *. simpl open_load in *.
  rewrite H1, H2, H3, H4, H5, H6, H7.
  destruct (read_file w (remap dp hp p)) as [[]| | |];
    rewrite ?app_nil_r; try subst done; repeat split; eauto.
  intros Hall. destruct Hdone as (_ & Hdone).
  rewrite (Hdone (or_introl Hfp) Hall). reflexivity.
Qed.

Lemma grows_link_file (w : world) (dp hp : option string) (st : state)
  (ct : string) (id : json) (p : string) (entry : json) :
  entry_view entry = Some (ct, id, p) ->
  kind_of ct = LinkEntry ->
  encodable w (remap dp hp p) = true ->
  exists es,
    grows st
      (process_link_file w (JStr (remap dp hp p)) (JStr p) id (JStr ct) st)
      (entry_vertices w dp hp entry) es
      (entry_not_found w dp hp entry) (entry_json_errors w dp hp entry)
      (entry_node_files entry) (entry_link_files entry)
      (entry_reads dp hp entry) /\
    (entry_records_printable w dp hp entry = true ->
     es = entry_edges w dp hp entry).
Proof.
  intros Hview Hkind Hfp.
  unfold entry_vertices, entry_edges, entry_not_found, entry_json_errors,
    entry_node_files, entry_link_files, entry_reads, file_records,
    entry_records_printable.
  rewrite Hview, Hkind. cbv zeta.
  destruct (process_link_file_frame w (JStr (remap dp hp p)) (JStr p) id
              (JStr ct) st)
    as (done & msgs & Hdone & H1 & H2 & H3 & H4 & H5 & H6 & H7 & H8 & _).
  exists (edges_of w id (JStr ct) done).
  unfold grows, processed, file_records in *. simpl open_load in *.
  rewrite H1, H2, H3, H4, H5, H6, H7.
  destruct (read_file w (remap dp hp p)) as [[]| | |];
    rewrite ?app_nil_r; try subst done; repeat split; eauto.
  intros Hall. destruct Hdone as (_ & Hdone).
  rewrite (Hdone (or_introl Hfp) Hall). reflexivity.
Qed.

Lemma grows_nothing (w : world) (dp hp : option string) (st : state)
  (entry : json) :
  match entry_view entry with
  | Some (ct, _, _) => kind_of ct = OtherEntry
  | None => True
  end ->
  grows st st
    (entry_vertices w dp hp entry) (entry_edges w dp hp entry)
    (entry_not_found w dp hp entry) (entry_json_errors w dp hp entry)
    (entry_node_files entry) (entry_link_files entry)
    (entry_reads dp hp entry).
Proof.
  unfold entry_vertices, entry_edges, entry_not_found, entry_json_errors,
    entry_node_files, entry_link_files, entry_reads.
  destruct (entry_view entry) as [[[ct id] p]|]; [|intros _; apply grows_refl].
  intros ->. cbv zeta. apply grows_refl.
Qed.

Lemma entry_printable_view (w : world) (dp hp : option string) (entry : json)
  (ct : string) (id : json) (p : string) :
  entry_view entry = Some (ct, id, p) ->
  entry_printable w dp hp entry
  = encodable w p && encodable w (remap dp hp p)
    && match kind_of ct with
       | OtherEntry => encodable w ct
       | _ => printable w id
       end.
Proof.
  unfold entry_view, entry_printable, field_or, value_at.
  destruct (field_at ["classType"] entry) as [[]| |]; try discriminate.
  destruct (field_at ["id"] entry) as [i| |]; try discriminate.
  destruct (field_at ["dataSource"; "info"; "path"] entry) as [[]| |];
    try discriminate.
  destruct (truthy i) eqn:Hi; simpl; try discriminate.
  destruct (String.eqb s0 "") eqn:Hs; simpl; try discriminate.
  intros [= <- <- <-]. reflexivity.
Qed.

(** The loop body on a well-typed entry that can be printed: the entry
    contributes what its definition says to every list; the vertices and
    edges are those of all records of the file when the record loop can
    print what it shows. *)
Lemma process_entry_exact (w : world) (dp hp : option string) (st : state)
  (entry : json) :
  well_typed_entry entry = true ->
  entry_printable w dp hp entry = true ->
  exists st' vs es,
    process_entry w dp hp st entry = (st', None) /\
    grows st st' vs es
      (entry_not_found w dp hp entry) (entry_json_errors w dp hp entry)
      (entry_node_files entry) (entry_link_files entry)
      (entry_reads dp hp entry) /\
    (entry_records_printable w dp hp entry = true ->
     vs = entry_vertices w dp hp entry /\ es = entry_edges w dp hp entry).
Proof.
  intros Htyped Hprint.
  rewrite (process_entry_typed w dp hp st entry Htyped), Hprint.
  destruct (entry_view entry) as [[[ct id] p]|] eqn:Hview.
  - rewrite (entry_printable_view w dp hp _ Hview) in Hprint.
    apply andb_true_iff in Hprint. destruct Hprint as (Hprint & _).
    apply andb_true_iff in Hprint. destruct Hprint as (_ & Hfp).
    destruct (kind_of ct) eqn:Hkind.
    + destruct (grows_node_file w dp hp st _ Hview Hkind Hfp) as (vs & G & Hvs).
      eexists _, vs, _. split; [reflexivity|]. split; [exact G|]. auto.
    + destruct (grows_link_file w dp hp st _ Hview Hkind Hfp) as (es & G & Hes).
      eexists _, _, es. split; [reflexivity|]. split; [exact G|]. auto.
    + eexists _, _, _. split; [reflexivity|].
      split; [apply grows_nothing; rewrite Hview; exact Hkind | auto].
  - eexists _, _, _. split; [reflexivity|].
    split; [apply grows_nothing; rewrite Hview; exact I | auto].
Qed.

Lemma entries_loop_exact (w : world) (dp hp : option string)
  (entries : list json) :
  forallb well_typed_entry entries = true ->
  forallb (entry_printable w dp hp) entries = true ->
  forall st, exists st' vs es,
    entries_loop w dp hp entries st = (st', None) /\
    grows st st' vs es
      (flat_map (entry_not_found w dp hp) entries)
      (flat_map (entry_json_errors w dp hp) entries)
      (flat_map entry_node_files entries)
      (flat_map entry_link_files entries)
      (flat_map (entry_reads dp hp) entries) /\
    (forallb (entry_records_printable w dp hp) entries = true ->
     vs = flat_map (entry_vertices w dp hp) entries /\
     es = flat_map (entry_edges w dp hp) entries).
Proof.
  induction entries as [|entry rest IH]; intros H Hp st; simpl.
  - exists st, [], []. split; [reflexivity|]. split; [apply grows_refl|auto].
  - simpl in H, Hp.
    apply andb_true_iff in H. destruct H as (He & Hrest).
    apply andb_true_iff in Hp. destruct Hp as (Hpe & Hprest).
    destruct (process_entry_exact w dp hp st entry He Hpe)
      as (st1 & vs1 & es1 & -> & G1 & Hrec1).
    destruct (IH Hrest Hprest st1) as (st' & vs & es & -> & G & Hrec).
    exists st', (vs1 ++ vs), (es1 ++ es). split; [reflexivity|].
    split; [eapply grows_trans; eauto|].
    intros Hall. apply andb_true_iff in Hall. destruct Hall as (Ha & Hb).
    destruct (Hrec1 Ha) as (-> & ->). destruct (Hrec Hb) as (-> & ->). auto.
Qed.

(** The whole pass on a well-typed manifest that can be printed. *)
Lemma manifest_pass_exact (w : world) (config_path : string)
  (dp hp : option string) (items : list (string * json))
  (entries : list json) :
  read_file w config_path = ReadOk (JObj items) ->
  dict_lookup "actorsDataSources" items = Some (JArr entries) ->
  forallb well_typed_entry entries = true ->
  forallb (entry_printable w dp hp) entries = true ->
  exists st vs es,
    manifest_pass w config_path dp hp = PassDone st /\
    grows (log_io (EvOpenRead (JStr config_path)) init_state) st vs es
      (flat_map (entry_not_found w dp hp) entries)
      (flat_map (entry_json_errors w dp hp) entries)
      (flat_map entry_node_files entries)
      (flat_map entry_link_files entries)
      (flat_map (entry_reads dp hp) entries) /\
    (forallb (entry_records_printable w dp hp) entries = true ->
     vs = flat_map (entry_vertices w dp hp) entries /\
     es = flat_map (entry_edges w dp hp) entries).
Proof.
  intros Hread Hsources Htyped Hprint.
  destruct (entries_loop_exact w dp hp entries Htyped Hprint
              (log_io (EvOpenRead (JStr config_path)) init_state))
    as (st & vs & es & Hloop & G & Hrec).
  exists st, vs, es. split; [|auto].
  unfold manifest_pass. rewrite Hread. simpl. rewrite Hsources. simpl.
  rewrite Hloop. reflexivity.
Qed.

(** ** The output of the pass *)

(** X1: for a manifest whose path can be printed and whose entries are
    well typed, when the pass can print what it shows of the entries and
    the record loops what they show of the records, the loop ends
    normally and leaves in [all_vertices] exactly the vertices of the
    well-formed records of the node files, and in [all_edges] exactly the
    edges of the well-formed records of the link files, in the order of the
    manifest and of each file; entries that are skipped, ignored or whose
    file cannot be read as a list, and records that are dropped, leave no
    trace in them. *)
Theorem pass_output_exact (w : world) (config_path : string)
  (dp hp : option string) (items : list (string * json))
  (entries : list json) :
  encodable w config_path = true ->
  read_file w config_path = ReadOk (JObj items) ->
  dict_lookup "actorsDataSources" items = Some (JArr entries) ->
  forallb well_typed_entry entries = true ->
  forallb (entry_printable w dp hp) entries = true ->
  forallb (entry_records_printable w dp hp) entries = true ->
  exists st,
    manifest_pass w config_path dp hp = PassDone st /\
    all_vertices st = flat_map (entry_vertices w dp hp) entries /\
    all_edges st = flat_map (entry_edges w dp hp) entries.
Proof.
  intros _ Hread Hsources Htyped Hprint Hrecords.
  destruct (manifest_pass_exact w config_path dp hp Hread Hsources Htyped
              Hprint)
    as (st & vs & es & Hpass & (Hv & He & _) & Hrec).
  destruct (Hrec Hrecords) as (-> & ->).
  exists st. simpl in *. auto.
Qed.

Lemma pass_output_exact_witness :
  exists st,
    manifest_pass Sample.rough_world "config.json" (Some "/app/data/")
      (Some "/host/sim/") = PassDone st /\
    all_vertices st
    = [ {| v_id := JStr "n1"; v_classType := JStr "mobility.actor.Node";
           v_resourceId := JStr "shard-a";
           v_latitude := JFloat 1.5; v_longitude := JFloat 2.5 |};
        {| v_id := JStr "n3"; v_classType := JStr "mobility.actor.Node";
           v_resourceId := JStr "shard-a";
           v_latitude := JFloat 4.5; v_longitude := JFloat 5.5 |} ] /\
    all_edges st
    = [ {| e_source_id := JStr "n1"; e_target_id := JStr "n3";
           e_weight := 7.25%float;
           e_label := {| l_id := JStr "l0"; l_resourceId := JStr "shard-d";
                         l_classType := JStr "mobility.actor.Link";
                         l_length := 7.25%float |} |} ].
Proof.
  apply (pass_output_exact Sample.rough_world "config.json"
           (Some "/app/data/") (Some "/host/sim/")
           (items := [("actorsDataSources", JArr Sample.rough_entries)])
           (entries := Sample.rough_entries));
    vm_compute; reflexivity.
Defined.

(** X2: on a manifest whose path can be printed and whose entries are
    well typed and can be printed, each node or link entry whose file does
    not exist adds exactly one entry to [files_not_found], naming the
    resolved and the original path, and each whose file does not decode
    one entry to [json_errors]; files that decode to something else than a
    list add nothing.  The lists of processed files hold the original path
    of every node and link entry whose file was tried, and the files
    opened are the configuration file followed by those files, once each,
    at their resolved paths. *)
Theorem pass_file_errors_exact (w : world) (config_path : string)
  (dp hp : option string) (items : list (string * json))
  (entries : list json) :
  encodable w config_path = true ->
  read_file w config_path = ReadOk (JObj items) ->
  dict_lookup "actorsDataSources" items = Some (JArr entries) ->
  forallb well_typed_entry entries = true ->
  forallb (entry_printable w dp hp) entries = true ->
  exists st,
    manifest_pass w config_path dp hp = PassDone st /\
    files_not_found st = flat_map (entry_not_found w dp hp) entries /\
    json_errors st = flat_map (entry_json_errors w dp hp) entries /\
    node_files_processed st = flat_map entry_node_files entries /\
    link_files_processed st = flat_map entry_link_files entries /\
    io st = EvOpenRead (JStr config_path)
            :: flat_map (entry_reads dp hp) entries.
Proof.
  intros _ Hread Hsources Htyped Hprint.
  destruct (manifest_pass_exact w config_path dp hp Hread Hsources Htyped
              Hprint)
    as (st & vs & es & Hpass & (_ & _ & Hnf & Hje & Hnp & Hlp & Hio & _) & _).
  exists st. simpl in *. auto 10.
Qed.

Lemma pass_file_errors_exact_witness :
  exists st,
    manifest_pass Sample.rough_world "config.json" (Some "/app/data/")
      (Some "/host/sim/") = PassDone st /\
    files_not_found st
    = [ LinkFileNotFound (JStr "/host/sim/gone.json")
          (JStr "/app/data/gone.json") ] /\
    json_errors st = [ NodeJsonError (JStr "/host/sim/broken.json") ] /\
    node_files_processed st
    = [ JStr "/app/data/nodes.json"; JStr "/app/data/broken.json";
        JStr "/app/data/object.json" ] /\
    link_files_processed st
    = [ JStr "/app/data/gone.json"; JStr "/app/data/links.json" ] /\
    io st
    = [ EvOpenRead (JStr "config.json");
        EvOpenRead (JStr "/host/sim/nodes.json");
        EvOpenRead (JStr "/host/sim/gone.json");
        EvOpenRead (JStr "/host/sim/broken.json");
        EvOpenRead (JStr "/host/sim/links.json");
        EvOpenRead (JStr "/host/sim/object.json") ].
Proof.
  apply (pass_file_errors_exact Sample.rough_world "config.json"
           (Some "/app/data/") (Some "/host/sim/")
           (items := [("actorsDataSources", JArr Sample.rough_entries)])
           (entries := Sample.rough_entries));
    vm_compute; reflexivity.
Defined.

Lemma missing_file_entry_contribution (w : world) (dp hp : option string)
  (entry : json) :
  missing_file_entry w dp hp entry = true ->
  entry_vertices w dp hp entry = [] /\
  entry_edges w dp hp entry = [] /\
  List.length (entry_not_found w dp hp entry) = 1.
Proof.
  unfold missing_file_entry, entry_vertices, entry_edges, entry_not_found,
    file_records.
  destruct (entry_view entry) as [[[ct id] p]|]; [|discriminate].
  cbv zeta.
  destruct (kind_of ct);
    destruct (read_file w (remap dp hp p)) as [[]| | |];
    try discriminate; auto.
Qed.

Lemma missing_file_entry_records (w : world) (dp hp : option string)
  (entry : json) :
  missing_file_entry w dp hp entry = true ->
  entry_records_printable w dp hp entry = true.
Proof.
  unfold missing_file_entry, entry_records_printable, entry_not_found,
    file_records.
  destruct (entry_view entry) as [[[ct id] p]|]; [|discriminate].
  cbv zeta.
  destruct (kind_of ct);
    destruct (read_file w (remap dp hp p)) as [[]| | |];
    try discriminate; auto.
Qed.

(** X3: when the manifest, whose path can be printed, is a non-empty
    list of node and link entries that can be printed and none of whose
    files exists, the run produces nothing, records one [files_not_found]
    entry per manifest entry, and returns through the no-data exit without
    any file-system call other than opening files for reading. *)
Theorem all_files_missing_no_output (w : world)
  (config_path output_path : string) (dp hp : option string)
  (items : list (string * json)) (entries : list json) :
  encodable w config_path = true ->
  read_file w config_path = ReadOk (JObj items) ->
  dict_lookup "actorsDataSources" items = Some (JArr entries) ->
  entries <> [] ->
  forallb (fun entry => well_typed_entry entry
                        && missing_file_entry w dp hp entry) entries = true ->
  forallb (entry_printable w dp hp) entries = true ->
  exists st,
    convert_simulation_data w config_path output_path dp hp = NoDataAbort st /\
    all_vertices st = [] /\ all_edges st = [] /\
    List.length (files_not_found st) = List.length entries /\
    forallb is_read (io st) = true.
Proof.
  intros _ Hread Hsources Hne Hall Hprint.
  assert (Hrecords : forallb (entry_records_printable w dp hp) entries = true).
  { clear - Hall. induction entries as [|e l IH]; simpl in *; [reflexivity|].
    apply andb_true_iff in Hall. destruct Hall as (He & Hl).
    apply andb_true_iff in He. destruct He as (_ & He).
    rewrite (missing_file_entry_records w dp hp e He). auto. }
  assert (Htyped : forallb well_typed_entry entries = true).
  { clear - Hall. induction entries as [|e l IH]; simpl in *; [reflexivity|].
    apply andb_true_iff in Hall. destruct Hall as (He & Hl).
    apply andb_true_iff in He. destruct He as (-> & _). auto. }
  assert (Hcontrib : flat_map (entry_vertices w dp hp) entries = [] /\
                     flat_map (entry_edges w dp hp) entries = [] /\
                     List.length (flat_map (entry_not_found w dp hp) entries)
                     = List.length entries).
  { clear - Hall. induction entries as [|e l IH]; simpl in *; [auto|].
    apply andb_true_iff in Hall. destruct Hall as (He & Hl).
    apply andb_true_iff in He. destruct He as (_ & He).
    destruct (missing_file_entry_contribution w dp hp e He) as (-> & -> & H1).
    destruct (IH Hl) as (-> & -> & H2).
    rewrite length_app, H1, H2. auto. }
  destruct Hcontrib as (Hv0 & He0 & Hlen).
  destruct (manifest_pass_exact w config_path dp hp Hread Hsources Htyped
              Hprint)
    as (st & vs & es & Hpass & (Hv & He & Hnf & _) & Hrec).
  destruct (Hrec Hrecords) as (-> & ->).
  simpl in Hv, He, Hnf. rewrite Hv0 in Hv. rewrite He0 in He.
  exists st.
  assert (Hnd : no_data_due_to_errors st = true).
  { apply no_data_due_to_errors_iff. repeat split; auto. left.
    intros Hnil. rewrite <- Hnf, Hnil in Hlen. simpl in Hlen.
    destruct entries; [congruence | discriminate]. }
  unfold convert_simulation_data, finalize. rewrite Hpass, Hnd.
  repeat split; auto.
  - rewrite Hnf. exact Hlen.
  - eapply manifest_pass_io; eauto.
Qed.

Lemma all_files_missing_no_output_witness :
  exists st,
    convert_simulation_data Sample.two_missing_world "config.json"
      "out/GPSMap.json" None None = NoDataAbort st /\
    all_vertices st = [] /\ all_edges st = [] /\
    List.length (files_not_found st) = List.length Sample.two_entries /\
    forallb is_read (io st) = true.
Proof.
  apply (all_files_missing_no_output Sample.two_missing_world "config.json"
           "out/GPSMap.json" None None
           (items := [("actorsDataSources", JArr Sample.two_entries)])
           (entries := Sample.two_entries));
    try (vm_compute; reflexivity).
  discriminate.
Defined.

(** ** Invariants of the output *)

Lemma endpoint_value_truthy (link : json) (end_key : string) (v : json) :
  endpoint_value link end_key = Some v -> truthy v = true.
Proof.
  unfold endpoint_value, truthy_value.
  destruct (value_at (primary_location end_key) link) as [p|];
    [destruct (truthy p) eqn:Hp; [intros [= <-]; exact Hp|]|];
    (destruct (value_at (fallback_location end_key) link) as [f|];
     [destruct (truthy f) eqn:Hf; [intros [= <-]; exact Hf | discriminate]
     | discriminate]).
Qed.

Lemma edge_of_ok (w : world) (resource_id class_type link : json) (e : edge) :
  truthy resource_id = true ->
  edge_of w resource_id class_type link = Some e -> edge_ok e.
Proof.
  intros Hrid. rewrite edge_of_unfold.
  destruct (endpoint_value link "from_node") as [s|] eqn:Hs; [|discriminate].
  destruct (endpoint_value link "to_node") as [t|] eqn:Ht; [|discriminate].
  destruct (value_at ["id"] link); [|discriminate].
  destruct (value_at ["data"; "content"; "length"] link) as [l|];
    [|discriminate].
  destruct (py_float w l); [|discriminate].
  intros [= <-]. unfold edge_ok. simpl.
  repeat split; eauto using endpoint_value_truthy.
Qed.

Lemma edges_of_ok (w : world) (resource_id class_type : json)
  (records : list json) :
  truthy resource_id = true ->
  Forall edge_ok (edges_of w resource_id class_type records).
Proof.
  intros Hrid. apply Forall_forall. intros e Hin.
  apply in_flat_map in Hin. destruct Hin as (link & _ & Hin).
  destruct (edge_of w resource_id class_type link) as [e'|] eqn:He;
    [|contradiction].
  destruct Hin as [<- | []]. eapply edge_of_ok; eauto.
Qed.

Lemma vertices_of_ok (resource_id : json) (records : list json) :
  truthy resource_id = true ->
  Forall vertex_ok (vertices_of resource_id records).
Proof.
  intros Hrid. apply Forall_forall. intros v Hin.
  apply in_flat_map in Hin. destruct Hin as (node & _ & Hin).
  unfold vertex_of in Hin.
  destruct (field_at ["id"] node), (field_at ["typeActor"] node),
    (field_at ["data"; "content"; "latitude"] node),
    (field_at ["data"; "content"; "longitude"] node);
    try contradiction.
  destruct Hin as [<- | []]. exact Hrid.
Qed.

Lemma process_entry_ok (w : world) (dp hp : option string) (st : state)
  (entry : json) :
  state_ok st -> state_ok (fst (process_entry w dp hp st entry)).
Proof.
  intros (Hv & He).
  destruct (process_entry_cases w dp hp st entry)
    as [(e & ->) | [-> | [(fp & p & rid & Hrid & ->)
                         | (fp & p & rid & ct & Hrid & ->)]]];
    simpl; try (split; assumption).
  - destruct (process_node_file_frame w fp p rid st)
      as (done & msgs & _ & H1 & H2 & _).
    split; [rewrite H1 | rewrite H2; assumption].
    apply Forall_app. split; [assumption|].
    apply vertices_of_ok, Hrid.
  - destruct (process_link_file_frame w fp p rid ct st)
      as (done & msgs & _ & H1 & H2 & _).
    split; [rewrite H1; assumption | rewrite H2].
    apply Forall_app. split; [assumption|].
    apply edges_of_ok, Hrid.
Qed.

Lemma entries_loop_ok (w : world) (dp hp : option string)
  (entries : list json) :
  forall st, state_ok st -> state_ok (fst (entries_loop w dp hp entries st)).
Proof.
  induction entries as [|entry rest IH]; intros st Hok; simpl; [exact Hok|].
  pose proof (process_entry_ok w dp hp entry Hok) as H1.
  destruct (process_entry w dp hp st entry) as [st1 [e|]]; simpl in *;
    [exact H1 | apply IH, H1].
Qed.

Lemma manifest_pass_ok (w : world) (config_path : string)
  (dp hp : option string) :
  state_ok (pass_state (manifest_pass w config_path dp hp)).
Proof.
  assert (H0 : state_ok (log_io (EvOpenRead (JStr config_path)) init_state))
    by (split; constructor).
  unfold manifest_pass.
  destruct (read_file w config_path) as [config| | |]; try exact H0.
  destruct (py_in "actorsDataSources" config) as [[|]|]; try exact H0.
  destruct (sources <- py_get config "actorsDataSources" (JArr []) ;;
            py_iter sources) as [entries|]; try exact H0.
  pose proof (entries_loop_ok w dp hp entries H0) as H.
  destruct (entries_loop w dp hp entries _) as [st' [e|]]; exact H.
Qed.

Ltac conj_events :=
  repeat (split; [solve [reflexivity | assumption | eauto] |]); eauto.

Ltac output_events :=
  repeat first
    [ apply Forall_nil
    | apply Forall_cons; [unfold is_output_event; eauto 10|] ].

(** What the part of the function after the loop does: it leaves the
    accumulators alone and only adds calls on the output path to the log;
    none on the no-data exit. *)
Lemma finalize_events (w : world) (output_path : string) (st : state) :
  exists tail,
    io (outcome_state (finalize w output_path st)) = io st ++ tail /\
    all_vertices (outcome_state (finalize w output_path st))
    = all_vertices st /\
    all_edges (outcome_state (finalize w output_path st)) = all_edges st /\
    buckets (outcome_state (finalize w output_path st)) = buckets st /\
    Forall (is_output_event w output_path) tail /\
    (forall p doc, In (EvDump p doc) tail ->
                   p = output_path /\ doc = gps_map_data st) /\
    ((no_data_due_to_errors st = true /\
      finalize w output_path st = NoDataAbort st /\ tail = []) \/
     (no_data_due_to_errors st = false /\
      exists st', finalize w output_path st = Written st' \/
                  finalize w output_path st = WriteFailed st')).
Proof.
  unfold finalize.
  destruct (no_data_due_to_errors st) eqn:Hnd.
  - exists []. simpl. rewrite app_nil_r.
    split; [reflexivity|]. split; [reflexivity|]. split; [reflexivity|].
    split; [reflexivity|]. split; [constructor|].
    split; [intros p doc []|]. left. auto.
  - assert (Hev : forall evs : list io_event,
               Forall (is_output_event w output_path) evs ->
               (forall p doc, In (EvDump p doc) evs ->
                              p = output_path /\ doc = gps_map_data st) ->
               forall st0,
                 io st0 = io st ++ evs ->
                 all_vertices st0 = all_vertices st ->
                 all_edges st0 = all_edges st ->
                 buckets st0 = buckets st ->
                 exists tail,
                   io (outcome_state (write_output w output_path st0))
                   = io st ++ tail /\
                   all_vertices (outcome_state (write_output w output_path st0))
                   = all_vertices st /\
                   all_edges (outcome_state (write_output w output_path st0))
                   = all_edges st /\
                   buckets (outcome_state (write_output w output_path st0))
                   = buckets st /\
                   Forall (is_output_event w output_path) tail /\
                   (forall p doc, In (EvDump p doc) tail ->
                                  p = output_path /\ doc = gps_map_data st) /\
                   exists st',
                     write_output w output_path st0 = Written st' \/
                     write_output w output_path st0 = WriteFailed st').
    { intros evs Hout Hdump st0 Hio Hv He Hb. unfold write_output.
      assert (Hdoc : gps_map_data (log_io (EvOpenWrite output_path) st0)
                     = gps_map_data st)
        by (unfold gps_map_data; simpl; rewrite Hv, He; reflexivity).
      destruct (open_w_ok w output_path).
      - exists (evs ++ [EvOpenWrite output_path;
                        EvDump output_path (gps_map_data st)]).
        assert (Hall : Forall (is_output_event w output_path)
                         (evs ++ [EvOpenWrite output_path;
                                  EvDump output_path (gps_map_data st)])).
        { apply Forall_app. split; [exact Hout|].
          output_events. }
        assert (Hd : forall p doc,
                   In (EvDump p doc)
                      (evs ++ [EvOpenWrite output_path;
                               EvDump output_path (gps_map_data st)]) ->
                   p = output_path /\ doc = gps_map_data st).
        { intros p doc Hin. apply in_app_or in Hin.
          destruct Hin as [Hin | [Hin | [Hin | []]]]; eauto;
            [discriminate | injection Hin as <- <-; auto]. }
        rewrite Hdoc.
        destruct (dump_ok w output_path); simpl;
          rewrite Hio, <- !app_assoc; simpl; conj_events.
      - exists (evs ++ [EvOpenWrite output_path]). simpl.
        assert (Hall : Forall (is_output_event w output_path)
                         (evs ++ [EvOpenWrite output_path])).
        { apply Forall_app. split; [exact Hout|]. output_events. }
        assert (Hd : forall p doc,
                   In (EvDump p doc) (evs ++ [EvOpenWrite output_path]) ->
                   p = output_path /\ doc = gps_map_data st).
        { intros p doc Hin. apply in_app_or in Hin.
          destruct Hin as [Hin | [Hin | []]]; eauto. discriminate. }
        rewrite Hio, <- app_assoc. conj_events. }
    assert (Hsave : exists tail,
               io (outcome_state (save_output w output_path st))
               = io st ++ tail /\
               all_vertices (outcome_state (save_output w output_path st))
               = all_vertices st /\
               all_edges (outcome_state (save_output w output_path st))
               = all_edges st /\
               buckets (outcome_state (save_output w output_path st))
               = buckets st /\
               Forall (is_output_event w output_path) tail /\
               (forall p doc, In (EvDump p doc) tail ->
                              p = output_path /\ doc = gps_map_data st) /\
               exists st',
                 save_output w output_path st = Written st' \/
                 save_output w output_path st = WriteFailed st').
    { unfold save_output.
      destruct (negb (String.eqb (dirname w output_path) "")).
      - destruct (negb (path_exists w (dirname w output_path))).
        + destruct (makedirs_ok w (dirname w output_path)).
          * apply (Hev [EvExists (dirname w output_path);
                        EvMakedirs (dirname w output_path)]);
              try reflexivity.
            -- output_events.
            -- intros p doc [H | [H | []]]; discriminate.
            -- simpl. rewrite <- app_assoc. reflexivity.
          * exists [EvExists (dirname w output_path);
                    EvMakedirs (dirname w output_path)].
            assert (Hall : Forall (is_output_event w output_path)
                             [EvExists (dirname w output_path);
                              EvMakedirs (dirname w output_path)])
              by output_events.
            assert (Hd : forall p doc,
                       In (EvDump p doc)
                          [EvExists (dirname w output_path);
                           EvMakedirs (dirname w output_path)] ->
                       p = output_path /\ doc = gps_map_data st)
              by (intros p doc [H | [H | []]]; discriminate).
            simpl. rewrite <- app_assoc. conj_events.
        + apply (Hev [EvExists (dirname w output_path)]); try reflexivity.
          * output_events.
          * intros p doc [H | []]; discriminate.
      - apply (Hev []); try reflexivity.
        + constructor.
        + intros p doc [].
        + rewrite app_nil_r. reflexivity. }
    destruct Hsave as (tail & H1 & H2 & H3 & H4 & H5 & H6 & H7).
    exists tail. conj_events.
Qed.

Lemma manifest_pass_reads (w : world) (config_path : string)
  (dp hp : option string) :
  exists reads,
    io (pass_state (manifest_pass w config_path dp hp))
    = EvOpenRead (JStr config_path) :: reads /\
    forallb is_read reads = true.
Proof.
  unfold manifest_pass.
  destruct (read_file w config_path) as [config| | |];
    try (exists []; split; reflexivity).
  destruct (py_in "actorsDataSources" config) as [[|]|];
    try (exists []; split; reflexivity).
  destruct (sources <- py_get config "actorsDataSources" (JArr []) ;;
            py_iter sources) as [entries|];
    try (exists []; split; reflexivity).
  destruct (entries_loop_io w dp hp entries
              (log_io (EvOpenRead (JStr config_path)) init_state))
    as (events & Hio & Hread).
  exists events.
  destruct (entries_loop w dp hp entries _) as [st' [e|]]; simpl in *;
    rewrite Hio; auto.
Qed.

(** X4: in every run, however it ends, every vertex accumulated carries a
    truthy [resourceId], and every edge has truthy [source_id] and
    [target_id], a [weight] equal to its [label.length] and a truthy
    [label.resourceId]. *)
Theorem output_invariants (w : world) (config_path output_path : string)
  (dp hp : option string) :
  Forall vertex_ok
    (all_vertices
       (outcome_state
          (convert_simulation_data w config_path output_path dp hp))) /\
  Forall edge_ok
    (all_edges
       (outcome_state
          (convert_simulation_data w config_path output_path dp hp))).
Proof.
  pose proof (manifest_pass_ok w config_path dp hp) as Hok.
  unfold convert_simulation_data.
  destruct (manifest_pass w config_path dp hp) as [e st|st|st];
    try exact Hok.
  destruct (finalize_events w output_path st) as (tail & _ & Hv & He & _).
  rewrite Hv, He. exact Hok.
Qed.


(** X6: a document is only ever dumped to the output path, and the
    document dumped is the one built from the final accumulators: its
    nodes are [all_vertices], its edges [all_edges], and it is not
    directed. *)
Theorem dumped_document (w : world) (config_path output_path : string)
  (dp hp : option string) (p : string) (doc : gps_map) :
  In (EvDump p doc)
     (io (outcome_state
            (convert_simulation_data w config_path output_path dp hp))) ->
  p = output_path /\
  nodes doc
  = all_vertices
      (outcome_state
         (convert_simulation_data w config_path output_path dp hp)) /\
  edges doc
  = all_edges
      (outcome_state
         (convert_simulation_data w config_path output_path dp hp)) /\
  directed doc = false.
Proof.
  destruct (manifest_pass_reads w config_path dp hp) as (reads & Hio & Hr).
  assert (Hno : forall evs, forallb is_read evs = true ->
                            ~ In (EvDump p doc) evs).
  { intros evs Hall Hin.
    apply (proj1 (forallb_forall _ _) Hall) in Hin. discriminate. }
  unfold convert_simulation_data.
  destruct (manifest_pass w config_path dp hp) as [e st|st|st]; simpl in *;
    try solve [rewrite Hio; intros [H | H];
               [discriminate | exfalso; eapply Hno; eauto]].
  destruct (finalize_events w output_path st)
    as (tail & Htail & Hv & He & _ & _ & Hdump & _).
  rewrite Htail, Hv, He, Hio. intros Hin.
  apply in_app_or in Hin. destruct Hin as [[H | H] | H].
  - discriminate.
  - exfalso. eapply Hno; eauto.
  - destruct (Hdump p doc H) as (-> & ->). auto.
Qed.

Lemma dumped_document_witness :
  "out/GPSMap.json" = "out/GPSMap.json" /\
  nodes (gps_map_data Sample.mixed_state)
  = all_vertices
      (outcome_state
         (convert_simulation_data Sample.mixed_world "config.json"
            "out/GPSMap.json" (Some "/app/data/") (Some "/host/sim/"))) /\
  edges (gps_map_data Sample.mixed_state)
  = all_edges
      (outcome_state
         (convert_simulation_data Sample.mixed_world "config.json"
            "out/GPSMap.json" (Some "/app/data/") (Some "/host/sim/"))) /\
  directed (gps_map_data Sample.mixed_state) = false.
Proof.
  apply (@dumped_document Sample.mixed_world "config.json" "out/GPSMap.json"
           (Some "/app/data/") (Some "/host/sim/")
           "out/GPSMap.json" (gps_map_data Sample.mixed_state)).
  vm_compute. auto 20.
Defined.

(** ** Manifest errors *)



(** ** Entries that are skipped or ignored *)

(** X8: an entry in which [dataSource] and [dataSource.info] are objects
    where present, and whose [id] or [path] is absent or falsy (null, an
    empty string, zero, ...), is skipped: the state is left as it was, no
    file is opened, and nothing is raised, whatever its [classType] is. *)
Theorem entry_without_id_or_path_skipped (w : world) (dp hp : option string)
  (st : state) (entry : json) :
  field_at ["dataSource"; "info"; "path"] entry <> NotObject ->
  truthy_value (value_at ["id"] entry) = None \/
  truthy_value (value_at ["dataSource"; "info"; "path"] entry) = None ->
  process_entry w dp hp st entry = (st, None).
Proof.
  unfold value_at, truthy_value, process_entry.
  rewrite entry_fields_eq. unfold get_walk.
  remember (field_at ["dataSource"; "info"; "path"] entry) as walk_path
    eqn:Hpath.
  remember (field_at ["classType"] entry) as walk_class eqn:Hclass.
  remember (field_at ["id"] entry) as walk_id eqn:Hid.
  intros Hobj.
  destruct (@walk_in_object ["dataSource"; "info"; "path"] entry)
    as (items & ->); [congruence | congruence |].
  assert (Hc : walk_class <> NotObject)
    by (subst walk_class; simpl; destruct (dict_lookup "classType" items);
        discriminate).
  assert (Hi : walk_id <> NotObject)
    by (subst walk_id; simpl; destruct (dict_lookup "id" items);
        discriminate).
  clear Hpath Hclass Hid.
  destruct walk_class as [c| |]; try congruence;
    destruct walk_id as [i| |]; try congruence;
    destruct walk_path as [p| |]; try congruence; simpl;
    repeat match goal with
           | |- context [truthy ?v] => is_var v; destruct (truthy v)
           end;
    simpl; intros [H | H]; try discriminate; reflexivity.
Qed.

Lemma entry_without_id_or_path_skipped_witness :
  process_entry Sample.mixed_world None None init_state Sample.odd_entry
  = (init_state, None).
Proof.
  apply (entry_without_id_or_path_skipped Sample.mixed_world None None
           init_state Sample.odd_entry).
  - discriminate.
  - left. reflexivity.
Defined.

(** X9: an accepted entry is shown on standard output before anything is
    done with it: when what the pass shows of it cannot be printed, the
    print raises and the exception leaves the loop with the state as it
    was.  Otherwise the class type decides what is done, and the node
    test wins: an entry whose class type contains [mobility.actor.Node]
    is read as a node file only, even if it also contains
    [mobility.actor.Link], so it adds no edge and no processed link file;
    an entry whose class type contains neither is ignored without opening
    its file. *)
Theorem dispatch_by_class_type (w : world) (dp hp : option string)
  (st : state) (entry : json) (ct : string) (id : json) (p : string) :
  entry_view entry = Some (ct, id, p) ->
  (entry_printable w dp hp entry = false ->
   process_entry w dp hp st entry = (st, Some UnicodeEncodeError)) /\
  (entry_printable w dp hp entry = true ->
   str_contains "mobility.actor.Node" ct = true ->
   snd (process_entry w dp hp st entry) = None /\
   all_edges (fst (process_entry w dp hp st entry)) = all_edges st /\
   link_files_processed (fst (process_entry w dp hp st entry))
   = link_files_processed st /\
   node_files_processed (fst (process_entry w dp hp st entry))
   = node_files_processed st ++ [JStr p] /\
   io (fst (process_entry w dp hp st entry))
   = io st ++ [EvOpenRead (JStr (remap dp hp p))]) /\
  (entry_printable w dp hp entry = true ->
   str_contains "mobility.actor.Node" ct = false ->
   str_contains "mobility.actor.Link" ct = false ->
   process_entry w dp hp st entry = (st, None)).
Proof.
  intros Hview.
  rewrite (process_entry_typed w dp hp st entry (entry_view_typed _ Hview)),
    Hview.
  unfold kind_of. split; [|split].
  - intros ->. reflexivity.
  - intros -> ->. simpl.
    destruct (process_node_file_frame w (JStr (remap dp hp p)) (JStr p) id st)
      as (done & msgs & _ & _ & H2 & _ & _ & H5 & H6 & H7 & _).
    auto.
  - intros -> -> ->. reflexivity.
Qed.

Lemma dispatch_by_class_type_witness :
  (snd (process_entry Sample.mixed_world None None init_state
          Sample.both_kinds_entry) = None /\
   all_edges (fst (process_entry Sample.mixed_world None None init_state
                     Sample.both_kinds_entry)) = all_edges init_state /\
   link_files_processed
     (fst (process_entry Sample.mixed_world None None init_state
             Sample.both_kinds_entry))
   = link_files_processed init_state /\
   node_files_processed
     (fst (process_entry Sample.mixed_world None None init_state
             Sample.both_kinds_entry))
   = node_files_processed init_state ++ [JStr "/data/nodes.json"] /\
   io (fst (process_entry Sample.mixed_world None None init_state
              Sample.both_kinds_entry))
   = io init_state
     ++ [EvOpenRead (JStr (remap None None "/data/nodes.json"))]) /\
  process_entry Sample.mixed_world None None init_state
    (Sample.manifest_entry (JStr "mobility.actor.Car") (JStr "shard-c")
       (JStr "/app/data/cars.json"))
  = (init_state, None) /\
  process_entry Sample.mixed_world None None init_state
    (Sample.manifest_entry (JStr Sample.lone_surrogate) (JStr "shard-c")
       (JStr "/app/data/cars.json"))
  = (init_state, Some UnicodeEncodeError).
Proof.
  split; [|split].
  - apply (proj1 (proj2 (dispatch_by_class_type Sample.mixed_world None None
                           init_state Sample.both_kinds_entry
                           (ct := "mobility.actor.Node,mobility.actor.Link")
                           (id := JStr "shard") (p := "/data/nodes.json")
                           eq_refl)));
      reflexivity.
  - apply (proj2 (proj2 (dispatch_by_class_type Sample.mixed_world None None
                           init_state
                           (Sample.manifest_entry (JStr "mobility.actor.Car")
                              (JStr "shard-c") (JStr "/app/data/cars.json"))
                           (ct := "mobility.actor.Car") (id := JStr "shard-c")
                           (p := "/app/data/cars.json") eq_refl)));
      reflexivity.
  - apply (proj1 (dispatch_by_class_type Sample.mixed_world None None
                    init_state
                    (Sample.manifest_entry (JStr Sample.lone_surrogate)
                       (JStr "shard-c") (JStr "/app/data/cars.json"))
                    (ct := Sample.lone_surrogate) (id := JStr "shard-c")
                    (p := "/app/data/cars.json") eq_refl));
      reflexivity.
Defined.

(** ** What the key errors say *)

(** X10: for a node record that lacks a key, the handler first prints
    the message; when the id it shows and the file path can be printed,
    the entry added to [key_errors] names the first key that is missing
    in the order the script reads the fields ([id], [typeActor], then the
    way to [latitude], then to [longitude]), the [id] of the record, or
    ["unknown ID"] when the record has none, and the resolved path of the
    file; when they cannot, the print raises and nothing is added. *)
Theorem node_key_error_message (w : world) (file_path resource_id : json)
  (st : state) (node : json) (k : string) :
  first_missing_node_key node = Some k ->
  process_node w file_path resource_id st node
  = (if printable w (shown_id node) && printable w file_path
     then Ok (add_key_error (NodeKeyError k (shown_id node) file_path) st)
     else Err UnicodeEncodeError) /\
  key_errors (fst (node_loop w file_path resource_id [node] st))
  = key_errors st
    ++ (if printable w (shown_id node) && printable w file_path
        then [NodeKeyError k (shown_id node) file_path] else []) /\
  all_vertices (fst (node_loop w file_path resource_id [node] st))
  = all_vertices st.
Proof.
  intros Hkey.
  assert (H : process_node w file_path resource_id st node
              = if printable w (shown_id node) && printable w file_path
                then Ok (add_key_error
                           (NodeKeyError k (shown_id node) file_path) st)
                else Err UnicodeEncodeError).
  { destruct (process_node_cases w file_path resource_id st node)
      as [(v & Hv & Hm & _) | [(_ & _ & k' & Hk' & ->) | (_ & _ & Hnone & _)]].
    - exfalso. revert Hv Hkey.
      unfold vertex_of, first_missing_node_key, missing_key.
      destruct (field_at ["id"] node), (field_at ["typeActor"] node),
        (field_at ["data"; "content"; "latitude"] node),
        (field_at ["data"; "content"; "longitude"] node); discriminate.
    - rewrite after_print. simpl. rewrite andb_true_r.
      assert (k' = k) by congruence. subst k'. reflexivity.
    - congruence. }
  split; [exact H|]. simpl. rewrite H.
  destruct (printable w (shown_id node) && printable w file_path); simpl;
    rewrite ?app_nil_r; auto.
Qed.

Lemma node_key_error_message_witness :
  process_node (Concrete.of_files [] []) (JStr "nodes.json") (JStr "shard")
    init_state Sample.anonymous_node
  = Ok (add_key_error
          (NodeKeyError "id" (JStr "unknown ID") (JStr "nodes.json"))
          init_state) /\
  process_node (Concrete.of_files [] []) (JStr "nodes.json") (JStr "shard")
    init_state Sample.n2_no_latitude
  = Ok (add_key_error
          (NodeKeyError "latitude" (JStr "n2") (JStr "nodes.json"))
          init_state) /\
  process_node (Concrete.of_files [] []) (JStr "nodes.json") (JStr "shard")
    init_state Sample.n5_unprintable_id
  = Err UnicodeEncodeError /\
  key_errors
    (fst (node_loop (Concrete.of_files [] []) (JStr "nodes.json")
            (JStr "shard") [Sample.n2_no_latitude] init_state))
  = [NodeKeyError "latitude" (JStr "n2") (JStr "nodes.json")].
Proof.
  split; [|split; [|split]].
  - apply (proj1 (node_key_error_message (Concrete.of_files [] [])
                    (JStr "nodes.json") (JStr "shard")
                    init_state Sample.anonymous_node (k := "id") eq_refl)).
  - apply (proj1 (node_key_error_message (Concrete.of_files [] [])
                    (JStr "nodes.json") (JStr "shard")
                    init_state Sample.n2_no_latitude (k := "latitude")
                    eq_refl)).
  - apply (proj1 (node_key_error_message (Concrete.of_files [] [])
                    (JStr "nodes.json") (JStr "shard")
                    init_state Sample.n5_unprintable_id (k := "latitude")
                    eq_refl)).
  - apply (proj1 (proj2 (node_key_error_message (Concrete.of_files [] [])
                           (JStr "nodes.json") (JStr "shard")
                           init_state Sample.n2_no_latitude (k := "latitude")
                           eq_refl))).
Defined.

(** X11: a link record whose endpoint locations can be looked up and that
    lacks [id], or has it and lacks a key on the way to
    [data.content.length], is shown by the handler and then, when the id
    shown and the file path can be printed, adds one entry to
    [key_errors] naming that key and the record's [id] (["unknown ID"]
    without one); when they cannot, the print raises and nothing is
    added.  The key error comes first: it is met whether or not the
    endpoints resolve and, for a missing [id], whatever the length is. *)
Theorem link_key_error_message (w : world)
  (file_path resource_id class_type : json) (st : state) (link : json)
  (k : string) :
  endpoint_lookup_ok link "from_node" = true ->
  endpoint_lookup_ok link "to_node" = true ->
  first_missing_link_key link = Some k ->
  process_link w file_path resource_id class_type st link
  = (if printable w (shown_id link) && printable w file_path
     then Ok (add_key_error (LinkKeyError k (shown_id link) file_path) st)
     else Err UnicodeEncodeError) /\
  key_errors
    (fst (link_loop w file_path resource_id class_type [link] st))
  = key_errors st
    ++ (if printable w (shown_id link) && printable w file_path
        then [LinkKeyError k (shown_id link) file_path] else []) /\
  all_edges (fst (link_loop w file_path resource_id class_type [link] st))
  = all_edges st.
Proof.
  intros Hfrom Hto Hkey.
  assert (H : process_link w file_path resource_id class_type st link
              = if printable w (shown_id link) && printable w file_path
                then Ok (add_key_error
                           (LinkKeyError k (shown_id link) file_path) st)
                else Err UnicodeEncodeError);
    [|split; [exact H|]; simpl; rewrite H;
      destruct (printable w (shown_id link) && printable w file_path); simpl;
      rewrite ?app_nil_r; auto].
  revert Hkey.
  destruct (endpoint_lookup_ok_endpoint _ _ Hfrom) as (src & E1).
  destruct (endpoint_lookup_ok_endpoint _ _ Hto) as (tgt & E2).
  unfold first_missing_link_key, missing_key, process_link.
  rewrite link_fields_eq, E1, E2. unfold getitem_walk.
  remember (field_at ["data"; "content"; "length"] link) as walk_len.
  assert (Hobj : field_at ["id"] link <> NotObject ->
                 exists items, link = JObj items)
    by (apply walk_in_object; discriminate).
  remember (field_at ["id"] link) as walk_id.
  destruct walk_id as [i|k'|]; try discriminate;
    (destruct Hobj as (items & Hlink); [discriminate|]).
  - destruct walk_len as [l|k'|]; try discriminate.
    intros [= <-]. cbv beta iota delta [bind].
    rewrite (link_except_object _ _ _ _ _ Hlink). cbv zeta.
    rewrite after_print. simpl. rewrite andb_true_r. reflexivity.
  - intros [= <-]. cbv beta iota delta [bind].
    rewrite (link_except_object _ _ _ _ _ Hlink). cbv zeta.
    rewrite after_print. simpl. rewrite andb_true_r. reflexivity.
Qed.

Lemma link_key_error_message_witness :
  process_link (Concrete.of_files [] []) (JStr "links.json") (JStr "shard")
    (JStr "mobility.actor.Link") init_state Sample.anonymous_link
  = Ok (add_key_error
          (LinkKeyError "id" (JStr "unknown ID") (JStr "links.json"))
          init_state) /\
  key_errors
    (fst (link_loop (Concrete.of_files [] []) (JStr "links.json")
            (JStr "shard") (JStr "mobility.actor.Link")
            [Sample.anonymous_link] init_state))
  = [LinkKeyError "id" (JStr "unknown ID") (JStr "links.json")].
Proof.
  pose proof (link_key_error_message (Concrete.of_files [] [])
                (JStr "links.json") (JStr "shard")
                (JStr "mobility.actor.Link") init_state
                Sample.anonymous_link (k := "id") eq_refl eq_refl eq_refl)
    as (H1 & H2 & _).
  split; [exact H1 | exact H2].
Defined.

(** X12: whatever list of values a data file holds, the only exception
    that can leave the loop over its records is the [UnicodeEncodeError]
    of a print, in a handler or at line 129; no other exception of a
    record or of a handler does.  When the file path and what the loop
    shows of the malformed records can be printed, the loop runs to the
    end. *)
Theorem record_loops_raise_only_from_print (w : world)
  (file_path resource_id class_type : json) (records : list json)
  (st : state) :
  (snd (node_loop w file_path resource_id records st) = None \/
   snd (node_loop w file_path resource_id records st)
   = Some UnicodeEncodeError) /\
  (snd (link_loop w file_path resource_id class_type records st) = None \/
   snd (link_loop w file_path resource_id class_type records st)
   = Some UnicodeEncodeError) /\
  (printable w file_path = true ->
   forallb (node_printable w) records = true ->
   snd (node_loop w file_path resource_id records st) = None) /\
  (printable w file_path = true ->
   forallb (link_printable w) records = true ->
   snd (link_loop w file_path resource_id class_type records st) = None).
Proof.
  split; [|split; [|split]].
  - destruct (node_loop_spec w file_path resource_id records st)
      as (st1 & r & done & rest & -> & _ & [(-> & _) | (-> & _)] & _); auto.
  - destruct (link_loop_spec w file_path resource_id class_type records st)
      as (st1 & r & done & rest & msgs & -> & _ & [(-> & _) | (-> & _)] & _);
      auto.
  - intros Hfp Hall.
    destruct (node_loop_exact w file_path resource_id records st
                (or_introl Hfp) Hall) as (st1 & -> & _).
    reflexivity.
  - intros Hfp Hall.
    destruct (link_loop_exact w file_path resource_id class_type records st
                (or_introl Hfp) Hall) as (st1 & msgs & -> & _).
    reflexivity.
Qed.

Lemma record_loops_raise_only_from_print_witness :
  snd (node_loop (Concrete.of_files [] []) (JStr "nodes.json") (JStr "shard")
         [Sample.n1; Sample.n2_no_latitude; JInt 5; Sample.n6_null_data]
         init_state) = None /\
  snd (link_loop (Concrete.of_files [] []) (JStr "links.json") (JStr "shard")
         (JStr "mobility.actor.Link")
         [Sample.l0; Sample.l2_abc_length; Sample.l3_null_length;
          Sample.l4_no_endpoints; Sample.l5_null_dependencies; JInt 5]
         init_state) = None.
Proof.
  split.
  - apply (proj1 (proj2 (proj2
             (record_loops_raise_only_from_print (Concrete.of_files [] [])
                (JStr "nodes.json") (JStr "shard") JNull
                [Sample.n1; Sample.n2_no_latitude; JInt 5;
                 Sample.n6_null_data] init_state))));
      reflexivity.
  - apply (proj2 (proj2 (proj2
             (record_loops_raise_only_from_print (Concrete.of_files [] [])
                (JStr "links.json") (JStr "shard")
                (JStr "mobility.actor.Link")
                [Sample.l0; Sample.l2_abc_length; Sample.l3_null_length;
                 Sample.l4_no_endpoints; Sample.l5_null_dependencies; JInt 5]
                init_state))));
      reflexivity.
Defined.

(** ** Path remapping both ways *)

Lemma prefix_app_inv (d s : string) :
  String.prefix d s = true ->
  s = (d ++ str_drop (String.length d) s)%string.
Proof.
  revert s. induction d as [|c d IH]; intros s H.
  - reflexivity.
  - destruct s as [|c' s]; simpl in H; [discriminate|].
    destruct (ascii_dec c c'); [|discriminate].
    subst c'. simpl. f_equal. apply IH, H.
Qed.

(** X13: remapping a path that starts with the docker prefix to the host
    prefix and then remapping the result back gives the original path, for
    non-empty prefixes; and remapping with equal prefixes changes no
    path. *)
Theorem resolve_path_round_trip (d h p : string) :
  d <> "" -> h <> "" ->
  (String.prefix d p = true ->
   exists q,
     resolve_path (Some d) (Some h) (JStr p) = Ok (JStr q) /\
     resolve_path (Some h) (Some d) (JStr q) = Ok (JStr p)) /\
  resolve_path (Some d) (Some d) (JStr p) = Ok (JStr p).
Proof.
  intros Hd Hh. apply prefix_truthy_Some in Hd, Hh.
  unfold prefix_truthy in Hd, Hh.
  split.
  - intros Hp. apply prefix_app_inv in Hp.
    remember (str_drop (String.length d) p) as rest eqn:Hrest.
    clear Hrest. subst p.
    exists (h ++ rest)%string.
    unfold resolve_path, prefix_truthy. rewrite Hd, Hh. simpl.
    rewrite !prefix_app, !str_replace1_prefix. auto.
  - unfold resolve_path, prefix_truthy. rewrite Hd. simpl.
    destruct (String.prefix d p) eqn:Hp; [|reflexivity].
    apply prefix_app_inv in Hp.
    remember (str_drop (String.length d) p) as rest eqn:Hrest.
    clear Hrest. subst p.
    rewrite str_replace1_prefix. reflexivity.
Qed.

Lemma resolve_path_round_trip_witness :
  (exists q,
      resolve_path (Some "/app/data/") (Some "/host/sim/")
        (JStr "/app/data/nodes.json") = Ok (JStr q) /\
      resolve_path (Some "/host/sim/") (Some "/app/data/") (JStr q)
      = Ok (JStr "/app/data/nodes.json")) /\
  resolve_path (Some "/app/data/") (Some "/app/data/")
    (JStr "/app/data/nodes.json") = Ok (JStr "/app/data/nodes.json").
Proof.
  destruct (@resolve_path_round_trip "/app/data/" "/host/sim/"
              "/app/data/nodes.json") as (H1 & H2);
    try discriminate.
  split; [apply H1; reflexivity | exact H2].
Defined.

(** ** Records dropped without a trace *)

(** X15: a node record that yields no vertex and lacks no key (it is not
    an object, or a value on the way to a field is not an object, such as
    a [data] that is null) is dropped by the catch-all clause, which only
    prints: the state is left exactly as it was, whether or not the print
    raises, so the record appears neither in the output nor in any error
    list. *)
Theorem malformed_node_dropped_silently (w : world)
  (file_path resource_id : json) (st : state) (node : json) :
  valid_node node = false ->
  node_missing_field node = false ->
  process_node w file_path resource_id st node
  = (_ <- py_print w [file_path; node] ;; Ok st) /\
  fst (node_loop w file_path resource_id [node] st) = st /\
  (printable w file_path = true -> printable w node = true ->
   process_node w file_path resource_id st node = Ok st).
Proof.
  intros Hvalid Hmissing.
  assert (H : process_node w file_path resource_id st node
              = (_ <- py_print w [file_path; node] ;; Ok st)).
  { destruct (process_node_cases w file_path resource_id st node)
      as [(v & Hv & _) | [(_ & Hm & _) | (_ & _ & _ & H)]].
    - assert (valid_node node = true)
        by (apply (vertex_of_valid resource_id); eauto).
      congruence.
    - congruence.
    - exact H. }
  split; [exact H|]. simpl. rewrite H, after_print. simpl.
  split.
  - destruct (printable w file_path && (printable w node && true));
      reflexivity.
  - intros -> ->. reflexivity.
Qed.

Lemma malformed_node_dropped_silently_witness :
  process_node (Concrete.of_files [] []) (JStr "nodes.json") (JStr "shard")
    init_state (JInt 5)
  = Ok init_state /\
  process_node (Concrete.of_files [] []) (JStr "nodes.json") (JStr "shard")
    init_state Sample.n6_null_data
  = Ok init_state.
Proof.
  split.
  - apply (malformed_node_dropped_silently (Concrete.of_files [] [])
             (JStr "nodes.json") (JStr "shard") init_state (JInt 5));
      reflexivity.
  - apply (malformed_node_dropped_silently (Concrete.of_files [] [])
             (JStr "nodes.json") (JStr "shard") init_state
             Sample.n6_null_data); reflexivity.
Defined.
